(** * YEAP dashboard: survey aggregation, chart selection and rendering

    A shallow embedding of the two Streamlit report pages
    [streamlit/st_general_dashboard.py] (module [General]) and
    [streamlit/st_q345_dashboard.py] (module [Q345]), with the Python and
    pandas primitives they rely on (modules [Py], [Dict], [Frame]).

    Conventions of the embedding.
    - A Python [str] is a [string]; every [ascii] stands for one character
      (a code point below 256), so [len] is [String.length].
    - A Python [int] is a [Z].
    - A Python [dict] is an association list in insertion order.
    - Exceptions are values of [exn]; a computation that may raise returns
      [result].
    - Calls into the display layer ([st.error], [st.info], ...) are recorded
      as a list of [message]s, in the order they are emitted. *)

From Stdlib Require Import ZArith List String Ascii Bool Lia.
From Stdlib Require Import Permutation Sorted.
Import ListNotations.
Open Scope string_scope.
Open Scope list_scope.
Open Scope nat_scope.

(* ================================================================== *)
(** ** Python strings *)
(* ================================================================== *)

Module Py.

(** [sub in s] *)
Fixpoint contains (sub s : string) : bool :=
  prefix sub s ||
  match s with
  | EmptyString => false
  | String _ t => contains sub t
  end.

(** [c.isspace()] for the characters below 256. *)
Definition is_space (c : ascii) : bool :=
  let n := nat_of_ascii c in
  ((9 <=? n) && (n <=? 13)) || ((28 <=? n) && (n <=? 32))
  || (n =? 133) || (n =? 160).

Fixpoint lstrip_by (p : ascii -> bool) (s : string) : string :=
  match s with
  | EmptyString => EmptyString
  | String c t => if p c then lstrip_by p t else s
  end.

Fixpoint rstrip_by (p : ascii -> bool) (s : string) : string :=
  match s with
  | EmptyString => EmptyString
  | String c t =>
      match rstrip_by p t with
      | EmptyString => if p c then EmptyString else String c EmptyString
      | t' => String c t'
      end
  end.

(** [s.strip()] *)
Definition strip (s : string) : string :=
  rstrip_by is_space (lstrip_by is_space s).

(** [s.rstrip(chars)] for a one-character [chars]. *)
Definition rstrip_char (ch : ascii) (s : string) : string :=
  rstrip_by (Ascii.eqb ch) s.

(** [s.split(sep)] for a one-character separator. *)
Fixpoint split (sep : ascii) (s : string) : list string :=
  match s with
  | EmptyString => [EmptyString]
  | String c t =>
      if Ascii.eqb c sep then EmptyString :: split sep t
      else match split sep t with
           | w :: ws => String c w :: ws
           | [] => [String c EmptyString]
           end
  end.

(** [s.split(sep, 1)] when [sep] occurs in [s]: the text before the first
    separator and the text after it. *)
Fixpoint split_once (sep : ascii) (s : string) : option (string * string) :=
  match s with
  | EmptyString => None
  | String c t =>
      if Ascii.eqb c sep then Some (EmptyString, t)
      else match split_once sep t with
           | Some (a, b) => Some (String c a, b)
           | None => None
           end
  end.

(** [sep.join(parts)] *)
Definition join (sep : string) (parts : list string) : string :=
  String.concat sep parts.

Definition lower_char (c : ascii) : ascii :=
  let n := nat_of_ascii c in
  if ((65 <=? n) && (n <=? 90))
     || ((192 <=? n) && (n <=? 222) && negb (n =? 215))
  then ascii_of_nat (n + 32) else c.

(** [s.lower()] *)
Fixpoint lower (s : string) : string :=
  match s with
  | EmptyString => EmptyString
  | String c t => String (lower_char c) (lower t)
  end.

(** Decimal digits of a natural number, most significant first. *)
Fixpoint digits_fuel (fuel n : nat) (acc : string) : string :=
  match fuel with
  | O => acc
  | S fuel' =>
      let acc' := String (ascii_of_nat (48 + n mod 10)) acc in
      if n / 10 =? 0 then acc' else digits_fuel fuel' (n / 10) acc'
  end.

Definition str_nat (n : nat) : string := digits_fuel (S n) n EmptyString.

(** [str(z)] for an [int]. *)
Definition str_int (z : Z) : string :=
  if (z <? 0)%Z then String "-" (str_nat (Z.abs_nat z))
  else str_nat (Z.abs_nat z).

Definition is_digit (c : ascii) : bool :=
  let n := nat_of_ascii c in (48 <=? n) && (n <=? 57).

Definition digit_val (c : ascii) : Z := Z.of_nat (nat_of_ascii c - 48).

(** The digits of an integer literal: decimal digits, with single
    underscores allowed between two digits.  [prev] tells whether the
    previous character was a digit. *)
Fixpoint parse_digits (s : string) (prev : bool) (acc : Z) : option Z :=
  match s with
  | EmptyString => if prev then Some acc else None
  | String c t =>
      if is_digit c then parse_digits t true (acc * 10 + digit_val c)%Z
      else if Ascii.eqb c "_" then
             if prev then parse_digits t false acc else None
           else None
  end.

(** [int(s)] for a [str]: [None] stands for the [ValueError]. *)
Definition parse_int (s : string) : option Z :=
  match strip s with
  | String "+" t => parse_digits t false 0%Z
  | String "-" t => option_map Z.opp (parse_digits t false 0%Z)
  | t => parse_digits t false 0%Z
  end.

End Py.

(* ================================================================== *)
(** ** Python dictionaries *)
(* ================================================================== *)

Module Dict.
Section Ops.
Context {V : Type}.

Definition dict : Type := list (string * V).

Definition keys (d : dict) : list string := map fst d.
Definition values (d : dict) : list V := map snd d.

(** [d.get(k)] *)
Fixpoint get (d : dict) (k : string) : option V :=
  match d with
  | [] => None
  | (k', v) :: t => if String.eqb k' k then Some v else get t k
  end.

(** [d.get(k, default)] *)
Definition get_default (d : dict) (k : string) (default : V) : V :=
  match get d k with Some v => v | None => default end.

(** [k in d] *)
Definition mem (d : dict) (k : string) : bool :=
  match get d k with Some _ => true | None => false end.

(** [d[k] = v]: an existing key keeps its place, a new one goes last. *)
Fixpoint set (d : dict) (k : string) (v : V) : dict :=
  match d with
  | [] => [(k, v)]
  | (k', v') :: t =>
      if String.eqb k' k then (k, v) :: t else (k', v') :: set t k v
  end.

(** [del d[k]] *)
Definition del (d : dict) (k : string) : dict :=
  filter (fun kv => negb (String.eqb (fst kv) k)) d.

End Ops.
Arguments dict : clear implicits.
End Dict.


(* ================================================================== *)
(** ** Exceptions and display-layer messages *)
(* ================================================================== *)

(** The exceptions the two pages can meet, each with the text of
    [str(e)].  [InvalidLiteral s] is the [ValueError] that [int(s)] raises
    on a [str] that is not an integer literal; [OtherException] is any other
    subclass of [Exception], with the name of its class. *)
Inductive exn : Type :=
| UnicodeDecodeError (text : string)
| FileNotFoundError (text : string)
| InvalidLiteral (s : string)
| ValueError (text : string)
| OtherException (name text : string).

(** [str(e)]; the literal of [InvalidLiteral] is shown between quotes. *)
Definition exn_text (e : exn) : string :=
  match e with
  | UnicodeDecodeError text => text
  | FileNotFoundError text => text
  | InvalidLiteral s =>
      ("invalid literal for int() with base 10: '" ++ s ++ "'")%string
  | ValueError text => text
  | OtherException _ text => text
  end.

Inductive result (A : Type) : Type :=
| Ok (a : A)
| Raise (e : exn).
Arguments Ok {A} a.
Arguments Raise {A} e.

Definition bind {A B : Type} (r : result A) (k : A -> result B) : result B :=
  match r with
  | Ok a => k a
  | Raise e => Raise e
  end.

(** What the pages hand to [st.error], [st.success], [st.info] and
    [st.warning]; each constructor is one call site. *)
Inductive message : Type :=
| FailedToRead (file_path : string) (e : exn)
    (* st.error(f"Failed to read {file_path}: {str(e)}") *)
| MissingColumns
    (* st.error("CSV file must contain 'question', 'option', and 'count' columns") *)
| LoadedQuestions (n : nat)
    (* st.success(f"Successfully loaded {n} questions") *)
| NoValidData
    (* st.error("No valid data found in the file") *)
| ErrorLoadingData (e : exn)
    (* st.error(f"Error loading data: {e}") *)
| ErrorCreatingChart (e : exn)
    (* st.error(f"Error creating chart: {str(e)}") *)
| NoDataAvailable
    (* st.error("No data available. Please check the data files.") *)
| NoQuestionsAvailable
    (* st.warning("No questions available for analysis.") *)
| NoValidResponseData
    (* st.info("No valid response data available for this question.") *)
| NoResponseData
    (* st.info("No response data available for this question.") *)
| PleaseSelectQuestion
    (* st.info("Please select a question to view the analysis.") *)
| DataFilesNotFound (e : exn)
    (* st.error(f"Data files not found: {str(e)}") *)
| RegionFilterNotAvailable
    (* st.sidebar.info("Regional filtering not available - no region data found.") *)
| ShowingDataFor (region : string).
    (* st.info(f"Showing data for: {selected_region}") *)

(* ================================================================== *)
(** ** pandas tables *)
(* ================================================================== *)

Module Frame.

(** A cell of a table read by [pd.read_csv]: a gap ([NaN], which is what
    an empty field and the usual markers of a missing value become), an
    integer, a boolean or a text.  A column with a text that is no number
    holds texts throughout; a numeric cell is carried by its integer
    value.  A column of whole numbers with a gap is read as floating-point
    numbers, whose [str] ends in [.0]: [str] below is that of the cells of
    a column without gaps. *)
Inductive cell : Type :=
| NaN
| Int (z : Z)
| Bool (b : bool)
| Str (s : string).

Record DataFrame : Type := {
  columns : list string;
  rows : list (list cell)
}.

(** [pd.DataFrame()] *)
Definition empty : DataFrame := {| columns := []; rows := [] |}.

(** [col in df.columns] *)
Definition has_column (df : DataFrame) (col : string) : bool :=
  existsb (String.eqb col) (columns df).

(** [row[col]] for a row of a table whose columns are [cols]; a column
    that is not there, or a row that stops short, gives a gap. *)
Fixpoint at_column (cols : list string) (row : list cell) (col : string) : cell :=
  match cols, row with
  | c :: cols', x :: row' => if String.eqb c col then x else at_column cols' row' col
  | _, _ => NaN
  end.

(** [pd.notna(x)] *)
Definition notna (x : cell) : bool :=
  match x with NaN => false | _ => true end.

(** [str(x)] *)
Definition str (x : cell) : string :=
  match x with
  | NaN => "nan"
  | Int z => Py.str_int z
  | Bool true => "True"
  | Bool false => "False"
  | Str s => s
  end.

(** [int(x)] for a cell that is not a gap. *)
Definition int (x : cell) : result Z :=
  match x with
  | NaN => Raise (ValueError "cannot convert float NaN to integer")
  | Int z => Ok z
  | Bool b => Ok (if b then 1%Z else 0%Z)
  | Str s => match Py.parse_int s with
             | Some z => Ok z
             | None => Raise (InvalidLiteral s)
             end
  end.

(** [df[mask]]: the rows whose cell in column [col] satisfies [p]. *)
Definition select (df : DataFrame) (col : string) (p : cell -> bool) : DataFrame :=
  {| columns := columns df;
     rows := filter (fun row => p (at_column (columns df) row col)) (rows df) |}.

(** [(df[col] == text).sum()] *)
Definition count_equal (df : DataFrame) (col : string) (text : string) : nat :=
  List.length
    (filter (fun row => match at_column (columns df) row col with
                        | Str s => String.eqb s text
                        | _ => false
                        end) (rows df)).

End Frame.

(* ================================================================== *)
(** ** Charts *)
(* ================================================================== *)

(** The chart-type keys the pages pass around. *)
Inductive chart_type : Type :=
| table
| pie
| bar
| horizontal_bar.

(** What a page hands to [st.plotly_chart].
    - [Styled] is the call [create_chart(data, chart_type, title)] into the
      shared style module, taken when that module can be imported;
    - [PieChart], [BarChart] and [HorizontalBarChart] are the figures of the
      backup branch, with their categories and values;
    - [Annotation] is a figure without a trace, carrying only a text. *)
Inductive figure : Type :=
| Styled (data : Dict.dict Z) (kind : chart_type) (title : string)
| PieChart (labels : list string) (values : list Z) (title : string)
| BarChart (x : list string) (y : list Z) (title : string)
| HorizontalBarChart (x : list Z) (y : list string) (title : string)
| Annotation (text : string) (title : string) (height : Z).

(** A figure that shows data: it has a trace. *)
Definition has_trace (fig : figure) : bool :=
  match fig with
  | Annotation _ _ _ => false
  | _ => true
  end.

(* ================================================================== *)
(** ** The general page: [streamlit/st_general_dashboard.py] *)
(* ================================================================== *)

Module General.

Definition encodings : list string :=
  ["utf-8"; "latin-1"; "cp1252"; "iso-8859-1"].

Section Loader.

(** [pd.read_csv(file_path, encoding=...)], or [pd.read_csv(file_path)]
    when no encoding is given: the table parsed, or the exception raised. *)
Variable read_csv : string -> option string -> result Frame.DataFrame.

(** The loop over [encodings]: [None] when every attempt raised
    [UnicodeDecodeError]; otherwise the first attempt that did not, which
    either returned a table or raised another exception. *)
Fixpoint try_encodings (file_path : string) (encs : list string)
  : option (result Frame.DataFrame) :=
  match encs with
  | [] => None
  | encoding :: rest =>
      match read_csv file_path (Some encoding) with
      | Ok df => Some (Ok df)
      | Raise (UnicodeDecodeError _) => try_encodings file_path rest
      | Raise e => Some (Raise e)
      end
  end.

Definition safe_read_csv (file_path : string)
  : result Frame.DataFrame * list message :=
  match try_encodings file_path encodings with
  | Some r => (r, [])
  | None =>
      match read_csv file_path None with
      | Ok df => (Ok df, [])
      | Raise e => (Ok Frame.empty, [FailedToRead file_path e])
      end
  end.

End Loader.

(** [self.questions_data]: question label to option label to count. *)
Definition questions : Type := Dict.dict (Dict.dict Z).

(** The year filter of [load_data]: [selected_year] is
    [st.session_state.get('selected_year', 'All')]. *)
Definition year_filter (selected_year : string) (df : Frame.DataFrame)
  : Frame.DataFrame :=
  if String.eqb selected_year "All" then df
  else
    let same_year x := String.eqb (Py.strip (Frame.str x)) selected_year in
    if Frame.has_column df "YEAR" then Frame.select df "YEAR" same_year
    else if Frame.has_column df "year" then Frame.select df "year" same_year
    else df.

(** One turn of the loop over [df.iterrows()]. *)
Definition add_row (cols : list string) (questions_data : questions)
  (row : list Frame.cell) : result questions :=
  let question := Py.strip (Frame.str (Frame.at_column cols row "question")) in
  let option := Py.strip (Frame.str (Frame.at_column cols row "option")) in
  let cnt := Frame.at_column cols row "count" in
  bind (if Frame.notna cnt then Frame.int cnt else Ok 0%Z) (fun count =>
  let options_data := Dict.get_default questions_data question [] in
  Ok (Dict.set questions_data question (Dict.set options_data option count))).

Fixpoint add_rows (cols : list string) (questions_data : questions)
  (rows : list (list Frame.cell)) : result questions :=
  match rows with
  | [] => Ok questions_data
  | row :: rest =>
      bind (add_row cols questions_data row) (fun questions_data' =>
      add_rows cols questions_data' rest)
  end.

(** The body of the loop of [_merge_other_options], for one question. *)
Definition merge_other (question_key : string) (options_data : Dict.dict Z)
  : Dict.dict Z :=
  if Py.contains "Q4:" question_key || Py.contains "Q5:" question_key then
    let other_count := Dict.get_default options_data "Other" 0%Z in
    let other_elaborated_count :=
      Dict.get_default options_data "Other (elaborated answ)" 0%Z in
    if (0 <? other_count)%Z || (0 <? other_elaborated_count)%Z then
      let d1 :=
        if Dict.mem options_data "Other" then Dict.del options_data "Other"
        else options_data in
      let d2 :=
        if Dict.mem d1 "Other (elaborated answ)"
        then Dict.del d1 "Other (elaborated answ)" else d1 in
      Dict.set d2 "Other" (other_count + other_elaborated_count)%Z
    else options_data
  else options_data.

Definition _merge_other_options (questions_data : questions) : questions :=
  map (fun kv => (fst kv, merge_other (fst kv) (snd kv))) questions_data.

(** [load_data], from the table that [safe_read_csv] returned: the year
    filter, the check of the columns, the loop over the rows and the
    Other-merge. *)
Definition load_table (selected_year : string) (df : Frame.DataFrame)
  : questions * list message :=
  let df := year_filter selected_year df in
  if negb (Frame.has_column df "question")
     || negb (Frame.has_column df "option")
     || negb (Frame.has_column df "count")
  then ([], [MissingColumns])
  else
    match add_rows (Frame.columns df) [] (Frame.rows df) with
    | Raise e => ([], [ErrorLoadingData e])
    | Ok [] => ([], [NoValidData])
    | Ok questions_data =>
        (_merge_other_options questions_data,
         [LoadedQuestions (List.length questions_data)])
    end.

(** [GeneralDataProcessor.load_data]: the value left in
    [self.questions_data] and the messages emitted. *)
Definition load_data (read_csv : string -> option string -> result Frame.DataFrame)
  (csv_file_path selected_year : string) : questions * list message :=
  match safe_read_csv read_csv csv_file_path with
  | (Raise e, msgs) => ([], msgs ++ [ErrorLoadingData e])
  | (Ok df, msgs) =>
      let '(questions_data, msgs') := load_table selected_year df in
      (questions_data, msgs ++ msgs')
  end.

(** [_extract_question_number]: the numeral of a label that starts with
    [Q] or [q], one or more digits and a colon; 999 otherwise. *)
Fixpoint leading_digits (s : string) : string * string :=
  match s with
  | String c t =>
      if Py.is_digit c then
        let '(ds, rest) := leading_digits t in (String c ds, rest)
      else (EmptyString, s)
  | EmptyString => (EmptyString, EmptyString)
  end.

Definition _extract_question_number (question_text : string) : Z :=
  match question_text with
  | String c t =>
      if Ascii.eqb c "Q" || Ascii.eqb c "q" then
        match leading_digits t with
        | (String d ds, String ":" _) =>
            match Py.parse_digits (String d ds) false 0%Z with
            | Some n => n
            | None => 999%Z
            end
        | _ => 999%Z
        end
      else 999%Z
  | EmptyString => 999%Z
  end.

(** [max(len(str(label)) for label in data.keys())] *)
Definition max_label_length {V : Type} (data : Dict.dict V) : nat :=
  fold_right Nat.max 0 (map String.length (Dict.keys data)).

(** [Visualizer.auto_select_chart_type] *)
Definition auto_select_chart_type {V : Type} (data : Dict.dict V) : chart_type :=
  match data with
  | [] => table
  | _ =>
      let num_options := List.length data in
      if num_options <=? 5 then pie
      else if (20 <? max_label_length data) || (10 <? num_options)
           then horizontal_bar
           else bar
  end.

Definition max_length : nat := 50.

(** One turn of the word loop of [process_title_for_display]: the state is
    the list [lines] and the text [current_line]. *)
Definition wrap_step (state : list string * string) (word : string)
  : list string * string :=
  let '(lines, current_line) := state in
  if String.length current_line + String.length word + 1 <=? max_length then
    (lines,
     (current_line ++ (if String.eqb current_line "" then "" else " ") ++ word)%string)
  else
    ((if String.eqb current_line "" then lines else lines ++ [current_line]),
     word).

(** The lines the word loop leaves, once the last [current_line] is added. *)
Definition wrap_lines (words : list string) : list string :=
  let '(lines, current_line) := fold_left wrap_step words ([], "") in
  if String.eqb current_line "" then lines else lines ++ [current_line].

Definition process_title_for_display (title : string) : string :=
  if String.eqb title "" then title
  else
    match (if Py.contains "Q2:" title || Py.contains "Q3:" title
           then Py.split_once ":" title else None) with
    | Some (before, rest) =>
        let question_part := (before ++ ":")%string in
        let content_part := Py.strip rest in
        let combined_length :=
          String.length question_part + String.length content_part + 1 in
        if combined_length <=? 80 then title
        else
          let words := Py.split " " content_part in
          if 1 <? List.length words then
            let mid_point := List.length words / 2 in
            let first_part := Py.join " " (firstn mid_point words) in
            let second_part := Py.join " " (skipn mid_point words) in
            (question_part ++ " " ++ first_part ++ "<br>" ++ second_part)%string
          else
            (question_part ++ "<br>" ++ content_part)%string
    | None =>
        if String.length title <=? max_length then title
        else Py.join "<br>" (wrap_lines (Py.split " " title))
    end.

(** [str(key) if key else "Unknown"] *)
Definition clean_key (key : string) : string :=
  if String.eqb key "" then "Unknown" else key.

(** The cleaning loop of [create_chart_unified].  Every value that
    [load_data] stores is an [int], so the tests [key is not None],
    [value is not None] and [isinstance(value, (int, float))] hold and
    [float(value)], carried here by its exact value, does not raise; only
    the test [clean_value >= 0] decides.  The exact value is what binary64
    holds for a count of at most 2^53 in magnitude; beyond that
    [float(value)] rounds, and from 2^1024 on it raises [OverflowError]. *)
Definition clean_data_of (data : Dict.dict Z) : Dict.dict Z :=
  fold_left
    (fun clean_data kv =>
       if (0 <=? snd kv)%Z then Dict.set clean_data (clean_key (fst kv)) (snd kv)
       else clean_data)
    data [].

(** The figure built in the [try] block of [create_chart_unified].
    [STYLES_AVAILABLE] tells whether the shared style module was imported. *)
Definition build_chart (STYLES_AVAILABLE : bool) (data : Dict.dict Z)
  (kind : chart_type) (title : string) : result figure :=
  match data with
  | [] => Raise (ValueError "Invalid data: expected non-empty dictionary")
  | _ =>
      match clean_data_of data with
      | [] => Raise (ValueError "No valid data points found")
      | clean_data =>
          let processed_title := process_title_for_display title in
          if STYLES_AVAILABLE then Ok (Styled clean_data kind processed_title)
          else
            let categories := Dict.keys clean_data in
            let values := Dict.values clean_data in
            match kind with
            | pie => Ok (PieChart categories values processed_title)
            | horizontal_bar =>
                Ok (HorizontalBarChart values categories processed_title)
            | _ => Ok (BarChart categories values processed_title)
            end
      end
  end.

Definition create_chart_unified (STYLES_AVAILABLE : bool) (data : Dict.dict Z)
  (kind : chart_type) (title : string) : figure * list message :=
  match build_chart STYLES_AVAILABLE data kind title with
  | Ok fig => (fig, [])
  | Raise e =>
      (Annotation
         ("Chart Error: " ++ exn_text e
          ++ "<br>Please try selecting a different question or chart type.")%string
         (if String.eqb title "" then "Chart Error" else title)
         400%Z,
       [ErrorCreatingChart e])
  end.

(** A row of the table under the chart: the columns [Option], [Count]
    (the value of [float(value)]) and [Percentage]. *)
Record table_row : Type := {
  Option : string;
  Count : Z;
  Percentage : string
}.

(** [df.sort_values('Count', ascending=False)], as an insertion sort that
    keeps rows of equal count in their order; pandas promises no order
    among rows of equal count. *)
Fixpoint insert_by_count (item : string * Z) (sorted : list (string * Z))
  : list (string * Z) :=
  match sorted with
  | [] => [item]
  | x :: rest =>
      if (snd x <=? snd item)%Z then item :: sorted
      else x :: insert_by_count item rest
  end.

Definition sort_values (items : list (string * Z)) : list (string * Z) :=
  fold_right insert_by_count [] items.

(** The nearest integer to [num / den] for [0 < den], ties to even. *)
Definition round_half_even (num den : Z) : Z :=
  let q := (num / den)%Z in
  let r := (num mod den)%Z in
  if (2 * r <? den)%Z then q
  else if (den <? 2 * r)%Z then (q + 1)%Z
  else if Z.even q then q else (q + 1)%Z.

(** [(count / total_count * 100).round(1)] for [total_count > 0], in
    tenths and without its sign.  pandas evaluates the column in binary
    floating point and rounds with [rint]; the embedding takes the exact
    quotient and rounds it to the nearest tenth, ties to even. *)
Definition percentage_tenths (count total_count : Z) : Z :=
  round_half_even (Z.abs count * 1000) total_count.

(** [... .astype(str) + '%']: the sign, the number with one decimal, then
    the percent sign. *)
Definition percentage_text (count total_count : Z) : string :=
  let tenths := percentage_tenths count total_count in
  ((if (count <? 0)%Z then "-" else "")
   ++ Py.str_int (tenths / 10) ++ "." ++ Py.str_int (tenths mod 10) ++ "%")%string.

(** [df['Count'].sum()] *)
Definition sum_counts (items : list (string * Z)) : Z :=
  fold_right Z.add 0%Z (map snd items).

(** The table block of [create_layout]: [None] when no table is shown.
    As in [clean_data_of], every value is an [int]. *)
Definition percentage_table (filtered_data : Dict.dict Z)
  : option (list table_row) * list message :=
  match filtered_data with
  | [] => (None, [NoResponseData])
  | _ =>
      let valid_items := map (fun kv => (clean_key (fst kv), snd kv)) filtered_data in
      match valid_items with
      | [] => (None, [NoValidResponseData])
      | _ =>
          let df := sort_values valid_items in
          let total_count := sum_counts df in
          let percentage count :=
            if (0 <? total_count)%Z then percentage_text count total_count
            else "0%" in
          (Some (map (fun item =>
                        {| Option := fst item;
                           Count := snd item;
                           Percentage := percentage (snd item) |}) df),
           [])
      end
  end.

(** The entries of the [Chart Type] select box. *)
Inductive chart_option : Type :=
| Bar_Chart
| Pie_Chart
| Horizontal_Bar.

(** [chart_type_mapping.get(auto_chart_type, 'Bar Chart')] *)
Definition default_chart (auto_chart_type : chart_type) : chart_option :=
  match auto_chart_type with
  | pie => Pie_Chart
  | horizontal_bar => Horizontal_Bar
  | _ => Bar_Chart
  end.

Definition chart_type_key (choice : chart_option) : chart_type :=
  match choice with
  | Bar_Chart => bar
  | Pie_Chart => pie
  | Horizontal_Bar => horizontal_bar
  end.

(** [sum(question_data.values()) if question_data else 0] *)
Definition total_of (question_data : Dict.dict Z) : Z :=
  fold_right Z.add 0%Z (Dict.values question_data).

(** The filter that [create_layout] applies to the selected question. *)
Definition filter_question (selected_question : string)
  (question_data : Dict.dict Z) : Dict.dict Z :=
  if Py.contains "Q4:" selected_question || Py.contains "Q5:" selected_question
  then
    if (0 <? total_of question_data)%Z then
      filter (fun kv => negb (Py.contains "other" (Py.lower (fst kv))))
             question_data
    else question_data
  else question_data.

(** What the page shows for the selected question. *)
Record page : Type := {
  chart : option figure;
  data_table : option (list table_row);
  messages : list message
}.

(** [create_layout], from the loaded [questions_data] on.
    [selected_question] is the value of the question select box, whose
    entries are [filtered_questions] (their order on the screen, by question
    number, plays no part here), and [user_choice] what the user picked in
    the chart-type select box, if anything: without a pick the box holds
    its default entry. *)
Definition create_layout (STYLES_AVAILABLE : bool) (questions_data : questions)
  (selected_question : string) (user_choice : option chart_option) : page :=
  match questions_data with
  | [] => {| chart := None; data_table := None; messages := [NoDataAvailable] |}
  | _ =>
      let filtered_questions :=
        filter (fun q => (_extract_question_number q <=? 5)%Z)
               (Dict.keys questions_data) in
      match filtered_questions with
      | [] => {| chart := None; data_table := None;
                 messages := [NoQuestionsAvailable] |}
      | _ =>
          match (if String.eqb selected_question "" then None
                 else Dict.get questions_data selected_question) with
          | None => {| chart := None; data_table := None;
                       messages := [PleaseSelectQuestion] |}
          | Some question_data =>
              let auto_chart_type := auto_select_chart_type question_data in
              let choice :=
                match user_choice with
                | Some c => c
                | None => default_chart auto_chart_type
                end in
              let filtered_data :=
                filter_question selected_question question_data in
              let '(fig, msgs) :=
                create_chart_unified STYLES_AVAILABLE filtered_data
                                     (chart_type_key choice) selected_question in
              let '(tbl, msgs') := percentage_table filtered_data in
              {| chart := Some fig; data_table := tbl;
                 messages := msgs ++ msgs' |}
          end
      end
  end.

End General.

(* ================================================================== *)
(** ** The specialized page: [streamlit/st_q345_dashboard.py] *)
(* ================================================================== *)

Module Q345.

Definition encodings : list string :=
  ["utf-8"; "latin-1"; "cp1252"; "iso-8859-1"].

Section Loader.

Variable read_csv : string -> option string -> result Frame.DataFrame.

Fixpoint try_encodings (file_path : string) (encs : list string)
  : option (result Frame.DataFrame) :=
  match encs with
  | [] => None
  | encoding :: rest =>
      match read_csv file_path (Some encoding) with
      | Ok df => Some (Ok df)
      | Raise (UnicodeDecodeError _) => try_encodings file_path rest
      | Raise e => Some (Raise e)
      end
  end.

Definition safe_read_csv (file_path : string)
  : result Frame.DataFrame * list message :=
  match try_encodings file_path encodings with
  | Some r => (r, [])
  | None =>
      match read_csv file_path None with
      | Ok df => (Ok df, [])
      | Raise e => (Ok Frame.empty, [FailedToRead file_path e])
      end
  end.

End Loader.

(** [col.strip().rstrip('.')] *)
Definition clean_name (col : string) : string :=
  Py.rstrip_char "." (Py.strip col).

(** [process_question_data] *)
Definition process_question_data (data : Frame.DataFrame)
  (question_columns : list string) (group_name : string) : Dict.dict Z :=
  fold_left
    (fun results col =>
       if Frame.has_column data col then
         let yes_count := Z.of_nat (Frame.count_equal data col "YES") in
         if (0 <? yes_count)%Z then Dict.set results (clean_name col) yes_count
         else results
       else results)
    question_columns [].

Definition q3_columns : list string :=
  ["Knowledge development and dissemination. ";
   "Technical assistance and capacity-building of constituents. ";
   "Advocacy and partnerships. "].

(** The dash of the second name lies outside the characters of the
    embedding and stands here as its UTF-8 bytes; the page only trims the
    ends of a name. *)
Definition q4_columns : list string :=
  ["Employment and economic policies for youth employment. ";
   "Employability – Education, training and skills, and the school-to-work transition. ";
   "Labour market policies. ";
   "Youth entrepreneurship and self-employment. ";
   "Rights for young people. "].

Definition q5_columns : list string :=
  ["Young women";
   "Young people not in employment, education or training (NEET) ";
   "Young migrant workers ";
   "Young refugees ";
   "Young people - sexual orientation and gender identity ";
   "Young people with disabilities ";
   "Young rural workers  ";
   "Young indigenous people "].

(** [title_mapping.get(group, f"{group} Response Distribution")] *)
Definition chart_title (group : string) : string :=
  if String.eqb group "Q3" then
    "Distribution Of Outputs Across The Clusters Of The Implementation Framework"
  else if String.eqb group "Q4" then
    "Distribution Of Outputs Across The Pillars Of The Call For Action On Youth Employment"
  else if String.eqb group "Q5" then
    "Distribution Of Outputs Across Target Youth Groups, When Applicable"
  else (group ++ " Response Distribution")%string.

(** [create_standardized_chart] *)
Definition create_standardized_chart (STYLES_AVAILABLE : bool)
  (data_dict : Dict.dict Z) (group : string) (kind : chart_type) : figure :=
  if (match data_dict with [] => true | _ => false end)
     || forallb (fun v => (v =? 0)%Z) (Dict.values data_dict)
  then
    Annotation ("No data available for " ++ group)%string
               (group ++ " Response Distribution")%string 500%Z
  else if STYLES_AVAILABLE then Styled data_dict kind (chart_title group)
  else
    let categories := Dict.keys data_dict in
    let values := Dict.values data_dict in
    match kind with
    | pie => PieChart categories values (chart_title group)
    | _ => BarChart categories values (chart_title group)
    end.

(** ['bar' if len(results) >= 5 else 'pie'] *)
Definition select_chart_type {V : Type} (results : Dict.dict V) : chart_type :=
  if 5 <=? List.length results then bar else pie.

(** The chart of one group: what [create_layout] passes to
    [st.plotly_chart] for the table [data] of that group. *)
Definition group_chart (STYLES_AVAILABLE : bool) (data : Frame.DataFrame)
  (question_columns : list string) (group : string) : figure :=
  let results := process_question_data data question_columns group in
  create_standardized_chart STYLES_AVAILABLE results group
                            (select_chart_type results).

(** The year filter applied to each of the three tables. *)
Definition year_filter (selected_year : string) (df : Frame.DataFrame)
  : Frame.DataFrame :=
  if String.eqb selected_year "All" then df
  else
    let same_year x := String.eqb (Py.strip (Frame.str x)) selected_year in
    if Frame.has_column df "YEAR" then Frame.select df "YEAR" same_year
    else if Frame.has_column df "year" then Frame.select df "year" same_year
    else df.

(** [df[df['Department/Region'] == selected_region]]; a table without the
    column raises [KeyError]. *)
Definition region_filter (selected_region : string) (df : Frame.DataFrame)
  : result Frame.DataFrame :=
  if Frame.has_column df "Department/Region" then
    Ok (Frame.select df "Department/Region"
          (fun x => match x with
                    | Frame.Str s => String.eqb s selected_region
                    | _ => false
                    end))
  else Raise (OtherException "KeyError" "'Department/Region'").

(** [os.path.join(project_root, 'orignaldata', name)] *)
Definition data_path (project_root name : string) : string :=
  (project_root ++ "/orignaldata/" ++ name)%string.

(** The three charts of the page and the messages emitted. *)
Record page : Type := {
  charts : list figure;
  messages : list message
}.

Section Layout.

Variable STYLES_AVAILABLE : bool.
Variable read_csv : string -> option string -> result Frame.DataFrame.
Variable project_root : string.
(** [st.session_state.get('selected_year', 'All')] *)
Variable selected_year : string.
(** [st.session_state['selected_region']] when the session holds both
    [selected_region] and [regions_options]. *)
Variable session_region : option string.
(** The entry picked in the side-bar select box otherwise. *)
Variable sidebar_region : string.

(** The three reads at the top of [create_layout]: the first exception
    ends them. *)
Definition read_tables
  : result (Frame.DataFrame * Frame.DataFrame * Frame.DataFrame) * list message :=
  match safe_read_csv read_csv (data_path project_root "PART2_base_dataQ3.csv") with
  | (Raise e, m3) => (Raise e, m3)
  | (Ok q3_data, m3) =>
      match safe_read_csv read_csv (data_path project_root "PART2_base_dataQ4.csv") with
      | (Raise e, m4) => (Raise e, m3 ++ m4)
      | (Ok q4_data, m4) =>
          match safe_read_csv read_csv (data_path project_root "PART2_base_dataQ5.csv") with
          | (Raise e, m5) => (Raise e, m3 ++ m4 ++ m5)
          | (Ok q5_data, m5) => (Ok (q3_data, q4_data, q5_data), m3 ++ m4 ++ m5)
          end
      end
  end.

(** [create_layout]: the page, or the exception that leaves it. *)
Definition create_layout : result page :=
  match read_tables with
  | (Raise (FileNotFoundError text), msgs) =>
      Ok {| charts := [];
            messages := msgs ++ [DataFilesNotFound (FileNotFoundError text)] |}
  | (Raise e, _) => Raise e
  | (Ok (q3_data, q4_data, q5_data), msgs) =>
      let q3_data := year_filter selected_year q3_data in
      let q4_data := year_filter selected_year q4_data in
      let q5_data := year_filter selected_year q5_data in
      let '(has_region_data, selected_region, msgs_region) :=
        match session_region with
        | Some r => (true, r, [])
        | None =>
            if Frame.has_column q3_data "Department/Region"
            then (true, sidebar_region, [])
            else (false, "All", [RegionFilterNotAvailable])
        end in
      let show q3 q4 q5 more :=
        {| charts := [group_chart STYLES_AVAILABLE q3 q3_columns "Q3";
                      group_chart STYLES_AVAILABLE q4 q4_columns "Q4";
                      group_chart STYLES_AVAILABLE q5 q5_columns "Q5"];
           messages := msgs ++ msgs_region ++ more |} in
      if has_region_data && negb (String.eqb selected_region "All") then
        bind (region_filter selected_region q3_data) (fun filtered_q3 =>
        bind (region_filter selected_region q4_data) (fun filtered_q4 =>
        bind (region_filter selected_region q5_data) (fun filtered_q5 =>
        Ok (show filtered_q3 filtered_q4 filtered_q5
                 [ShowingDataFor selected_region]))))
      else Ok (show q3_data q4_data q5_data [])
  end.

End Layout.

End Q345.

(* ================================================================== *)
(** ** Vocabulary of the properties and sample inputs *)
(* ================================================================== *)

Definition other_key : string := "Other".
Definition elaborated_key : string := "Other (elaborated answ)".

(** An entry that is neither of the two catch-all labels. *)
Definition is_regular (k : string) : bool :=
  negb (String.eqb k other_key) && negb (String.eqb k elaborated_key).

Definition merge_example : General.questions :=
  [("Q1: Gender", [("Other", 1%Z); ("Woman", 7%Z)]);
   ("Q4: Areas", [("Jobs", 5%Z); ("Other", 2%Z);
                  ("Other (elaborated answ)", 3%Z); ("Skills", 4%Z)]);
   ("Q5: Groups", [("Women", 3%Z); ("Other", 0%Z)])].

Definition three_options : Dict.dict Z :=
  [("Yes", 30%Z); ("No", 20%Z); ("Not sure", 4%Z)].

Definition five_options : Dict.dict Z :=
  [("Strongly agree", 12%Z); ("Agree", 20%Z); ("Neutral", 7%Z);
   ("Disagree", 3%Z); ("Strongly disagree", 1%Z)].

Definition seven_options : Dict.dict Z :=
  [("Africa", 9%Z); ("Americas", 8%Z); ("Arab States", 2%Z);
   ("Asia and the Pacific", 11%Z); ("Europe", 6%Z); ("Headquarters", 14%Z);
   ("Global", 3%Z)].

Definition seven_long_options : Dict.dict Z :=
  [("Africa", 9%Z); ("Americas", 8%Z); ("Arab States", 2%Z);
   ("Asia and the Pacific", 11%Z); ("Europe and Central Asia", 6%Z);
   ("Headquarters", 14%Z); ("Global", 3%Z)].

(** An attempt that ended in [UnicodeDecodeError]. *)
Definition is_decode_error {A : Type} (r : result A) : bool :=
  match r with
  | Raise (UnicodeDecodeError _) => true
  | _ => false
  end.

(** What the loader does with the outcome of the unqualified parse. *)
Definition fallback_outcome (file_path : string) (r : result Frame.DataFrame)
  : result Frame.DataFrame * list message :=
  match r with
  | Ok df => (Ok df, [])
  | Raise e => (Ok Frame.empty, [FailedToRead file_path e])
  end.

(** A file system on which no file exists. *)
Definition no_such_file (file_path : string) (encoding : option string)
  : result Frame.DataFrame :=
  Raise (FileNotFoundError "[Errno 2] No such file or directory").

(** A file that no encoding decodes. *)
Definition undecodable_file (file_path : string) (encoding : option string)
  : result Frame.DataFrame :=
  Raise (UnicodeDecodeError "invalid start byte").

(** A file that only decodes as cp1252. *)
Definition cp1252_file (file_path : string) (encoding : option string)
  : result Frame.DataFrame :=
  match encoding with
  | Some "cp1252" =>
      Ok {| Frame.columns := ["question"; "option"; "count"];
            Frame.rows := [[Frame.Str "Q1: X"; Frame.Str "Yes"; Frame.Int 30]] |}
  | _ => Raise (UnicodeDecodeError "invalid start byte")
  end.

(** The count that [load_data] stores for a cell of the [count] column
    that is a gap or converts with [int]. *)
Definition coerced_count (c : Frame.cell) : Z :=
  if Frame.notna c then
    match Frame.int c with
    | Ok z => z
    | Raise _ => 0%Z
    end
  else 0%Z.

(** A cell of the [count] column on which the conversion does not raise:
    a gap, or a value that [int] accepts. *)
Definition count_converts (c : Frame.cell) : bool :=
  negb (Frame.notna c)
  || match Frame.int c with Ok _ => true | Raise _ => false end.

(** The (question, option) pair of a row. *)
Definition row_key (cols : list string) (row : list Frame.cell)
  : string * string :=
  (Py.strip (Frame.str (Frame.at_column cols row "question")),
   Py.strip (Frame.str (Frame.at_column cols row "option"))).

(** [questions_data[q][o]], when both keys are there. *)
Definition lookup (questions_data : General.questions) (key : string * string)
  : option Z :=
  match Dict.get questions_data (fst key) with
  | Some d => Dict.get d (snd key)
  | None => None
  end.

(** A table with a gap in its [count] column. *)
Definition table_with_gap : Frame.DataFrame :=
  {| Frame.columns := ["question"; "option"; "count"];
     Frame.rows := [[Frame.Str "Q1: X"; Frame.Str "Yes"; Frame.Int 30];
                    [Frame.Str "Q1: X"; Frame.Str " No "; Frame.NaN]] |}.

(** A table with a text that is no number in its [count] column; the
    column then holds texts throughout. *)
Definition table_with_text : Frame.DataFrame :=
  {| Frame.columns := ["question"; "option"; "count"];
     Frame.rows := [[Frame.Str "Q1: X"; Frame.Str "Yes"; Frame.Str "30"];
                    [Frame.Str "Q1: X"; Frame.Str "No"; Frame.Str "twelve"]] |}.

(** Every character of [s] satisfies [p]. *)
Fixpoint all_chars (p : ascii -> bool) (s : string) : bool :=
  match s with
  | EmptyString => true
  | String c t => p c && all_chars p t
  end.

Definition first_char (s : string) : option ascii :=
  match s with
  | EmptyString => None
  | String c _ => Some c
  end.

Fixpoint last_char (s : string) : option ascii :=
  match s with
  | EmptyString => None
  | String c EmptyString => Some c
  | String _ t => last_char t
  end.

(** The character, if there is one, does not satisfy [p]. *)
Definition rejects (p : ascii -> bool) (c : option ascii) : Prop :=
  match c with
  | Some c => p c = false
  | None => True
  end.

Definition is_period (c : ascii) : bool := Ascii.eqb "." c.

(** Removal of exactly one trailing period, as the specification words the
    cleaning of a column name. *)
Fixpoint remove_one_trailing_period (s : string) : string :=
  match s with
  | EmptyString => EmptyString
  | String c EmptyString => if is_period c then EmptyString else s
  | String c t => String c (remove_one_trailing_period t)
  end.

Definition spec_clean_name (col : string) : string :=
  remove_one_trailing_period (Py.strip col).

(** The column-flag table of the example: ten respondents, six of them
    with YES under the first column and none under the second. *)
Definition flags_example : Frame.DataFrame :=
  {| Frame.columns := ["A. "; "B. "];
     Frame.rows :=
       [[Frame.Str "YES"; Frame.Str "NO"]; [Frame.Str "YES"; Frame.Str "NO"];
        [Frame.Str "YES"; Frame.NaN];      [Frame.Str "NO"; Frame.Str "NO"];
        [Frame.Str "YES"; Frame.Str "NO"]; [Frame.NaN; Frame.Str "NO"];
        [Frame.Str "YES"; Frame.Str "NO"]; [Frame.Str "NO"; Frame.NaN];
        [Frame.Str "Yes"; Frame.Str "NO"]; [Frame.Str "YES"; Frame.Str "NO"]] |}.

(** The groups of the specialized page: the known column names of each,
    with the name under which [create_layout] hands them to
    [process_question_data]. *)
Definition known_groups : list (list string * string) :=
  [(Q345.q3_columns, "Q3"); (Q345.q4_columns, "Q4"); (Q345.q5_columns, "Q5")].

(** A table of the first group: four respondents, three of them with YES
    under the first column, none under the third; the second column is
    not in the table. *)
Definition q3_flags : Frame.DataFrame :=
  {| Frame.columns := ["Knowledge development and dissemination. ";
                       "Advocacy and partnerships. "];
     Frame.rows :=
       [[Frame.Str "YES"; Frame.Str "NO"]; [Frame.Str "YES"; Frame.Str "NO"];
        [Frame.Str "NO"; Frame.Str "NO"];  [Frame.Str "YES"; Frame.NaN]] |}.

(** The entry that a column of a flag table contributes, if any. *)
Definition flag_entry (data : Frame.DataFrame) (col : string) : option Z :=
  let yes_count := Z.of_nat (Frame.count_equal data col "YES") in
  if Frame.has_column data col && (0 <? yes_count)%Z then Some yes_count
  else None.

(** [tenths / 10] is a one-decimal number nearest to
    [|count| / total * 100]: they differ by at most one twentieth. *)
Definition nearest_tenth (count total tenths : Z) : Prop :=
  (Z.abs (2 * (tenths * total - 1000 * Z.abs count)) <= total)%Z.

(** The text of a number given in tenths, with its sign and percent sign. *)
Definition one_decimal_percent (negative : bool) (tenths : Z) : string :=
  ((if negative then "-" else "")
   ++ Py.str_int (tenths / 10) ++ "." ++ Py.str_int (tenths mod 10) ++ "%")%string.

(** The (Option, Count) pair of a table row. *)
Definition row_item (r : General.table_row) : string * Z :=
  (General.Option r, General.Count r).

(** The items a mapping contributes to the table. *)
Definition table_items (data : Dict.dict Z) : list (string * Z) :=
  map (fun kv => (General.clean_key (fst kv), snd kv)) data.

Definition yes_no : Dict.dict Z := [("No", 20%Z); ("Yes", 30%Z)].



(** The table row of an item, for a given total. *)
Definition table_row_of (total_count : Z) (item : string * Z)
  : General.table_row :=
  {| General.Option := fst item;
     General.Count := snd item;
     General.Percentage :=
       if (0 <? total_count)%Z
       then General.percentage_text (snd item) total_count
       else "0%" |}.

(** The category labels and the values that a figure shows. *)
Definition figure_labels (fig : figure) : list string :=
  match fig with
  | Styled data _ _ => Dict.keys data
  | PieChart labels _ _ => labels
  | BarChart x _ _ => x
  | HorizontalBarChart _ y _ => y
  | Annotation _ _ _ => []
  end.

Definition figure_values (fig : figure) : list Z :=
  match fig with
  | Styled data _ _ => Dict.values data
  | PieChart _ values _ => values
  | BarChart _ y _ => y
  | HorizontalBarChart x _ _ => x
  | Annotation _ _ _ => []
  end.

(** ['other' in k.lower()] *)
Definition mentions_other (k : string) : bool :=
  Py.contains "other" (Py.lower k).

(** A question of the Q4/Q5 kind. *)
Definition is_q4_q5 (q : string) : bool :=
  Py.contains "Q4:" q || Py.contains "Q5:" q.

Definition all_zero : General.questions :=
  [("Q1: X", [("Yes", 0%Z); ("No", 0%Z)])].

Definition with_negative : General.questions :=
  [("Q1: X", [("A", (-3)%Z); ("B", 5%Z)])].

Definition q4_with_other : General.questions :=
  [("Q4: Areas", [("Jobs", 5%Z); ("Skills", 4%Z); ("Another area", 1%Z);
                  ("Other", 5%Z)]);
   ("Q5: Groups", [("Women", 0%Z); ("Other", 0%Z)]);
   ("Q1: Gender", [("Other", 1%Z); ("Woman", 7%Z)])].

(** A line of a wrapped title, as the words it packs. *)
Definition line_of (group : list string) : string := Py.join " " group.

Definition is_word (w : string) : bool := negb (String.eqb w "").

(** A line respects the limit, or it is one word that alone exceeds it. *)
Definition line_fits (group : list string) : Prop :=
  String.length (line_of group) <= General.max_length
  \/ exists w, group = [w] /\ General.max_length < String.length w.

(** Greedy packing: the first word of a line did not fit at the end of the
    line before it. *)
Inductive greedy : list (list string) -> Prop :=
| greedy_nil : greedy []
| greedy_one (group : list string) : greedy [group]
| greedy_cons (a : list string) (w : string) (b : list string)
    (rest : list (list string)) :
    General.max_length < String.length (line_of a) + String.length w + 1 ->
    greedy ((w :: b) :: rest) ->
    greedy (a :: (w :: b) :: rest).

(** A title without marker, with one word of 63 characters. *)
Definition title_with_link : string :=
  "See https://www.ilo.org/global/topics/youth-employment/publications".

(** A Q3 title of 90 characters. *)
Definition long_q3_title : string :=
  "Q3: Which clusters of the implementation framework did the outputs of your office support?".

(** What the word loop of [process_title_for_display] maintains: the lines
    already closed and the current line are the texts of groups of words;
    [words] are the words consumed so far. *)
Definition wrap_invariant (words : list string) (state : list string * string)
  : Prop :=
  exists (closed : list (list string)) (current : list string),
    fst state = map line_of closed
    /\ snd state = line_of current
    /\ (snd state = "" -> current = [])
    /\ Forall (fun g => g <> []) closed
    /\ filter is_word (List.concat closed ++ current) = filter is_word words
    /\ Forall line_fits closed
    /\ (current <> [] -> line_fits current)
    /\ greedy (closed ++ match current with [] => [] | _ => [current] end)
    /\ (current = [] -> forall pre a,
          closed = pre ++ [a] ->
          General.max_length <= String.length (line_of a)).

(** One turn of the cleaning loop of [create_chart_unified]. *)
Definition clean_step (clean_data : Dict.dict Z) (kv : string * Z)
  : Dict.dict Z :=
  if (0 <=? snd kv)%Z
  then Dict.set clean_data (General.clean_key (fst kv)) (snd kv)
  else clean_data.

(* ================================================================== *)
(** ** The question list of the general page *)
(* ================================================================== *)

Module Listing.

(** [sorted(..., key=...)] is stable: a question goes before the first
    one whose number is not smaller. *)
Fixpoint insert_by_number (q : string) (sorted : list string) : list string :=
  match sorted with
  | [] => [q]
  | x :: rest =>
      if (General._extract_question_number q
          <=? General._extract_question_number x)%Z
      then q :: sorted
      else x :: insert_by_number q rest
  end.

(** [sorted(questions_data.keys(), key=lambda x: _extract_question_number(x))] *)
Definition sorted_questions (questions_data : General.questions) : list string :=
  fold_right insert_by_number [] (Dict.keys questions_data).

(** [[q for q in sorted_questions if _extract_question_number(q) <= 5]] *)
Definition filtered_questions (questions_data : General.questions)
  : list string :=
  filter (fun q => (General._extract_question_number q <=? 5)%Z)
         (sorted_questions questions_data).

End Listing.

(* ================================================================== *)
(** ** Vocabulary of the further properties *)
(* ================================================================== *)

(** Ascending order of question numbers. *)
Definition number_le (a b : string) : Prop :=
  (General._extract_question_number a <= General._extract_question_number b)%Z.

(** A label without white space around it. *)
Definition trimmed (s : string) : Prop := Py.strip s = s.

(** The messages by which [load_data] reports a failure. *)
Definition is_load_failure (m : message) : bool :=
  match m with
  | MissingColumns | NoValidData | ErrorLoadingData _ => true
  | _ => false
  end.

(** The chart type that a figure with a trace was drawn with. *)
Definition figure_kind (fig : figure) : option chart_type :=
  match fig with
  | Styled _ kind _ => Some kind
  | PieChart _ _ _ => Some pie
  | BarChart _ _ _ => Some bar
  | HorizontalBarChart _ _ _ => Some horizontal_bar
  | Annotation _ _ _ => None
  end.

(** The sum of the rounded percentages of a list of items, in tenths. *)
Definition sum_tenths (total : Z) (items : list (string * Z)) : Z :=
  fold_right Z.add 0%Z
    (map (fun item => General.percentage_tenths (snd item) total) items).

(** A known column that is present and has at least one YES. *)
Definition answered (data : Frame.DataFrame) (col : string) : bool :=
  Frame.has_column data col && (0 <? Frame.count_equal data col "YES").

(** What [load_data] keeps of a table: questions and options are keyed
    once, by trimmed labels, and every question has an option. *)
Definition well_formed (questions_data : General.questions) : Prop :=
  NoDup (Dict.keys questions_data)
  /\ forall q d, In (q, d) questions_data ->
       trimmed q /\ d <> [] /\ NoDup (Dict.keys d)
       /\ forall o, In o (Dict.keys d) -> trimmed o.

(** The entries of a mapping that the chart of the general page keeps. *)
Definition nonnegative_entries (data : Dict.dict Z) : Dict.dict Z :=
  filter (fun kv => (0 <=? snd kv)%Z) data.

Definition figure_title (fig : figure) : string :=
  match fig with
  | Styled _ _ title
  | PieChart _ _ title
  | BarChart _ _ title
  | HorizontalBarChart _ _ title
  | Annotation _ title _ => title
  end.

(** One turn of the loop of [process_question_data]. *)
Definition flag_step (data : Frame.DataFrame) (results : Dict.dict Z)
  (col : string) : Dict.dict Z :=
  if Frame.has_column data col then
    let yes_count := Z.of_nat (Frame.count_equal data col "YES") in
    if (0 <? yes_count)%Z then Dict.set results (Q345.clean_name col) yes_count
    else results
  else results.

Definition region_column : string := "Department/Region".

(** A flag table with the region of each respondent. *)
Definition flags_by_region : Frame.DataFrame :=
  {| Frame.columns := ["Department/Region"; "YEAR"; "Young women"];
     Frame.rows :=
       [[Frame.Str "Africa"; Frame.Int 2023; Frame.Str "YES"];
        [Frame.Str "Africa"; Frame.Int 2024; Frame.Str "YES"];
        [Frame.Str "Europe"; Frame.Int 2024; Frame.Str "YES"];
        [Frame.Str "Africa"; Frame.Int 2024; Frame.Str "NO"]] |}.

(** The three group tables all have the region column. *)
Definition all_have_region (q3_data q4_data q5_data : Frame.DataFrame) : bool :=
  Frame.has_column q3_data region_column
  && Frame.has_column q4_data region_column
  && Frame.has_column q5_data region_column.

(** A message that reports that the data files are not found. *)
Definition is_not_found_message (m : message) : bool :=
  match m with
  | DataFilesNotFound (FileNotFoundError _) => true
  | _ => false
  end.

(** Three group tables, the second of which has no region column. *)
Definition tables_without_region (file_path : string) (encoding : option string)
  : result Frame.DataFrame :=
  if Py.contains "Q4" file_path then Ok flags_example else Ok flags_by_region.

(** The entry of the chart-type select box: the pick of the user, or the
    default entry computed from the options of the question. *)
Definition chart_choice (user_choice : option General.chart_option)
  (question_data : Dict.dict Z) : General.chart_option :=
  match user_choice with
  | Some c => c
  | None => General.default_chart (General.auto_select_chart_type question_data)
  end.

(** A Q4 question with six options, one of them the catch-all. *)
Definition q4_six_options : General.questions :=
  [("Q4: Areas", [("Jobs", 5%Z); ("Skills", 4%Z); ("Rights", 1%Z);
                  ("Policies", 2%Z); ("Enterprise", 3%Z); ("Other", 5%Z)])].

(** The questions with a given number. *)
Definition has_number (n : Z) (q : string) : bool :=
  (General._extract_question_number q =? n)%Z.

Definition is_listed (q : string) : bool :=
  (General._extract_question_number q <=? 5)%Z.

Definition mixed_questions : General.questions :=
  [("Q10: Comments", [("Yes", 1%Z)]); ("Q3: Clusters", [("Yes", 2%Z)]);
   ("Region", [("Africa", 4%Z)]); ("q1: Gender", [("Woman", 7%Z)]);
   ("Q3: Outputs", [("No", 3%Z)])].

(** Data in which no question has a number up to 5. *)
Definition unnumbered_questions : General.questions :=
  [("Region", [("Africa", 4%Z)]); ("Q10: Comments", [("Yes", 1%Z)])].

(** Counts that binary64 holds exactly.  On them [float(value)] neither
    raises [OverflowError] nor rounds, so that the exact value by which
    the embedding carries it is the value the page works with. *)
Definition exact_counts (data : Dict.dict Z) : Prop :=
  forall kv, In kv data -> (Z.abs (snd kv) <= 2 ^ 53)%Z.

(** The largest total for which the percentage column, evaluated in
    binary64, lies within one twentieth of the exact percentage in every
    row: the three roundings of [count / total * 100] and of [round(1)]
    move a value by less than the distance of an exact percentage from
    the nearest rounding boundary. *)
Definition largest_total : Z := 10 ^ 12.

(** The failure of the loop over the rows of a table. *)
Definition is_loading_error (m : message) : bool :=
  match m with
  | ErrorLoadingData _ => true
  | _ => false
  end.

(** Question [q] is there with option [o]. *)
Definition has_option (questions_data : General.questions) (q o : string)
  : Prop :=
  exists d, Dict.get questions_data q = Some d /\ In o (Dict.keys d).

(** Every question of [a] is a question of [b], with every option that
    it has in [a]. *)
Definition covered (a b : General.questions) : Prop :=
  forall q d, Dict.get a q = Some d ->
    exists d', Dict.get b q = Some d' /\ incl (Dict.keys d) (Dict.keys d').

(** A table of two years; the years are whole numbers throughout. *)
Definition table_by_year : Frame.DataFrame :=
  {| Frame.columns := ["question"; "option"; "count"; "YEAR"];
     Frame.rows :=
       [[Frame.Str "Q1: X"; Frame.Str "Yes"; Frame.Int 30; Frame.Int 2023];
        [Frame.Str "Q2: Y"; Frame.Str "Yes"; Frame.Int 12; Frame.Int 2023];
        [Frame.Str "Q1: X"; Frame.Str "No"; Frame.Int 20; Frame.Int 2024]] |}.
(* ================================================================== *)
(** ** Facts about dictionaries *)
(* ================================================================== *)

Section DictFacts.
Context {V : Type}.
Implicit Types (d : Dict.dict V) (k : string) (v : V).

Lemma get_set_same d k v : Dict.get (Dict.set d k v) k = Some v.
Proof.
  induction d as [|[k' v'] t IH]; simpl.
  - now rewrite String.eqb_refl.
  - destruct (String.eqb_spec k' k) as [->|Hne]; simpl.
    + now rewrite String.eqb_refl.
    + destruct (String.eqb_spec k' k); [contradiction| exact IH].
Qed.

Lemma get_set_other d k k' v :
  k <> k' -> Dict.get (Dict.set d k v) k' = Dict.get d k'.
Proof.
  intros Hne. induction d as [|[k0 v0] t IH]; simpl.
  - destruct (String.eqb_spec k k'); [contradiction|reflexivity].
  - destruct (String.eqb_spec k0 k) as [->|Hk]; simpl.
    + destruct (String.eqb_spec k k'); [contradiction|reflexivity].
    + destruct (String.eqb_spec k0 k'); [reflexivity|exact IH].
Qed.

Lemma get_del_same d k : Dict.get (Dict.del d k) k = None.
Proof.
  induction d as [|[k0 v0] t IH]; simpl; [reflexivity|].
  destruct (String.eqb_spec k0 k) as [->|Hk]; simpl; [exact IH|].
  destruct (String.eqb_spec k0 k); [contradiction|exact IH].
Qed.

Lemma get_del_other d k k' :
  k <> k' -> Dict.get (Dict.del d k) k' = Dict.get d k'.
Proof.
  intros Hne. induction d as [|[k0 v0] t IH]; simpl; [reflexivity|].
  destruct (String.eqb_spec k0 k) as [->|Hk]; simpl.
  - destruct (String.eqb_spec k k'); [contradiction|exact IH].
  - destruct (String.eqb_spec k0 k'); [reflexivity|exact IH].
Qed.

Lemma get_None_not_In d k : Dict.get d k = None -> ~ In k (Dict.keys d).
Proof.
  induction d as [|[k0 v0] t IH]; simpl; [tauto|].
  destruct (String.eqb_spec k0 k) as [->|Hk]; [discriminate|].
  intros H [E|Hin]; [contradiction|]. now apply IH.
Qed.

Lemma get_Some_In d k v : Dict.get d k = Some v -> In (k, v) d.
Proof.
  induction d as [|[k0 v0] t IH]; simpl; [discriminate|].
  destruct (String.eqb_spec k0 k) as [->|Hk].
  - intros [= ->]. now left.
  - intros H. right. now apply IH.
Qed.

Lemma keys_set_absent d k v :
  ~ In k (Dict.keys d) -> Dict.keys (Dict.set d k v) = Dict.keys d ++ [k].
Proof.
  induction d as [|[k0 v0] t IH]; simpl; [reflexivity|].
  intros Hn. destruct (String.eqb_spec k0 k) as [->|Hk]; [tauto|].
  simpl. f_equal. apply IH. tauto.
Qed.

Lemma mem_true_iff d k : Dict.mem d k = true <-> In k (Dict.keys d).
Proof.
  unfold Dict.mem. split.
  - destruct (Dict.get d k) eqn:E; [|discriminate].
    intros _. apply get_Some_In in E. now apply (in_map fst) in E.
  - intros Hin. destruct (Dict.get d k) eqn:E; [reflexivity|].
    now apply get_None_not_In in E.
Qed.

(** Setting a key that a filter rejects leaves the filtered entries alone. *)
Lemma filter_set_rejected (p : string -> bool) d k v :
  p k = false ->
  filter (fun kv => p (fst kv)) (Dict.set d k v)
  = filter (fun kv => p (fst kv)) d.
Proof.
  intros Hp. induction d as [|[k0 v0] t IH]; simpl.
  - now rewrite Hp.
  - destruct (String.eqb_spec k0 k) as [->|Hk]; simpl.
    + now rewrite Hp.
    + now rewrite IH.
Qed.

Lemma filter_del_rejected (p : string -> bool) d k :
  p k = false ->
  filter (fun kv => p (fst kv)) (Dict.del d k)
  = filter (fun kv => p (fst kv)) d.
Proof.
  intros Hp. induction d as [|[k0 v0] t IH]; simpl; [reflexivity|].
  destruct (String.eqb_spec k0 k) as [->|Hk]; simpl.
  - now rewrite Hp.
  - now rewrite IH.
Qed.

Lemma del_absent d k : Dict.mem d k = false -> Dict.del d k = d.
Proof.
  intros Hm. unfold Dict.del. apply forallb_filter_id.
  apply forallb_forall. intros [k0 v0] Hin. simpl.
  destruct (String.eqb_spec k0 k) as [->|]; [|reflexivity].
  apply (in_map fst) in Hin. simpl in Hin.
  apply mem_true_iff in Hin. congruence.
Qed.

(** [if k in d: del d[k]] *)
Lemma del_if_mem d k :
  (if Dict.mem d k then Dict.del d k else d) = Dict.del d k.
Proof.
  destruct (Dict.mem d k) eqn:Hm; [reflexivity|].
  symmetry. now apply del_absent.
Qed.

End DictFacts.

(* ================================================================== *)
(** ** The Other-merge *)
(* ================================================================== *)

Lemma merge_other_table (questions_data : General.questions) (q : string) :
  Dict.get (General._merge_other_options questions_data) q
  = option_map (General.merge_other q) (Dict.get questions_data q).
Proof.
  unfold General._merge_other_options.
  induction questions_data as [|[k d] t IH]; simpl; [reflexivity|].
  destruct (String.eqb_spec k q) as [->|Hk]; [reflexivity|exact IH].
Qed.

Lemma merge_other_keys (questions_data : General.questions) :
  Dict.keys (General._merge_other_options questions_data)
  = Dict.keys questions_data.
Proof.
  unfold General._merge_other_options, Dict.keys.
  rewrite map_map. reflexivity.
Qed.

(** The dictionary left once both catch-all labels are deleted. *)
Lemma merge_other_positive (q : string) (d : Dict.dict Z) :
  Py.contains "Q4:" q || Py.contains "Q5:" q = true ->
  (0 < Dict.get_default d other_key 0 \/
   0 < Dict.get_default d elaborated_key 0)%Z ->
  General.merge_other q d
  = Dict.set (Dict.del (Dict.del d other_key) elaborated_key) other_key
      (Dict.get_default d other_key 0 + Dict.get_default d elaborated_key 0)%Z.
Proof.
  intros Hq Hpos. unfold General.merge_other. rewrite Hq.
  fold other_key elaborated_key.
  assert (Hb : ((0 <? Dict.get_default d other_key 0)%Z
                || (0 <? Dict.get_default d elaborated_key 0)%Z) = true).
  { apply orb_true_iff. rewrite !Z.ltb_lt. exact Hpos. }
  rewrite Hb.
  rewrite (del_if_mem d other_key).
  rewrite (del_if_mem (Dict.del d other_key) elaborated_key).
  reflexivity.
Qed.

Lemma keys_del_In {V : Type} (d : Dict.dict V) (k k' : string) :
  In k' (Dict.keys (Dict.del d k)) <-> In k' (Dict.keys d) /\ k' <> k.
Proof.
  unfold Dict.keys, Dict.del. rewrite !in_map_iff. split.
  - intros [[k0 v0] [E Hin]]. simpl in E. subst k0.
    apply filter_In in Hin. destruct Hin as [Hin Hb]. simpl in Hb.
    destruct (String.eqb_spec k' k); [discriminate|].
    split; [exists (k', v0); auto|assumption].
  - intros [[[k0 v0] [E Hin]] Hne]. simpl in E. subst k0.
    exists (k', v0). split; [reflexivity|]. apply filter_In. split; [assumption|].
    simpl. destruct (String.eqb_spec k' k); [contradiction|reflexivity].
Qed.

Lemma is_regular_other : is_regular other_key = false.
Proof. reflexivity. Qed.

Lemma is_regular_elaborated : is_regular elaborated_key = false.
Proof. reflexivity. Qed.

(** C1.  Other-merge: for a question whose label contains "Q4:" or "Q5:"
    and whose counts for "Other" and "Other (elaborated answ)" (an absent
    label counting for 0) are not both non-positive, the merged mapping has
    exactly one "Other" key, its value is the sum of the two counts, the key
    "Other (elaborated answ)" is gone and every other entry is unchanged
    (same value, same order); when both counts are absent or zero the
    mapping is unchanged. *)
Theorem merge_other_options_spec
  (questions_data : General.questions) (q : string) (d : Dict.dict Z) :
  Dict.get questions_data q = Some d ->
  Py.contains "Q4:" q || Py.contains "Q5:" q = true ->
  let other_count := Dict.get_default d other_key 0%Z in
  let other_elaborated_count := Dict.get_default d elaborated_key 0%Z in
  exists d',
    Dict.get (General._merge_other_options questions_data) q = Some d' /\
    ((0 < other_count \/ 0 < other_elaborated_count)%Z ->
       count_occ string_dec (Dict.keys d') other_key = 1
       /\ Dict.get d' other_key = Some (other_count + other_elaborated_count)%Z
       /\ ~ In elaborated_key (Dict.keys d')
       /\ filter (fun kv => is_regular (fst kv)) d'
          = filter (fun kv => is_regular (fst kv)) d
       /\ (forall k, k <> other_key -> k <> elaborated_key ->
                     Dict.get d' k = Dict.get d k))
    /\ (other_count = 0%Z /\ other_elaborated_count = 0%Z -> d' = d).
Proof.
  intros Hget Hq other_count other_elaborated_count.
  exists (General.merge_other q d). split.
  { rewrite merge_other_table, Hget. reflexivity. }
  split.
  - intros Hpos. rewrite (merge_other_positive q d Hq Hpos).
    fold other_count other_elaborated_count.
    set (d2 := Dict.del (Dict.del d other_key) elaborated_key).
    assert (Hno : ~ In other_key (Dict.keys d2)).
    { unfold d2. rewrite !keys_del_In. tauto. }
    repeat split.
    + rewrite (keys_set_absent d2 _ _ Hno), count_occ_app.
      apply (count_occ_not_In string_dec) in Hno. rewrite Hno. reflexivity.
    + apply get_set_same.
    + rewrite (keys_set_absent d2 _ _ Hno), in_app_iff.
      unfold d2. rewrite keys_del_In. simpl.
      intros [[_ H]|[H|[]]]; [now apply H|discriminate].
    + rewrite (filter_set_rejected is_regular _ _ _ is_regular_other).
      unfold d2.
      rewrite (filter_del_rejected is_regular _ _ is_regular_elaborated).
      apply (filter_del_rejected is_regular _ _ is_regular_other).
    + intros k Ho He. rewrite get_set_other by congruence.
      unfold d2. rewrite !get_del_other by congruence. reflexivity.
  - intros [Ho He]. unfold General.merge_other. rewrite Hq.
    fold other_key elaborated_key. fold other_count other_elaborated_count.
    rewrite Ho, He. reflexivity.
Qed.

Lemma merge_other_options_spec_witness :
  (exists d',
     Dict.get (General._merge_other_options merge_example) "Q4: Areas" = Some d'
     /\ count_occ string_dec (Dict.keys d') other_key = 1
     /\ Dict.get d' other_key = Some 5%Z
     /\ ~ In elaborated_key (Dict.keys d'))
  /\ Dict.get (General._merge_other_options merge_example) "Q5: Groups"
     = Some [("Women", 3%Z); ("Other", 0%Z)].
Proof.
  split.
  - destruct (merge_other_options_spec merge_example "Q4: Areas"
                [("Jobs", 5%Z); ("Other", 2%Z);
                 ("Other (elaborated answ)", 3%Z); ("Skills", 4%Z)]
                eq_refl eq_refl) as [d' [Hget [Hpos _]]].
    exists d'. split; [exact Hget|].
    destruct Hpos as [H1 [H2 [H3 _]]].
    + left. vm_compute. reflexivity.
    + auto.
  - destruct (merge_other_options_spec merge_example "Q5: Groups"
                [("Women", 3%Z); ("Other", 0%Z)] eq_refl eq_refl)
      as [d' [Hget [_ Hzero]]].
    rewrite Hget. f_equal. apply Hzero. split; reflexivity.
Defined.

(* ================================================================== *)
(** ** Chart selection *)
(* ================================================================== *)

Lemma max_label_length_bound {V : Type} (data : Dict.dict V) (k : string) :
  In k (Dict.keys data) -> String.length k <= General.max_label_length data.
Proof.
  unfold General.max_label_length.
  induction (Dict.keys data) as [|k0 ks IH]; simpl; [tauto|].
  intros [->|Hin]; [lia|]. specialize (IH Hin). lia.
Qed.

Lemma max_label_length_reached {V : Type} (data : Dict.dict V) :
  data <> [] ->
  exists k, In k (Dict.keys data)
            /\ String.length k = General.max_label_length data.
Proof.
  unfold General.max_label_length. intros Hne.
  assert (Hk : Dict.keys data <> []) by (destruct data; [congruence|discriminate]).
  induction (Dict.keys data) as [|k0 ks IH]; [congruence|]. simpl.
  destruct ks as [|k1 ks'].
  - exists k0. simpl. split; [now left|lia].
  - destruct IH as [k [Hin Hlen]]; [discriminate|].
    destruct (Nat.max_spec (String.length k0)
                (fold_right Nat.max 0 (map String.length (k1 :: ks'))))
      as [[_ E]|[_ E]]; rewrite E.
    + exists k. split; [now right|exact Hlen].
    + exists k0. split; [now left|reflexivity].
Qed.

(** C2.  Chart selectors: for a non-empty mapping, with [longest] the
    length of its longest label, the general page returns pie for at most 5
    options, and beyond 5 options horizontal bar when [longest] exceeds 20
    or there are more than 10 options, and vertical bar otherwise; the
    specialized page returns bar from 5 options on and pie below, whatever
    the labels are; with exactly 5 options the general page says pie and
    the specialized page says bar. *)
Theorem chart_selectors_spec {V : Type} (data : Dict.dict V) :
  data <> [] ->
  let n := List.length data in
  let longest := General.max_label_length data in
  (forall k, In k (Dict.keys data) -> String.length k <= longest)
  /\ (exists k, In k (Dict.keys data) /\ String.length k = longest)
  /\ (n <= 5 -> General.auto_select_chart_type data = pie)
  /\ (5 < n -> 20 < longest \/ 10 < n ->
      General.auto_select_chart_type data = horizontal_bar)
  /\ (5 < n -> longest <= 20 -> n <= 10 ->
      General.auto_select_chart_type data = bar)
  /\ (5 <= n -> Q345.select_chart_type data = bar)
  /\ (n < 5 -> Q345.select_chart_type data = pie)
  /\ (forall data' : Dict.dict V,
        List.length data' = n ->
        Q345.select_chart_type data' = Q345.select_chart_type data)
  /\ (n = 5 ->
      General.auto_select_chart_type data = pie
      /\ Q345.select_chart_type data = bar).
Proof.
  intros Hne n longest.
  assert (Hgen : General.auto_select_chart_type data
                 = if n <=? 5 then pie
                   else if (20 <? longest) || (10 <? n) then horizontal_bar
                        else bar).
  { destruct data; [congruence|reflexivity]. }
  assert (Hq : Q345.select_chart_type data = if 5 <=? n then bar else pie)
    by reflexivity.
  split; [intros k; apply max_label_length_bound|].
  split; [now apply max_label_length_reached|].
  repeat split.
  - intros H. rewrite Hgen. apply Nat.leb_le in H. now rewrite H.
  - intros H5 Hor. rewrite Hgen.
    destruct (Nat.leb_spec n 5); [lia|].
    assert (E : (20 <? longest) || (10 <? n) = true).
    { apply orb_true_iff. rewrite !Nat.ltb_lt. exact Hor. }
    now rewrite E.
  - intros H5 Hl Hn. rewrite Hgen.
    destruct (Nat.leb_spec n 5); [lia|].
    destruct (Nat.ltb_spec 20 longest); [lia|].
    destruct (Nat.ltb_spec 10 n); [lia|]. reflexivity.
  - intros H. rewrite Hq. apply Nat.leb_le in H. now rewrite H.
  - intros H. rewrite Hq. destruct (Nat.leb_spec 5 n); [lia|reflexivity].
  - intros data' Hlen. unfold Q345.select_chart_type. now rewrite Hlen.
  - rewrite Hgen. destruct (Nat.leb_spec n 5); [reflexivity|lia].
  - rewrite Hq. destruct (Nat.leb_spec 5 n); [reflexivity|lia].
Qed.

Lemma chart_selectors_spec_witness :
  (General.auto_select_chart_type five_options = pie
   /\ Q345.select_chart_type five_options = bar)
  /\ General.auto_select_chart_type seven_options = bar
  /\ General.auto_select_chart_type seven_long_options = horizontal_bar
  /\ Q345.select_chart_type three_options = pie.
Proof.
  assert (H5 : five_options <> []) by discriminate.
  assert (H7 : seven_options <> []) by discriminate.
  assert (H7' : seven_long_options <> []) by discriminate.
  assert (H3 : three_options <> []) by discriminate.
  split; [|split; [|split]].
  - destruct (chart_selectors_spec five_options H5)
      as (_ & _ & _ & _ & _ & _ & _ & _ & Hfive).
    apply Hfive. reflexivity.
  - destruct (chart_selectors_spec seven_options H7)
      as (_ & _ & _ & _ & Hbar & _).
    apply Hbar; vm_compute; lia.
  - destruct (chart_selectors_spec seven_long_options H7')
      as (_ & _ & _ & Hhorizontal & _).
    apply Hhorizontal; [|left]; vm_compute; lia.
  - destruct (chart_selectors_spec three_options H3)
      as (_ & _ & _ & _ & _ & _ & Hpie & _).
    apply Hpie. vm_compute. lia.
Defined.

(* ================================================================== *)
(** ** The CSV loader *)
(* ================================================================== *)

Lemma loaders_agree : Q345.safe_read_csv = General.safe_read_csv.
Proof. reflexivity. Qed.

Section LoaderFacts.
Variable read_csv : string -> option string -> result Frame.DataFrame.
Variable file_path : string.

(** The loop stops at the first attempt that is not a decoding error. *)
Lemma try_encodings_first (encs : list string) (i : nat) (enc : string) :
  nth_error encs i = Some enc ->
  (forall j enc', j < i -> nth_error encs j = Some enc' ->
     is_decode_error (read_csv file_path (Some enc')) = true) ->
  is_decode_error (read_csv file_path (Some enc)) = false ->
  General.try_encodings read_csv file_path encs
  = Some (read_csv file_path (Some enc)).
Proof.
  revert i. induction encs as [|e0 rest IH]; intros i Hnth Hbefore Hthis.
  - destruct i; discriminate.
  - destruct i as [|i]; simpl in Hnth.
    + injection Hnth as ->. simpl.
      destruct (read_csv file_path (Some enc)) as [df|[]]; try reflexivity.
      discriminate.
    + simpl. pose proof (Hbefore 0 e0 (Nat.lt_0_succ i) eq_refl) as H0.
      destruct (read_csv file_path (Some e0)) as [df|[]]; try discriminate.
      apply (IH i Hnth); [|exact Hthis].
      intros j enc' Hj Hn. apply (Hbefore (S j) enc'); [lia|exact Hn].
Qed.

Lemma try_encodings_exhausted (encs : list string) :
  (forall enc, In enc encs ->
     is_decode_error (read_csv file_path (Some enc)) = true) ->
  General.try_encodings read_csv file_path encs = None.
Proof.
  induction encs as [|e0 rest IH]; intros Hall; [reflexivity|]. simpl.
  pose proof (Hall e0 (or_introl eq_refl)) as H0.
  destruct (read_csv file_path (Some e0)) as [df|[]]; try discriminate.
  apply IH. intros enc Hin. apply Hall. now right.
Qed.

End LoaderFacts.

(** C3 (as amended).  On both pages the loader tries the listed encodings
    in order.  The first attempt that does not end in a decoding error
    decides: its table is returned, or its exception leaves the loader.
    Only when every listed encoding ends in a decoding error is the
    unqualified parse made: its table is returned, or on any exception the
    error message is emitted and an empty table returned. *)
Theorem safe_read_csv_spec
  (read_csv : string -> option string -> result Frame.DataFrame)
  (file_path : string) :
  (forall i enc,
      nth_error General.encodings i = Some enc ->
      (forall j enc', j < i -> nth_error General.encodings j = Some enc' ->
         is_decode_error (read_csv file_path (Some enc')) = true) ->
      is_decode_error (read_csv file_path (Some enc)) = false ->
      General.safe_read_csv read_csv file_path
      = (read_csv file_path (Some enc), [])
      /\ Q345.safe_read_csv read_csv file_path
         = (read_csv file_path (Some enc), []))
  /\ ((forall enc, In enc General.encodings ->
         is_decode_error (read_csv file_path (Some enc)) = true) ->
      General.safe_read_csv read_csv file_path
      = fallback_outcome file_path (read_csv file_path None)
      /\ Q345.safe_read_csv read_csv file_path
         = fallback_outcome file_path (read_csv file_path None)).
Proof.
  rewrite loaders_agree. split.
  - intros i enc Hnth Hbefore Hthis.
    assert (E : General.safe_read_csv read_csv file_path
                = (read_csv file_path (Some enc), [])).
    { unfold General.safe_read_csv.
      now rewrite (try_encodings_first read_csv file_path _ i enc). }
    now split.
  - intros Hall.
    assert (E : General.safe_read_csv read_csv file_path
                = fallback_outcome file_path (read_csv file_path None)).
    { unfold General.safe_read_csv.
      rewrite (try_encodings_exhausted read_csv file_path _ Hall).
      unfold fallback_outcome.
      now destruct (read_csv file_path None). }
    now split.
Qed.

Lemma safe_read_csv_spec_witness :
  General.safe_read_csv cp1252_file "PART1_base_dataQ2-5.csv"
  = (cp1252_file "PART1_base_dataQ2-5.csv" (Some "cp1252"), [])
  /\ Q345.safe_read_csv undecodable_file "PART2_base_dataQ3.csv"
     = (Ok Frame.empty,
        [FailedToRead "PART2_base_dataQ3.csv"
           (UnicodeDecodeError "invalid start byte")]).
Proof.
  split.
  - apply (proj1 (safe_read_csv_spec cp1252_file "PART1_base_dataQ2-5.csv")
             2 "cp1252" eq_refl).
    + intros j enc' Hj Hn.
      destruct j as [|[|j]]; [| |lia]; injection Hn as <-; reflexivity.
    + reflexivity.
  - apply (proj2 (safe_read_csv_spec undecodable_file "PART2_base_dataQ3.csv")).
    intros enc _. reflexivity.
Defined.

(** C3 as stated fails: where no file exists, the first attempt raises
    [FileNotFoundError], which is not a decoding error; it leaves the loader
    of either page, no message is emitted and no empty table returned. *)
Lemma safe_read_csv_missing_file_raises :
  General.safe_read_csv no_such_file "PART1_base_dataQ2-5.csv"
  = (Raise (FileNotFoundError "[Errno 2] No such file or directory"), [])
  /\ Q345.safe_read_csv no_such_file "PART2_base_dataQ3.csv"
     = (Raise (FileNotFoundError "[Errno 2] No such file or directory"), [])
  /\ ~ (forall read_csv file_path, exists df msgs,
          General.safe_read_csv read_csv file_path = (Ok df, msgs)).
Proof.
  split; [reflexivity|]. split; [reflexivity|].
  intros H. destruct (H no_such_file "PART1_base_dataQ2-5.csv") as [df [msgs E]].
  discriminate E.
Qed.

(* ================================================================== *)
(** ** The aggregator of the general page *)
(* ================================================================== *)

Section AddRows.
Variable cols : list string.

Lemma add_row_converts (qd : General.questions) (row : list Frame.cell) :
  count_converts (Frame.at_column cols row "count") = true ->
  General.add_row cols qd row
  = Ok (Dict.set qd (fst (row_key cols row))
          (Dict.set (Dict.get_default qd (fst (row_key cols row)) [])
                    (snd (row_key cols row))
                    (coerced_count (Frame.at_column cols row "count")))).
Proof.
  unfold count_converts, General.add_row, coerced_count, row_key. simpl.
  destruct (Frame.notna (Frame.at_column cols row "count")); simpl.
  - destruct (Frame.int (Frame.at_column cols row "count")); [reflexivity|discriminate].
  - reflexivity.
Qed.

Lemma lookup_set_same (qd : General.questions) (q o : string) (z : Z) :
  lookup (Dict.set qd q (Dict.set (Dict.get_default qd q []) o z)) (q, o)
  = Some z.
Proof.
  unfold lookup. simpl. rewrite get_set_same. apply get_set_same.
Qed.

Lemma lookup_set_other (qd : General.questions) (q o : string) (z : Z)
  (key : string * string) :
  key <> (q, o) ->
  lookup (Dict.set qd q (Dict.set (Dict.get_default qd q []) o z)) key
  = lookup qd key.
Proof.
  destruct key as [q' o']. intros Hne. unfold lookup. simpl.
  destruct (string_dec q q') as [<-|Hq].
  - rewrite get_set_same.
    rewrite get_set_other by congruence.
    unfold Dict.get_default. now destruct (Dict.get qd q).
  - now rewrite get_set_other.
Qed.

(** Rows whose counts convert never stop the loop, and the last row of a
    pair decides the value stored for it. *)
Lemma add_rows_converts (rows : list (list Frame.cell)) :
  forall qd : General.questions,
    (forall row, In row rows ->
       count_converts (Frame.at_column cols row "count") = true) ->
    exists qd',
      General.add_rows cols qd rows = Ok qd'
      /\ (forall key, (forall row, In row rows -> row_key cols row <> key) ->
                      lookup qd' key = lookup qd key)
      /\ (forall pre row post,
            rows = pre ++ row :: post ->
            (forall r, In r post -> row_key cols r <> row_key cols row) ->
            lookup qd' (row_key cols row)
            = Some (coerced_count (Frame.at_column cols row "count"))).
Proof.
  induction rows as [|r rest IH]; intros qd Hall.
  - exists qd. split; [reflexivity|]. split; [reflexivity|].
    intros pre row post E. destruct pre; discriminate.
  - simpl. rewrite add_row_converts by (apply Hall; now left).
    set (qd1 := Dict.set qd _ _).
    destruct (IH qd1) as [qd' [Hrun [Hkeep Hlast]]].
    { intros row Hin. apply Hall. now right. }
    exists qd'. split; [exact Hrun|]. split.
    + intros key Hnone. rewrite Hkeep.
      * unfold qd1. destruct (row_key cols r) as [q o] eqn:Ek. simpl.
        apply lookup_set_other. intros ->. apply (Hnone r); [now left|exact Ek].
      * intros row Hin. apply Hnone. now right.
    + intros pre row post E Hpost. destruct pre as [|r0 pre'].
      * simpl in E. injection E as -> ->.
        rewrite Hkeep by exact Hpost.
        unfold qd1. destruct (row_key cols row) as [q o]. simpl.
        apply lookup_set_same.
      * simpl in E. injection E as -> ->.
        now apply (Hlast pre' row post).
Qed.

End AddRows.

Lemma merge_other_regular (q o : string) (d : Dict.dict Z) :
  Py.contains "Q4:" q || Py.contains "Q5:" q = false \/ is_regular o = true ->
  Dict.get (General.merge_other q d) o = Dict.get d o.
Proof.
  intros H. unfold General.merge_other.
  destruct (Py.contains "Q4:" q || Py.contains "Q5:" q) eqn:Hq; [|reflexivity].
  destruct H as [H|Hreg]; [discriminate|].
  fold other_key elaborated_key.
  destruct ((0 <? Dict.get_default d other_key 0)%Z
            || (0 <? Dict.get_default d elaborated_key 0)%Z); [|reflexivity].
  rewrite !del_if_mem.
  unfold is_regular in Hreg. apply andb_true_iff in Hreg.
  destruct Hreg as [Ho He].
  apply negb_true_iff, String.eqb_neq in Ho, He.
  rewrite get_set_other by congruence.
  rewrite !get_del_other by congruence. reflexivity.
Qed.

(** C4 (as amended).  For a table (as left by the year filter) that has the
    required columns and whose [count] cells are all gaps or values that
    [int] accepts, loading does not fail and every row appears in the
    aggregated output: its (question, option) pair, trimmed, carries the
    converted count of the last row of that pair, which is 0 when the count
    is missing.  (The two catch-all labels of a Q4/Q5 question, which the
    Other-merge rewrites afterwards, are left aside.) *)
Theorem load_table_spec (selected_year : string) (df : Frame.DataFrame) :
  let df' := General.year_filter selected_year df in
  let cols := Frame.columns df' in
  Frame.has_column df' "question" = true ->
  Frame.has_column df' "option" = true ->
  Frame.has_column df' "count" = true ->
  (forall row, In row (Frame.rows df') ->
     count_converts (Frame.at_column cols row "count") = true) ->
  forall pre row post,
    Frame.rows df' = pre ++ row :: post ->
    (forall r, In r post -> row_key cols r <> row_key cols row) ->
    let q := fst (row_key cols row) in
    let o := snd (row_key cols row) in
    let c := Frame.at_column cols row "count" in
    Py.contains "Q4:" q || Py.contains "Q5:" q = false \/ is_regular o = true ->
    exists qd n,
      General.load_table selected_year df = (qd, [LoadedQuestions n])
      /\ lookup qd (q, o) = Some (coerced_count c)
      /\ (Frame.notna c = false -> lookup qd (q, o) = Some 0%Z).
Proof.
  intros df' cols Hq Ho Hc Hall pre row post Erows Hlast q o c Hreg.
  destruct (add_rows_converts cols (Frame.rows df') [] Hall)
    as [qd [Hrun [_ Hval]]].
  specialize (Hval pre row post Erows Hlast).
  assert (Hne : qd <> []).
  { intros ->. unfold lookup in Hval. simpl in Hval. discriminate. }
  exists (General._merge_other_options qd), (List.length qd).
  assert (Hlook : lookup (General._merge_other_options qd) (q, o)
                  = Some (coerced_count c)).
  { unfold lookup in *. simpl. rewrite merge_other_table.
    fold q o in Hval. simpl in Hval.
    destruct (Dict.get qd q) as [d|]; [|discriminate]. simpl.
    rewrite merge_other_regular by exact Hreg. exact Hval. }
  split; [|split].
  - unfold General.load_table. fold df'. rewrite Hq, Ho, Hc. simpl.
    fold cols. rewrite Hrun. destruct qd; [congruence|reflexivity].
  - exact Hlook.
  - intros Hna. rewrite Hlook. unfold coerced_count. now rewrite Hna.
Qed.

Lemma load_table_spec_witness :
  exists qd n,
    General.load_table "All" table_with_gap = (qd, [LoadedQuestions n])
    /\ lookup qd ("Q1: X", "No") = Some 0%Z.
Proof.
  destruct (load_table_spec "All" table_with_gap eq_refl eq_refl eq_refl)
    with (pre := [[Frame.Str "Q1: X"; Frame.Str "Yes"; Frame.Int 30]])
         (row := [Frame.Str "Q1: X"; Frame.Str " No "; Frame.NaN])
         (post := @nil (list Frame.cell))
    as [qd [n [Hload [_ Hzero]]]].
  - intros row [<-|[<-|[]]]; reflexivity.
  - reflexivity.
  - intros r [].
  - left. reflexivity.
  - exists qd, n. split; [exact Hload|]. apply Hzero. reflexivity.
Defined.

(** C4 as stated fails: a [count] that is a text and no number makes
    [int] raise; the loader reports the error and keeps nothing, neither a
    0 for that row nor the other row of the table. *)
Lemma load_table_text_count_fatal :
  General.load_table "All" table_with_text
  = ([], [ErrorLoadingData (InvalidLiteral "twelve")])
  /\ General.load_data (fun _ _ => Ok table_with_text)
       "PART1_base_dataQ2-5.csv" "All"
     = ([], [ErrorLoadingData (InvalidLiteral "twelve")])
  /\ lookup (fst (General.load_table "All" table_with_text)) ("Q1: X", "No")
     <> Some 0%Z
  /\ lookup (fst (General.load_table "All" table_with_text)) ("Q1: X", "Yes")
     = None.
Proof.
  split; [reflexivity|]. split; [reflexivity|].
  split; [discriminate|reflexivity].
Qed.

(* ================================================================== *)
(** ** The column-flag aggregator of the specialized page *)
(* ================================================================== *)

Lemma lstrip_by_spec (p : ascii -> bool) (s : string) :
  exists lead,
    s = (lead ++ Py.lstrip_by p s)%string
    /\ all_chars p lead = true
    /\ rejects p (first_char (Py.lstrip_by p s)).
Proof.
  induction s as [|c t IH]; simpl.
  - exists EmptyString. now repeat split.
  - destruct (p c) eqn:Hp.
    + destruct IH as [lead [E [Hall Hfirst]]].
      exists (String c lead). simpl. rewrite Hp, Hall. repeat split.
      * now rewrite <- E.
      * exact Hfirst.
    + exists EmptyString. now repeat split.
Qed.

Lemma rstrip_by_spec (p : ascii -> bool) (s : string) :
  exists trail,
    s = (Py.rstrip_by p s ++ trail)%string
    /\ all_chars p trail = true
    /\ rejects p (last_char (Py.rstrip_by p s)).
Proof.
  induction s as [|c t IH]; simpl.
  - exists EmptyString. now repeat split.
  - destruct IH as [trail [E [Hall Hlast]]].
    destruct (Py.rstrip_by p t) as [|c' t'] eqn:Et.
    + destruct (p c) eqn:Hp.
      * exists (String c trail). simpl. rewrite Hp, Hall. simpl in E.
        repeat split. now rewrite <- E.
      * exists trail. simpl in E. subst trail. simpl.
        split; [reflexivity|]. split; [exact Hall|exact Hp].
    + exists trail. repeat split.
      * simpl. simpl in E. now rewrite <- E.
      * exact Hall.
      * exact Hlast.
Qed.

Lemma rstrip_by_first (p : ascii -> bool) (s : string) :
  rejects p (first_char s) -> first_char (Py.rstrip_by p s) = first_char s.
Proof.
  destruct s as [|c t]; simpl; [reflexivity|]. intros Hp.
  destruct (Py.rstrip_by p t); [now rewrite Hp|reflexivity].
Qed.

(** The label is what is left of the column name once the white space
    around it and then all the periods at its end are taken away. *)
Lemma clean_name_spec (col : string) :
  exists lead dots trail,
    col = (lead ++ (Q345.clean_name col ++ dots) ++ trail)%string
    /\ all_chars Py.is_space lead = true
    /\ all_chars Py.is_space trail = true
    /\ rejects Py.is_space (first_char (Q345.clean_name col ++ dots))
    /\ rejects Py.is_space (last_char (Q345.clean_name col ++ dots))
    /\ all_chars is_period dots = true
    /\ rejects is_period (last_char (Q345.clean_name col)).
Proof.
  unfold Q345.clean_name, Py.rstrip_char, Py.strip.
  destruct (lstrip_by_spec Py.is_space col) as [lead [E1 [H1 F1]]].
  destruct (rstrip_by_spec Py.is_space (Py.lstrip_by Py.is_space col))
    as [trail [E2 [H2 L2]]].
  pose proof (rstrip_by_first Py.is_space _ F1) as F2.
  set (core := Py.rstrip_by Py.is_space (Py.lstrip_by Py.is_space col)) in *.
  destruct (rstrip_by_spec (Ascii.eqb ".") core) as [dots [E3 [H3 L3]]].
  exists lead, dots, trail. rewrite <- E3.
  split; [rewrite <- E2; exact E1|].
  split; [exact H1|]. split; [exact H2|].
  split; [rewrite F2; exact F1|].
  split; [exact L2|]. split; [exact H3|exact L3].
Qed.

Section FlagCounts.
Variable data : Frame.DataFrame.

Lemma flag_fold (cols : list string) :
  forall acc : Dict.dict Z,
    NoDup (map Q345.clean_name cols) ->
    (forall col, In col cols -> Dict.get acc (Q345.clean_name col) = None) ->
    let results :=
      fold_left
        (fun results col =>
           if Frame.has_column data col then
             let yes_count := Z.of_nat (Frame.count_equal data col "YES") in
             if (0 <? yes_count)%Z
             then Dict.set results (Q345.clean_name col) yes_count
             else results
           else results) cols acc in
    (forall col, In col cols ->
       Dict.get results (Q345.clean_name col) = flag_entry data col)
    /\ (forall k, ~ In k (map Q345.clean_name cols) ->
                  Dict.get results k = Dict.get acc k).
Proof.
  induction cols as [|c rest IH]; intros acc Hnd Hfresh; simpl.
  - split; [intros col []|reflexivity].
  - inversion Hnd as [|? ? Hnotin Hnd']; subst.
    set (acc1 := if Frame.has_column data c then _ else acc).
    assert (Hc : Dict.get acc1 (Q345.clean_name c) = flag_entry data c).
    { unfold acc1, flag_entry.
      destruct (Frame.has_column data c); simpl.
      - destruct (0 <? Z.of_nat (Frame.count_equal data c "YES"))%Z.
        + apply get_set_same.
        + apply Hfresh. now left.
      - apply Hfresh. now left. }
    assert (Hother : forall k, k <> Q345.clean_name c ->
                               Dict.get acc1 k = Dict.get acc k).
    { intros k Hk. unfold acc1.
      destruct (Frame.has_column data c); [|reflexivity].
      destruct (0 <? Z.of_nat (Frame.count_equal data c "YES"))%Z;
        [|reflexivity].
      apply get_set_other. congruence. }
    destruct (IH acc1 Hnd') as [Hin Hout].
    { intros col Hcol. rewrite Hother.
      - apply Hfresh. now right.
      - intros E. apply Hnotin. rewrite <- E. now apply in_map. }
    split.
    + intros col [<-|Hcol]; [|now apply Hin].
      rewrite Hout by exact Hnotin. exact Hc.
    + intros k Hk. simpl in Hk. rewrite Hout by tauto.
      apply Hother. intros E. apply Hk. left. congruence.
Qed.

End FlagCounts.

Lemma known_groups_labels (question_columns : list string)
  (group_name : string) :
  In (question_columns, group_name) known_groups ->
  NoDup (map Q345.clean_name question_columns)
  /\ map Q345.clean_name question_columns
     = map spec_clean_name question_columns.
Proof.
  intros Hin. simpl in Hin.
  destruct Hin as [E|[E|[E|[]]]]; injection E as <- _;
    (split; [|vm_compute; reflexivity]);
    match goal with
    | |- NoDup ?l =>
        replace l with (nodup string_dec l) by (vm_compute; reflexivity);
        apply NoDup_nodup
    end.
Qed.

(** C5.  For every flag table and every known column name of a group of
    the page: a column that is present and has a positive number of cells
    equal to "YES" yields the entry (label, that number); a column that is
    absent, or has no such cell, yields no entry; and every entry of the
    result is the entry of such a column.  The label of a column is its
    name without the white space around it and without one period at its
    end. *)
Theorem process_question_data_spec (data : Frame.DataFrame)
  (question_columns : list string) (group_name : string) :
  In (question_columns, group_name) known_groups ->
  let results := Q345.process_question_data data question_columns group_name in
  (forall col, In col question_columns ->
     let yes_count := Z.of_nat (Frame.count_equal data col "YES") in
     let label := spec_clean_name col in
     (Frame.has_column data col = true -> (0 < yes_count)%Z ->
      Dict.get results label = Some yes_count)
     /\ (Frame.has_column data col = false \/ yes_count = 0%Z ->
         Dict.get results label = None))
  /\ (forall label count, Dict.get results label = Some count ->
        exists col,
          In col question_columns
          /\ label = spec_clean_name col
          /\ Frame.has_column data col = true
          /\ count = Z.of_nat (Frame.count_equal data col "YES")
          /\ (0 < count)%Z).
Proof.
  intros Hgroup results.
  destruct (known_groups_labels _ _ Hgroup) as [Hnd Hlabels].
  assert (Hlabel : forall col, In col question_columns ->
            Q345.clean_name col = spec_clean_name col).
  { clear -Hlabels. induction question_columns as [|c rest IH]; [intros _ []|].
    simpl in Hlabels. injection Hlabels as Hc Hrest.
    intros col [<-|Hin]; [exact Hc|now apply IH]. }
  assert (Hin : forall col, In col question_columns ->
            Dict.get results (Q345.clean_name col) = flag_entry data col)
    by apply (flag_fold data question_columns [] Hnd (fun _ _ => eq_refl)).
  assert (Hout : forall k, ~ In k (map Q345.clean_name question_columns) ->
            Dict.get results k = None)
    by apply (flag_fold data question_columns [] Hnd (fun _ _ => eq_refl)).
  split.
  - intros col Hcol yes_count label. specialize (Hin col Hcol).
    rewrite (Hlabel col Hcol) in Hin.
    fold label in Hin. unfold flag_entry in Hin. fold yes_count in Hin.
    split.
    + intros Hhas Hpos. rewrite Hin, Hhas.
      apply Z.ltb_lt in Hpos. now rewrite Hpos.
    + intros [Hhas|Hzero]; rewrite Hin.
      * now rewrite Hhas.
      * rewrite Hzero. now rewrite andb_false_r.
  - intros label count Hget.
    destruct (in_dec string_dec label (map Q345.clean_name question_columns))
      as [Hk|Hk]; [|rewrite (Hout label Hk) in Hget; discriminate].
    apply in_map_iff in Hk. destruct Hk as [col [<- Hcol]].
    rewrite (Hin col Hcol) in Hget. unfold flag_entry in Hget.
    exists col. split; [exact Hcol|]. split; [now apply Hlabel|].
    destruct (Frame.has_column data col); [|discriminate].
    destruct (Z.ltb_spec 0 (Z.of_nat (Frame.count_equal data col "YES")));
      [|discriminate].
    simpl in Hget. injection Hget as <-. repeat split. exact H.
Qed.

Lemma process_question_data_spec_witness :
  let results := Q345.process_question_data q3_flags Q345.q3_columns "Q3" in
  Dict.get results "Knowledge development and dissemination" = Some 3%Z
  /\ Dict.get results
       "Technical assistance and capacity-building of constituents" = None
  /\ Dict.get results "Advocacy and partnerships" = None.
Proof.
  assert (Hgroup : In (Q345.q3_columns, "Q3") known_groups) by (now left).
  pose proof (process_question_data_spec q3_flags Q345.q3_columns "Q3" Hgroup)
    as [Hcols _].
  split; [|split].
  - apply (Hcols "Knowledge development and dissemination. ");
      [now left|reflexivity|reflexivity].
  - apply (Hcols "Technical assistance and capacity-building of constituents. ");
      [right; now left|]. left. reflexivity.
  - apply (Hcols "Advocacy and partnerships. ");
      [right; right; now left|]. right. reflexivity.
Defined.

(** The example of the specification: columns "A. " and "B. ", ten rows,
    six with YES under the first and none under the second. *)
Example process_question_data_example :
  Q345.process_question_data flags_example ["A. "; "B. "] "Q3" = [("A", 6%Z)].
Proof. reflexivity. Qed.

(* ================================================================== *)
(** ** The percentage table *)
(* ================================================================== *)

Lemma insert_by_count_perm (item : string * Z) (l : list (string * Z)) :
  Permutation (General.insert_by_count item l) (item :: l).
Proof.
  induction l as [|x rest IH]; simpl; [apply Permutation_refl|].
  destruct (snd x <=? snd item)%Z; [apply Permutation_refl|].
  eapply perm_trans; [apply perm_skip, IH|apply perm_swap].
Qed.

Lemma sort_values_perm (items : list (string * Z)) :
  Permutation (General.sort_values items) items.
Proof.
  induction items as [|x rest IH]; simpl; [apply perm_nil|].
  eapply perm_trans; [apply insert_by_count_perm|now apply perm_skip].
Qed.



Lemma sum_counts_perm (l l' : list (string * Z)) :
  Permutation l l' -> General.sum_counts l = General.sum_counts l'.
Proof.
  unfold General.sum_counts.
  induction 1; simpl; lia.
Qed.

Lemma round_half_even_nearest (num den : Z) :
  (0 < den)%Z ->
  (Z.abs (2 * (General.round_half_even num den * den - num)) <= den)%Z.
Proof.
  intros Hden. unfold General.round_half_even.
  pose proof (Z.div_mod num den ltac:(lia)) as Hdm.
  pose proof (Z.mod_pos_bound num den Hden) as Hb.
  set (q := (num / den)%Z) in *. set (r := (num mod den)%Z) in *.
  destruct (Z.ltb_spec (2 * r) den).
  - nia.
  - destruct (Z.ltb_spec den (2 * r)).
    + nia.
    + destruct (Z.even q); nia.
Qed.


Lemma total_of_table_items (data : Dict.dict Z) :
  General.sum_counts (table_items data) = General.total_of data.
Proof.
  unfold General.sum_counts, General.total_of, table_items, Dict.values.
  rewrite map_map. reflexivity.
Qed.


(** The table of a non-empty mapping, row by row. *)
Lemma percentage_table_rows (data : Dict.dict Z) :
  data <> [] ->
  General.percentage_table data
  = (Some (map (table_row_of (General.total_of data))
               (General.sort_values (table_items data))), []).
Proof.
  intros Hne.
  assert (Htotal : General.sum_counts (General.sort_values (table_items data))
                   = General.total_of data).
  { rewrite (sum_counts_perm _ _ (sort_values_perm _)).
    apply total_of_table_items. }
  unfold General.percentage_table.
  destruct data as [|kv rest]; [congruence|].
  fold (table_items (kv :: rest)). rewrite Htotal. reflexivity.
Qed.

Lemma table_row_of_In (total : Z) (items : list (string * Z))
  (r : General.table_row) :
  In r (map (table_row_of total) (General.sort_values items)) ->
  In (row_item r) items
  /\ General.Percentage r
     = if (0 <? total)%Z then General.percentage_text (General.Count r) total
       else "0%".
Proof.
  intros Hin. apply in_map_iff in Hin. destruct Hin as [[k v] [<- Hin]].
  split; [|reflexivity].
  apply (Permutation_in _ (sort_values_perm items)) in Hin. exact Hin.
Qed.



(** The example of the specification: counts Yes 30 and No 20. *)
Example percentage_table_example :
  General.percentage_table yes_no
  = (Some [{| General.Option := "Yes"; General.Count := 30;
              General.Percentage := "60.0%" |};
           {| General.Option := "No"; General.Count := 20;
              General.Percentage := "40.0%" |}], []).
Proof. reflexivity. Qed.

(* ================================================================== *)
(** ** The chart of the general page *)
(* ================================================================== *)

Lemma set_In {V : Type} (d : Dict.dict V) (k k' : string) (v v' : V) :
  In (k, v) (Dict.set d k' v') -> (k, v) = (k', v') \/ In (k, v) d.
Proof.
  induction d as [|[k0 v0] t IH]; simpl.
  - intros [E|[]]. left. now symmetry.
  - destruct (String.eqb_spec k0 k'); simpl.
    + intros [E|H]; [left; now symmetry|right; now right].
    + intros [E|H]; [right; now left|].
      destruct (IH H) as [E|H']; [now left|right; now right].
Qed.

Lemma set_nonempty {V : Type} (d : Dict.dict V) (k : string) (v : V) :
  Dict.set d k v <> [].
Proof.
  destruct d as [|[k0 v0] t]; simpl; [discriminate|].
  destruct (String.eqb k0 k); discriminate.
Qed.

(** Whatever is in the cleaned data was in the accumulator or comes from a
    non-negative entry of the data. *)
Lemma clean_fold_In (data : Dict.dict Z) :
  forall (acc : Dict.dict Z) (k : string) (v : Z),
    In (k, v) (fold_left clean_step data acc) ->
    In (k, v) acc
    \/ (exists k0, In (k0, v) data /\ k = General.clean_key k0 /\ (0 <= v)%Z).
Proof.
  induction data as [|[k0 v0] rest IH]; intros acc k v Hin; simpl in Hin.
  - now left.
  - destruct (IH _ _ _ Hin) as [Hacc|[k1 [H1 [E Hv]]]].
    + unfold clean_step in Hacc. simpl in Hacc.
      destruct (Z.leb_spec 0 v0).
      * destruct (set_In _ _ _ _ _ Hacc) as [[= -> ->]|H']; [|now left].
        right. exists k0. split; [now left|]. split; [reflexivity|assumption].
      * now left.
    + right. exists k1. split; [now right|]. split; assumption.
Qed.

Lemma clean_fold_nonempty (data : Dict.dict Z) :
  forall acc : Dict.dict Z,
    acc <> [] \/ (exists kv, In kv data /\ (0 <= snd kv)%Z) ->
    fold_left clean_step data acc <> [].
Proof.
  induction data as [|[k0 v0] rest IH]; intros acc H; simpl.
  - destruct H as [H|[kv [[] _]]]. exact H.
  - apply IH. unfold clean_step. simpl.
    destruct (Z.leb_spec 0 v0).
    + left. apply set_nonempty.
    + destruct H as [H|[kv [[<-|Hin] Hv]]].
      * now left.
      * simpl in Hv. lia.
      * right. now exists kv.
Qed.

Lemma clean_data_of_In (data : Dict.dict Z) (k : string) (v : Z) :
  In (k, v) (General.clean_data_of data) ->
  exists k0, In (k0, v) data /\ k = General.clean_key k0 /\ (0 <= v)%Z.
Proof.
  intros Hin. destruct (clean_fold_In data [] k v Hin) as [[]|H]. exact H.
Qed.

Lemma clean_data_of_nonempty (data : Dict.dict Z) :
  (exists kv, In kv data /\ (0 <= snd kv)%Z) ->
  General.clean_data_of data <> [].
Proof.
  intros H. apply (clean_fold_nonempty data []). now right.
Qed.

(** The figure of a successful [build_chart] shows the cleaned data. *)
Lemma build_chart_shows (STYLES_AVAILABLE : bool) (data : Dict.dict Z)
  (kind : chart_type) (title : string) (fig : figure) :
  General.build_chart STYLES_AVAILABLE data kind title = Ok fig ->
  has_trace fig = true
  /\ figure_labels fig = Dict.keys (General.clean_data_of data)
  /\ figure_values fig = Dict.values (General.clean_data_of data).
Proof.
  unfold General.build_chart.
  destruct data as [|kv rest]; [discriminate|].
  destruct (General.clean_data_of (kv :: rest)) as [|c cs]; [discriminate|].
  destruct STYLES_AVAILABLE; [|destruct kind];
    intros [= <-]; repeat split.
Qed.

Lemma build_chart_succeeds (STYLES_AVAILABLE : bool) (data : Dict.dict Z)
  (kind : chart_type) (title : string) :
  General.clean_data_of data <> [] ->
  exists fig, General.build_chart STYLES_AVAILABLE data kind title = Ok fig.
Proof.
  unfold General.build_chart. intros Hne.
  destruct data as [|kv rest]; [now elim Hne|].
  destruct (General.clean_data_of (kv :: rest)) as [|c cs]; [congruence|].
  destruct STYLES_AVAILABLE; [|destruct kind]; eexists; reflexivity.
Qed.

(** Every label and every value of the chart comes from a non-negative
    entry of the data. *)
Lemma chart_shows_clean_entries (STYLES_AVAILABLE : bool) (data : Dict.dict Z)
  (kind : chart_type) (title : string) :
  let fig := fst (General.create_chart_unified STYLES_AVAILABLE data kind title) in
  (forall label, In label (figure_labels fig) ->
     exists k0 v, In (k0, v) data /\ label = General.clean_key k0 /\ (0 <= v)%Z)
  /\ (forall v, In v (figure_values fig) -> (0 <= v)%Z).
Proof.
  unfold General.create_chart_unified.
  destruct (General.build_chart STYLES_AVAILABLE data kind title) as [fig|e] eqn:E.
  - apply build_chart_shows in E. destruct E as [_ [El Ev]]. simpl.
    rewrite El, Ev. split.
    + intros label Hin. apply in_map_iff in Hin.
      destruct Hin as [[k v] [<- Hin]]. simpl.
      destruct (clean_data_of_In _ _ _ Hin) as [k0 [H1 [H2 H3]]].
      now exists k0, v.
    + intros v Hin. apply in_map_iff in Hin.
      destruct Hin as [[k v'] [<- Hin]]. simpl.
      destruct (clean_data_of_In _ _ _ Hin) as [k0 [H1 [H2 H3]]]. exact H3.
  - simpl. split; intros ? [].
Qed.

Lemma total_of_zero (data : Dict.dict Z) :
  Forall (fun v => v = 0%Z) (Dict.values data) -> General.total_of data = 0%Z.
Proof.
  unfold General.total_of.
  induction 1 as [|v vs Hv _ IH]; simpl; [reflexivity|]. lia.
Qed.

Lemma value_of_entry (data : Dict.dict Z) (P : Z -> Prop) (k : string) (v : Z) :
  Forall P (Dict.values data) -> In (k, v) data -> P v.
Proof.
  intros Hall Hin. rewrite Forall_forall in Hall. apply Hall.
  unfold Dict.values. now apply (in_map snd) in Hin.
Qed.

(** C6 (as amended).  An empty or all-zero mapping gives, on the
    specialized page, the placeholder chart "No data available for ..."
    (that page has no table).  On the general page an empty mapping gives a
    placeholder chart that carries an error text, and no table; a non-empty
    all-zero mapping gives a regular chart of its zero values and a table
    whose [Percentage] is "0%" in every row. *)
Theorem no_data_spec (STYLES_AVAILABLE : bool) (data : Dict.dict Z)
  (kind : chart_type) :
  data = [] \/ Forall (fun v => v = 0%Z) (Dict.values data) ->
  (forall group,
     Q345.create_standardized_chart STYLES_AVAILABLE data group kind
     = Annotation ("No data available for " ++ group)%string
                  (group ++ " Response Distribution")%string 500%Z)
  /\ (forall title,
        data = [] ->
        General.create_chart_unified STYLES_AVAILABLE data kind title
        = (Annotation
             "Chart Error: Invalid data: expected non-empty dictionary<br>Please try selecting a different question or chart type."
             (if String.eqb title "" then "Chart Error" else title) 400%Z,
           [ErrorCreatingChart
              (ValueError "Invalid data: expected non-empty dictionary")])
        /\ General.percentage_table data = (None, [NoResponseData]))
  /\ (forall title,
        data <> [] ->
        exists fig rows,
          General.create_chart_unified STYLES_AVAILABLE data kind title
          = (fig, [])
          /\ has_trace fig = true
          /\ figure_values fig <> []
          /\ Forall (fun v => v = 0%Z) (figure_values fig)
          /\ General.percentage_table data = (Some rows, [])
          /\ rows <> []
          /\ forall r, In r rows ->
               General.Count r = 0%Z /\ General.Percentage r = "0%").
Proof.
  intros Hdata.
  assert (Hzero : Forall (fun v => v = 0%Z) (Dict.values data)).
  { destruct Hdata as [->|H]; [constructor|exact H]. }
  split; [|split].
  - intros group. unfold Q345.create_standardized_chart.
    assert (E : forallb (fun v => (v =? 0)%Z) (Dict.values data) = true).
    { apply forallb_forall. rewrite Forall_forall in Hzero.
      intros v Hv. apply Z.eqb_eq. now apply Hzero. }
    rewrite E, orb_true_r. reflexivity.
  - intros title ->. split; reflexivity.
  - intros title Hne.
    assert (Hclean : General.clean_data_of data <> []).
    { apply clean_data_of_nonempty. destruct data as [|[k v] rest]; [congruence|].
      exists (k, v). split; [now left|]. simpl.
      rewrite (value_of_entry _ _ k v Hzero); [lia|now left]. }
    destruct (build_chart_succeeds STYLES_AVAILABLE data kind title Hclean)
      as [fig Hfig].
    pose proof (build_chart_shows _ _ _ _ _ Hfig) as [Htrace [_ Hvalues]].
    exists fig, (map (table_row_of (General.total_of data))
                     (General.sort_values (table_items data))).
    split; [unfold General.create_chart_unified; now rewrite Hfig|].
    split; [exact Htrace|]. split; [|split; [|split; [|split]]].
    + rewrite Hvalues. unfold Dict.values.
      destruct (General.clean_data_of data); [congruence|discriminate].
    + rewrite Hvalues. apply Forall_forall. intros v Hin.
      apply in_map_iff in Hin. destruct Hin as [[k v'] [<- Hin]]. simpl.
      destruct (clean_data_of_In _ _ _ Hin) as [k0 [H0 _]].
      exact (value_of_entry _ _ k0 v' Hzero H0).
    + now apply percentage_table_rows.
    + intros E. apply map_eq_nil in E.
      pose proof (sort_values_perm (table_items data)) as Hp. rewrite E in Hp.
      apply Permutation_nil in Hp. unfold table_items in Hp.
      apply map_eq_nil in Hp. congruence.
    + intros r Hin. apply table_row_of_In in Hin. destruct Hin as [Hitem ->].
      rewrite (total_of_zero _ Hzero). split; [|reflexivity].
      unfold table_items, row_item in Hitem. apply in_map_iff in Hitem.
      destruct Hitem as [[k v] [[= _ <-] Hin]].
      exact (value_of_entry _ _ k v Hzero Hin).
Qed.

Lemma no_data_spec_witness :
  (Q345.create_standardized_chart false [] "Q3" pie
   = Annotation "No data available for Q3" "Q3 Response Distribution" 500%Z
   /\ General.percentage_table [] = (None, [NoResponseData]))
  /\ exists fig rows,
       General.create_chart_unified false [("Yes", 0%Z); ("No", 0%Z)] pie "Q1: X"
       = (fig, [])
       /\ has_trace fig = true
       /\ General.percentage_table [("Yes", 0%Z); ("No", 0%Z)] = (Some rows, [])
       /\ forall r, In r rows -> General.Percentage r = "0%".
Proof.
  split.
  - pose proof (no_data_spec false [] pie (or_introl eq_refl)) as [Hq [Hg _]].
    split; [apply Hq|]. apply (Hg "Q1: X"). reflexivity.
  - assert (Hzero : Forall (fun v => v = 0%Z)
                      (Dict.values [("Yes", 0%Z); ("No", 0%Z)]))
      by (repeat constructor).
    pose proof (no_data_spec false [("Yes", 0%Z); ("No", 0%Z)] pie
                  (or_intror Hzero)) as [_ [_ Hshown]].
    destruct (Hshown "Q1: X") as (fig & rows & Hfig & Htrace & _ & _ & Htable & _ & Hrows);
      [discriminate|].
    exists fig, rows. repeat split; auto. intros r Hin. now apply Hrows.
Defined.

(** C6 as stated fails on the general page: a question whose options all
    have count 0 gets a regular chart and a percentage table. *)
Lemma all_zero_general_page_shows_table :
  General.create_layout false all_zero "Q1: X" None
  = {| General.chart := Some (PieChart ["Yes"; "No"] [0%Z; 0%Z] "Q1: X");
       General.data_table :=
         Some [{| General.Option := "Yes"; General.Count := 0;
                  General.Percentage := "0%" |};
               {| General.Option := "No"; General.Count := 0;
                  General.Percentage := "0%" |}];
       General.messages := [] |}
  /\ General.create_layout true all_zero "Q1: X" None
     = {| General.chart :=
            Some (Styled [("Yes", 0%Z); ("No", 0%Z)] pie "Q1: X");
          General.data_table :=
            Some [{| General.Option := "Yes"; General.Count := 0;
                     General.Percentage := "0%" |};
                  {| General.Option := "No"; General.Count := 0;
                     General.Percentage := "0%" |}];
          General.messages := [] |}.
Proof. split; reflexivity. Qed.

(** C8.  The two cleaning loops of the general page differ: the one of the
    chart drops a negative count, the one of the table keeps it.  For the
    question with counts A = -3 and B = 5 the chart shows B alone and the
    table has a row for A with count -3. *)
Theorem negative_count_reaches_table :
  General.create_layout false with_negative "Q1: X" None
  = {| General.chart := Some (PieChart ["B"] [5%Z] "Q1: X");
       General.data_table :=
         Some [{| General.Option := "B"; General.Count := 5;
                  General.Percentage := "250.0%" |};
               {| General.Option := "A"; General.Count := -3;
                  General.Percentage := "-150.0%" |}];
       General.messages := [] |}
  /\ General.create_layout true with_negative "Q1: X" None
     = {| General.chart := Some (Styled [("B", 5%Z)] pie "Q1: X");
          General.data_table :=
            Some [{| General.Option := "B"; General.Count := 5;
                     General.Percentage := "250.0%" |};
                  {| General.Option := "A"; General.Count := -3;
                     General.Percentage := "-150.0%" |}];
          General.messages := [] |}.
Proof. split; reflexivity. Qed.

(* ================================================================== *)
(** ** The filter of the Q4 and Q5 questions *)
(* ================================================================== *)

Lemma mentions_other_clean_key (k : string) :
  mentions_other k = false -> mentions_other (General.clean_key k) = false.
Proof.
  unfold General.clean_key. destruct (String.eqb k ""); [reflexivity|auto].
Qed.

(** What [create_layout] shows is built from the filtered data of the
    selected question. *)
Lemma create_layout_shown (STYLES_AVAILABLE : bool)
  (questions_data : General.questions) (selected_question : string)
  (user_choice : option General.chart_option) (fig : figure) :
  General.chart
    (General.create_layout STYLES_AVAILABLE questions_data selected_question
                           user_choice) = Some fig ->
  exists question_data kind,
    Dict.get questions_data selected_question = Some question_data
    /\ fig = fst (General.create_chart_unified STYLES_AVAILABLE
                    (General.filter_question selected_question question_data)
                    kind selected_question)
    /\ General.data_table
         (General.create_layout STYLES_AVAILABLE questions_data
                                selected_question user_choice)
       = fst (General.percentage_table
                (General.filter_question selected_question question_data)).
Proof.
  unfold General.create_layout.
  destruct questions_data as [|kv rest]; [discriminate|].
  destruct (filter _ (Dict.keys (kv :: rest))); [discriminate|].
  destruct (String.eqb selected_question ""); [discriminate|].
  destruct (Dict.get (kv :: rest) selected_question) as [d|]; [|discriminate].
  destruct (General.create_chart_unified _ _ _ _) as [f m] eqn:Ef.
  destruct (General.percentage_table _) as [t m'] eqn:Et.
  simpl. intros [= <-].
  exists d, (General.chart_type_key
               match user_choice with
               | Some c => c
               | None => General.default_chart (General.auto_select_chart_type d)
               end).
  split; [reflexivity|]. split; [now rewrite Ef|now rewrite Et].
Qed.

Lemma table_is_of_shown_chart (STYLES_AVAILABLE : bool)
  (questions_data : General.questions) (selected_question : string)
  (user_choice : option General.chart_option) (rows : list General.table_row) :
  General.data_table
    (General.create_layout STYLES_AVAILABLE questions_data selected_question
                           user_choice) = Some rows ->
  exists fig,
    General.chart
      (General.create_layout STYLES_AVAILABLE questions_data selected_question
                             user_choice) = Some fig.
Proof.
  unfold General.create_layout.
  destruct questions_data as [|kv rest]; [discriminate|].
  destruct (filter _ (Dict.keys (kv :: rest))); [discriminate|].
  destruct (String.eqb selected_question ""); [discriminate|].
  destruct (Dict.get (kv :: rest) selected_question) as [d|]; [|discriminate].
  destruct (General.create_chart_unified _ _ _ _) as [f m].
  destruct (General.percentage_table _) as [t m'].
  simpl. intros _. now exists f.
Qed.

Lemma table_options_from_data (data : Dict.dict Z)
  (rows : list General.table_row) (r : General.table_row) :
  fst (General.percentage_table data) = Some rows -> In r rows ->
  exists k v, In (k, v) data /\ General.Option r = General.clean_key k.
Proof.
  destruct data as [|kv rest] eqn:Ed; [discriminate|]. rewrite <- Ed.
  rewrite percentage_table_rows by congruence. simpl.
  intros [= <-] Hin. apply table_row_of_In in Hin. destruct Hin as [Hitem _].
  unfold table_items, row_item in Hitem. apply in_map_iff in Hitem.
  destruct Hitem as [[k v] [[= E _] Hin]]. now exists k, v.
Qed.

(** C10.  On the general page, for the selected question [q] with options
    [d]: when [q] contains "Q4:" or "Q5:" and the total of [d] is positive,
    the data handed to the chart and to the table is [d] without the options
    whose label contains "other" in any letter case; in particular "Other"
    is not among them, and neither the chart nor the table shows such a
    label.  When the total is 0 (or below), and for every other question,
    no option is removed. *)
Theorem other_filter_spec (STYLES_AVAILABLE : bool)
  (questions_data : General.questions) (q : string)
  (user_choice : option General.chart_option) (d : Dict.dict Z) :
  Dict.get questions_data q = Some d ->
  let page := General.create_layout STYLES_AVAILABLE questions_data q user_choice in
  (is_q4_q5 q = true -> (0 < General.total_of d)%Z ->
     General.filter_question q d
     = filter (fun kv => negb (mentions_other (fst kv))) d
     /\ ~ In "Other" (Dict.keys (General.filter_question q d))
     /\ (forall fig label,
           General.chart page = Some fig -> In label (figure_labels fig) ->
           mentions_other label = false)
     /\ (forall rows r,
           General.data_table page = Some rows -> In r rows ->
           mentions_other (General.Option r) = false))
  /\ (is_q4_q5 q = true -> (General.total_of d <= 0)%Z ->
      General.filter_question q d = d)
  /\ (is_q4_q5 q = false -> General.filter_question q d = d).
Proof.
  intros Hget page. split; [|split].
  - intros Hq Hpos.
    assert (Hf : General.filter_question q d
                 = filter (fun kv => negb (mentions_other (fst kv))) d).
    { unfold General.filter_question. unfold is_q4_q5 in Hq. rewrite Hq.
      apply Z.ltb_lt in Hpos. now rewrite Hpos. }
    assert (Hkeys : forall k v, In (k, v) (General.filter_question q d) ->
                                mentions_other k = false).
    { intros k v Hin. rewrite Hf in Hin. apply filter_In in Hin.
      destruct Hin as [_ Hb]. simpl in Hb. now apply negb_true_iff in Hb. }
    split; [exact Hf|]. split; [|split].
    + intros Hin. apply in_map_iff in Hin. destruct Hin as [[k v] [E Hin]].
      simpl in E. subst k. apply Hkeys in Hin. discriminate Hin.
    + intros fig label Hfig Hlabel. apply create_layout_shown in Hfig.
      destruct Hfig as [d' [kind [Hget' [-> _]]]].
      rewrite Hget in Hget'. injection Hget' as <-.
      apply chart_shows_clean_entries in Hlabel.
      destruct Hlabel as [k0 [v [Hin [-> _]]]].
      apply mentions_other_clean_key. now apply (Hkeys k0 v).
    + intros rows r Hrows Hin.
      destruct (table_is_of_shown_chart _ _ _ _ _ Hrows) as [fig Hfig].
      apply create_layout_shown in Hfig.
      destruct Hfig as [d' [kind [Hget' [_ Htable]]]].
      rewrite Hget in Hget'. injection Hget' as <-.
      fold page in Htable. rewrite Htable in Hrows.
      destruct (table_options_from_data _ _ _ Hrows Hin) as [k [v [Hk ->]]].
      apply mentions_other_clean_key. now apply (Hkeys k v).
  - intros Hq Hle. unfold General.filter_question.
    unfold is_q4_q5 in Hq. rewrite Hq.
    destruct (Z.ltb_spec 0 (General.total_of d)); [lia|reflexivity].
  - intros Hq. unfold General.filter_question.
    unfold is_q4_q5 in Hq. now rewrite Hq.
Qed.

Lemma other_filter_spec_witness :
  General.filter_question "Q4: Areas"
    [("Jobs", 5%Z); ("Skills", 4%Z); ("Another area", 1%Z); ("Other", 5%Z)]
  = [("Jobs", 5%Z); ("Skills", 4%Z)]
  /\ General.filter_question "Q5: Groups" [("Women", 0%Z); ("Other", 0%Z)]
     = [("Women", 0%Z); ("Other", 0%Z)]
  /\ General.filter_question "Q1: Gender" [("Other", 1%Z); ("Woman", 7%Z)]
     = [("Other", 1%Z); ("Woman", 7%Z)].
Proof.
  split; [|split].
  - pose proof (other_filter_spec false q4_with_other "Q4: Areas" None
                  [("Jobs", 5%Z); ("Skills", 4%Z); ("Another area", 1%Z);
                   ("Other", 5%Z)] eq_refl) as [Hpos _].
    destruct Hpos as [Hf _]; [reflexivity|reflexivity|].
    rewrite Hf. reflexivity.
  - pose proof (other_filter_spec false q4_with_other "Q5: Groups" None
                  [("Women", 0%Z); ("Other", 0%Z)] eq_refl) as [_ [Hzero _]].
    apply Hzero; [reflexivity|]. vm_compute. discriminate.
  - pose proof (other_filter_spec false q4_with_other "Q1: Gender" None
                  [("Other", 1%Z); ("Woman", 7%Z)] eq_refl) as [_ [_ Hplain]].
    apply Hplain. reflexivity.
Defined.

(** The page for that question: neither "Other" nor "Another area" is
    shown. *)
Example other_filter_page :
  General.create_layout false q4_with_other "Q4: Areas" None
  = {| General.chart := Some (PieChart ["Jobs"; "Skills"] [5%Z; 4%Z] "Q4: Areas");
       General.data_table :=
         Some [{| General.Option := "Jobs"; General.Count := 5;
                  General.Percentage := "55.6%" |};
               {| General.Option := "Skills"; General.Count := 4;
                  General.Percentage := "44.4%" |}];
       General.messages := [] |}.
Proof. reflexivity. Qed.

(* ================================================================== *)
(** ** Title formatting *)
(* ================================================================== *)

Lemma length_append (a b : string) :
  String.length (a ++ b) = String.length a + String.length b.
Proof. induction a as [|c a IH]; simpl; [reflexivity|now rewrite IH]. Qed.

Lemma append_assoc (a b c : string) :
  ((a ++ b) ++ c)%string = (a ++ (b ++ c))%string.
Proof. induction a as [|x a IH]; simpl; [reflexivity|now rewrite IH]. Qed.

Lemma line_of_snoc (group : list string) (w : string) :
  group <> [] -> line_of (group ++ [w]) = (line_of group ++ " " ++ w)%string.
Proof.
  unfold line_of, Py.join.
  induction group as [|x rest IH]; intros Hne; [congruence|].
  destruct rest as [|y rest'].
  - reflexivity.
  - change (String.concat " " ((x :: y :: rest') ++ [w]))
      with (x ++ " " ++ String.concat " " ((y :: rest') ++ [w]))%string.
    rewrite IH by discriminate.
    change (String.concat " " (x :: y :: rest'))
      with (x ++ " " ++ String.concat " " (y :: rest'))%string.
    now rewrite !append_assoc.
Qed.

Lemma split_nonempty (sep : ascii) (s : string) : Py.split sep s <> [].
Proof.
  destruct s as [|c t]; simpl; [discriminate|].
  destruct (Ascii.eqb c sep); [discriminate|].
  destruct (Py.split sep t); discriminate.
Qed.

(** Joining the words of a text with the separator gives the text back. *)
Lemma join_split (sep : ascii) (s : string) :
  Py.join (String sep "") (Py.split sep s) = s.
Proof.
  unfold Py.join. induction s as [|c t IH]; [reflexivity|]. simpl.
  pose proof (split_nonempty sep t) as Hne.
  destruct (Ascii.eqb_spec c sep) as [->|Hc].
  - destruct (Py.split sep t) as [|w ws]; [congruence|].
    change (String.concat (String sep "") ("" :: w :: ws))
      with ("" ++ String sep "" ++ String.concat (String sep "") (w :: ws))%string.
    rewrite IH. reflexivity.
  - destruct (Py.split sep t) as [|w ws]; [congruence|].
    rewrite <- IH. destruct ws; reflexivity.
Qed.

Lemma split_once_spec (sep : ascii) (s before rest : string) :
  Py.split_once sep s = Some (before, rest) ->
  s = (before ++ String sep rest)%string
  /\ all_chars (fun c => negb (Ascii.eqb c sep)) before = true.
Proof.
  revert before. induction s as [|c t IH]; intros before; simpl; [discriminate|].
  destruct (Ascii.eqb_spec c sep) as [->|Hc].
  - intros [= <- <-]. now split.
  - destruct (Py.split_once sep t) as [[a b]|]; [|discriminate].
    intros [= <- <-]. destruct (IH a eq_refl) as [-> Hall].
    split; [reflexivity|]. simpl. rewrite Hall.
    destruct (Ascii.eqb_spec c sep); [contradiction|reflexivity].
Qed.

(** A text that contains a marker ending in a colon has a colon. *)
Lemma marker_has_colon (a b : ascii) (s : string) :
  Py.contains (String a (String b ":")) s = true ->
  Py.split_once ":" s <> None.
Proof.
  induction s as [|c t IH]; [discriminate|].
  cbn [Py.contains]. intros H. apply orb_true_iff in H. destruct H as [H|H].
  - cbn [prefix] in H.
    destruct (ascii_dec a c) as [<-|]; [|discriminate].
    destruct t as [|c1 t1]; cbn [prefix] in H; [discriminate|].
    destruct (ascii_dec b c1) as [<-|]; [|discriminate].
    destruct t1 as [|c2 t2]; cbn [prefix] in H; [discriminate|].
    destruct (ascii_dec ":" c2) as [<-|]; [|discriminate].
    cbn [Py.split_once].
    destruct (Ascii.eqb a ":"); [discriminate|].
    destruct (Ascii.eqb b ":"); [discriminate|].
    rewrite Ascii.eqb_refl. discriminate.
  - specialize (IH H). cbn [Py.split_once].
    destruct (Ascii.eqb c ":"); [discriminate|].
    destruct (Py.split_once ":" t) as [[x y]|]; [discriminate|congruence].
Qed.

Lemma greedy_snoc (gs : list (list string)) (w : string) (b : list string) :
  greedy gs ->
  (forall pre a, gs = pre ++ [a] ->
     General.max_length < String.length (line_of a) + String.length w + 1) ->
  greedy (gs ++ [w :: b]).
Proof.
  induction 1 as [|g|a w' b' rest Hlt Hg IH]; intros Hlast; simpl.
  - constructor.
  - constructor; [|constructor]. now apply (Hlast []).
  - constructor; [exact Hlt|]. apply IH.
    intros pre a0 E. apply (Hlast (a :: pre)). simpl. now rewrite E.
Qed.

Lemma greedy_extend_last (gs : list (list string)) (w0 : string)
  (b : list string) (w : string) :
  greedy (gs ++ [w0 :: b]) -> greedy (gs ++ [w0 :: b ++ [w]]).
Proof.
  induction gs as [|a gs' IH]; intros Hg; simpl in *.
  - constructor.
  - destruct gs' as [|g' gs'']; simpl in *.
    + inversion Hg; subst. constructor; [assumption|constructor].
    + inversion Hg; subst. constructor; [assumption|]. now apply IH.
Qed.


Lemma wrap_step_invariant (words : list string) (state : list string * string)
  (w : string) :
  wrap_invariant words state ->
  wrap_invariant (words ++ [w]) (General.wrap_step state w).
Proof.
  destruct state as [lines cur].
  intros (closed & current & Hl & Hc & Hempty & Hne & Hw & Hfits & Hcur & Hg & Hlast).
  simpl in Hl, Hc, Hempty. unfold General.wrap_step.
  assert (Hcurrent : current <> [] -> cur <> "").
  { intros Hn E. now apply Hn, Hempty. }
  assert (Hw' : forall tail,
             filter is_word ((List.concat closed ++ current) ++ tail)
             = filter is_word (words ++ tail)).
  { intros tail.
    rewrite (filter_app _ (List.concat closed ++ current) tail).
    rewrite (filter_app _ words tail). now rewrite Hw. }
  destruct (Nat.leb_spec (String.length cur + String.length w + 1)
                         General.max_length) as [Hle|Hgt].
  - (* the word goes on the current line *)
    destruct (String.eqb_spec cur "") as [Ecur|Ecur].
    + (* ... which is empty *)
      assert (current = []) by auto. subst cur current. simpl.
      destruct (String.eqb_spec w "") as [->|Hword].
      * exists closed, []. simpl. repeat split; auto.
        -- rewrite Hw, filter_app. simpl. now rewrite app_nil_r.
      * exists closed, [w]. simpl. repeat split; auto.
        -- intros ->. congruence.
        -- rewrite <- Hw'. now rewrite app_nil_r.
        -- intros _. left. unfold line_of. simpl. simpl in Hle. lia.
        -- rewrite app_nil_r in Hg. apply greedy_snoc; [exact Hg|].
           intros pre a E. specialize (Hlast eq_refl pre a E). lia.
        -- discriminate.
    + (* ... after a space *)
      assert (Hn : current <> []).
      { intros ->. now apply Ecur. }
      exists closed, (current ++ [w]). simpl.
      assert (Eline : line_of (current ++ [w]) = (cur ++ " " ++ w)%string).
      { rewrite line_of_snoc by exact Hn. now rewrite <- Hc. }
      repeat split; auto.
      * intros E. exfalso. apply (f_equal String.length) in E.
        rewrite !length_append in E. simpl in E. lia.
      * rewrite app_assoc. apply Hw'.
      * intros _. left. rewrite Eline, !length_append. simpl. lia.
      * destruct current as [|w0 b]; [congruence|]. simpl.
        now apply greedy_extend_last.
      * intros E. destruct current; discriminate.
  - (* the word starts a new line *)
    assert (Hnew : line_fits [w]).
    { unfold line_fits, line_of. simpl.
      destruct (Nat.leb_spec (String.length w) General.max_length);
        [now left|right]. now exists w. }
    destruct (String.eqb_spec cur "") as [Ecur|Ecur].
    + (* the current line is empty: nothing is closed *)
      assert (current = []) by auto. subst cur current. simpl in Hgt.
      assert (Hword : w <> "").
      { intros ->. simpl in Hgt. unfold General.max_length in Hgt. lia. }
      exists closed, [w]. simpl. repeat split; auto.
      * intros ->. congruence.
      * rewrite <- Hw'. now rewrite app_nil_r.
      * rewrite app_nil_r in Hg. apply greedy_snoc; [exact Hg|].
        intros pre a E. lia.
      * discriminate.
    + (* the current line is closed *)
      assert (Hn : current <> []).
      { intros ->. now apply Ecur. }
      assert (Hg' : greedy (closed ++ [current])).
      { destruct current; [congruence|exact Hg]. }
      destruct (String.eqb_spec w "") as [->|Hword].
      * exists (closed ++ [current]), []. simpl. repeat split; auto.
        -- now rewrite map_app, Hl, Hc.
        -- apply Forall_app. split; [exact Hne|]. now constructor.
        -- rewrite concat_app. simpl. rewrite !app_nil_r.
           rewrite Hw, filter_app. simpl. now rewrite app_nil_r.
        -- apply Forall_app. split; [exact Hfits|]. constructor; auto.
        -- congruence.
        -- now rewrite app_nil_r.
        -- intros _ pre a E. apply app_inj_tail in E. destruct E as [_ <-].
           rewrite <- Hc. simpl in Hgt. lia.
      * exists (closed ++ [current]), [w]. simpl. repeat split; auto.
        -- now rewrite map_app, Hl, Hc.
        -- intros ->. congruence.
        -- apply Forall_app. split; [exact Hne|]. now constructor.
        -- rewrite concat_app. simpl. rewrite app_nil_r. apply Hw'.
        -- apply Forall_app. split; [exact Hfits|]. constructor; auto.
        -- apply greedy_snoc; [exact Hg'|].
           intros pre a E. apply app_inj_tail in E. destruct E as [_ <-].
           now rewrite <- Hc.
        -- discriminate.
Qed.

Lemma wrap_fold_invariant (rest : list string) :
  forall (words : list string) (state : list string * string),
    wrap_invariant words state ->
    wrap_invariant (words ++ rest) (fold_left General.wrap_step rest state).
Proof.
  induction rest as [|w rest IH]; intros words state Hinv; simpl.
  - now rewrite app_nil_r.
  - replace (words ++ w :: rest) with ((words ++ [w]) ++ rest)
      by (now rewrite <- app_assoc).
    apply IH. now apply wrap_step_invariant.
Qed.

(** The lines of a wrapped title are groups of its words: no word is cut or
    lost, a line exceeds the limit only when it is one over-long word, and
    a line is closed only when the next word does not fit on it. *)
Lemma wrap_lines_spec (words : list string) :
  exists groups : list (list string),
    General.wrap_lines words = map line_of groups
    /\ Forall (fun g => g <> []) groups
    /\ filter is_word (List.concat groups) = filter is_word words
    /\ Forall line_fits groups
    /\ greedy groups.
Proof.
  assert (Hinit : wrap_invariant [] ([], "")).
  { exists [], []. simpl. repeat split; auto; try constructor.
    - unfold line_of, General.max_length. simpl. lia.
    - intros _ pre a E. destruct pre; discriminate. }
  pose proof (wrap_fold_invariant words [] _ Hinit) as Hinv. simpl in Hinv.
  unfold General.wrap_lines.
  destruct (fold_left General.wrap_step words ([], "")) as [lines cur].
  destruct Hinv as (closed & current & Hl & Hc & Hempty & Hne & Hw & Hfits
                    & Hcur & Hg & _).
  simpl in Hl, Hc, Hempty.
  destruct (String.eqb_spec cur "") as [Ecur|Ecur].
  - assert (current = []) by auto. subst current.
    exists closed. rewrite !app_nil_r in *. now repeat split.
  - assert (Hn : current <> []).
    { intros ->. now apply Ecur. }
    exists (closed ++ [current]). split; [|split; [|split; [|split]]].
    + now rewrite map_app, Hl, Hc.
    + apply Forall_app. split; [exact Hne|]. now constructor.
    + rewrite concat_app. simpl. now rewrite app_nil_r.
    + apply Forall_app. split; [exact Hfits|]. constructor; auto.
    + destruct current; [congruence|exact Hg].
Qed.

(** C9 (as amended).  A title that contains "Q2:" or "Q3:" is split at its
    first colon; it is returned unchanged when the two parts make at most
    80 characters on one line, and otherwise gets exactly one line break,
    at the midpoint of the content words counted by words.  Any other title
    of at most 50 characters is returned unchanged; a longer one is wrapped
    greedily into lines of whole words, each of at most 50 characters
    unless it is a single word that is itself longer. *)
Theorem process_title_for_display_spec (title : string) :
  let marked := Py.contains "Q2:" title || Py.contains "Q3:" title in
  let shown := General.process_title_for_display title in
  (marked = true ->
   exists before rest,
     title = (before ++ ":" ++ rest)%string
     /\ all_chars (fun c => negb (Ascii.eqb c ":")) before = true
     /\ let question_part := (before ++ ":")%string in
        let content_part := Py.strip rest in
        let words := Py.split " " content_part in
        let mid_point := List.length words / 2 in
        let combined_length :=
          String.length question_part + String.length content_part + 1 in
        Py.join " " (firstn mid_point words ++ skipn mid_point words)
        = content_part
        /\ (combined_length <= 80 -> shown = title)
        /\ (80 < combined_length ->
            shown
            = (question_part
               ++ (if (1 <? List.length words)%nat then " " else "")
               ++ Py.join " " (firstn mid_point words)
               ++ "<br>" ++ Py.join " " (skipn mid_point words))%string))
  /\ (marked = false -> String.length title <= 50 -> shown = title)
  /\ (marked = false -> 50 < String.length title ->
      exists groups : list (list string),
        shown = Py.join "<br>" (map line_of groups)
        /\ Forall (fun g => g <> []) groups
        /\ filter is_word (List.concat groups)
           = filter is_word (Py.split " " title)
        /\ Py.join " " (Py.split " " title) = title
        /\ Forall line_fits groups
        /\ greedy groups).
Proof.
  intros marked shown. split; [|split].
  - intros Hm.
    assert (Hcolon : Py.split_once ":" title <> None).
    { unfold marked in Hm. apply orb_true_iff in Hm.
      destruct Hm as [H|H]; now apply marker_has_colon in H. }
    destruct (Py.split_once ":" title) as [[before rest]|] eqn:Es;
      [|congruence].
    destruct (split_once_spec _ _ _ _ Es) as [Etitle Hbefore].
    exists before, rest. split; [exact Etitle|]. split; [exact Hbefore|].
    intros question_part content_part words mid_point combined_length.
    assert (Hshown : shown
              = if combined_length <=? 80 then title
                else if 1 <? List.length words then
                       (question_part ++ " "
                        ++ Py.join " " (firstn mid_point words)
                        ++ "<br>" ++ Py.join " " (skipn mid_point words))%string
                     else (question_part ++ "<br>" ++ content_part)%string).
    { unfold shown, General.process_title_for_display.
      destruct (String.eqb_spec title "") as [E|_].
      - rewrite E in Es. discriminate.
      - fold marked. rewrite Hm, Es. reflexivity. }
    split; [|split].
    + rewrite firstn_skipn. apply (join_split " ").
    + intros Hle. rewrite Hshown. apply Nat.leb_le in Hle. now rewrite Hle.
    + intros Hgt. rewrite Hshown.
      destruct (Nat.leb_spec combined_length 80); [lia|].
      destruct (Nat.ltb_spec 1 (List.length words)) as [Hmany|Hone];
        [reflexivity|].
      pose proof (split_nonempty " " content_part) as Hne. fold words in Hne.
      destruct words as [|w0 [|w1 ws]] eqn:Ew; [congruence| |simpl in Hone; lia].
      pose proof (join_split " " content_part) as Hj.
      fold words in Hj. rewrite Ew in Hj. unfold mid_point. simpl.
      simpl in Hj. now rewrite Hj.
  - intros Hm Hlen. unfold shown, General.process_title_for_display.
    destruct (String.eqb title ""); [reflexivity|].
    fold marked. rewrite Hm. apply Nat.leb_le in Hlen.
    unfold General.max_length. now rewrite Hlen.
  - intros Hm Hlen.
    destruct (wrap_lines_spec (Py.split " " title))
      as [groups [Hlines [Hne [Hwords [Hfits Hgreedy]]]]].
    exists groups. split; [|split; [|split; [|split; [|split]]]]; auto.
    + unfold shown, General.process_title_for_display.
      destruct (String.eqb_spec title "") as [->|_]; [simpl in Hlen; lia|].
      fold marked. rewrite Hm. unfold General.max_length.
      destruct (Nat.leb_spec (String.length title) 50); [lia|].
      now rewrite Hlines.
    + apply (join_split " ").
Qed.

Lemma process_title_for_display_spec_witness :
  General.process_title_for_display "Q2: Do you agree?" = "Q2: Do you agree?"
  /\ General.process_title_for_display "Overall satisfaction"
     = "Overall satisfaction"
  /\ exists groups : list (list string),
       General.process_title_for_display title_with_link
       = Py.join "<br>" (map line_of groups)
       /\ Forall line_fits groups.
Proof.
  split; [|split].
  - destruct (proj1 (process_title_for_display_spec "Q2: Do you agree?")
                eq_refl) as [before [rest [Etitle [Hbefore Hcases]]]].
    assert (E : before = "Q2" /\ rest = " Do you agree?").
    { destruct before as [|c0 [|c1 [|c2 b]]]; simpl in Etitle.
      - discriminate Etitle.
      - discriminate Etitle.
      - injection Etitle as E0 E1 E2. subst c0 c1 rest. now split.
      - injection Etitle as E0 E1 E2 E3. subst c0 c1 c2.
        discriminate Hbefore. }
    destruct E as [-> ->]. destruct Hcases as [_ [Hshort _]].
    apply Hshort. vm_compute. lia.
  - apply (proj1 (proj2 (process_title_for_display_spec "Overall satisfaction")));
      [reflexivity|]. vm_compute. lia.
  - destruct (proj2 (proj2 (process_title_for_display_spec title_with_link))
                eq_refl) as [groups [Hshown [_ [_ [_ [Hfits _]]]]]].
    + vm_compute. lia.
    + now exists groups.
Defined.

(** The examples of the specification: a short Q2 title stays as it is, a
    Q3 title of 90 characters is broken at the midpoint of its words. *)
Example process_title_examples :
  General.process_title_for_display "Q2: Do you agree?" = "Q2: Do you agree?"
  /\ String.length long_q3_title = 90
  /\ General.process_title_for_display long_q3_title
     = "Q3: Which clusters of the implementation framework<br>did the outputs of your office support?".
Proof. repeat split. Qed.

(** C9 as stated fails: wrapping never cuts a word, so a word of more than
    50 characters makes a line of more than 50 characters. *)
Lemma wrapped_line_exceeds_limit :
  Py.contains "Q2:" title_with_link || Py.contains "Q3:" title_with_link = false
  /\ General.process_title_for_display title_with_link
     = "See<br>https://www.ilo.org/global/topics/youth-employment/publications"
  /\ General.wrap_lines (Py.split " " title_with_link)
     = ["See";
        "https://www.ilo.org/global/topics/youth-employment/publications"]
  /\ ~ Forall (fun line => String.length line <= 50)
         (General.wrap_lines (Py.split " " title_with_link)).
Proof.
  split; [reflexivity|]. split; [reflexivity|]. split; [reflexivity|].
  intros H. inversion H as [|? ? _ H']; subst.
  inversion H' as [|? ? Hlong _]; subst.
  vm_compute in Hlong. lia.
Qed.

(* ================================================================== *)
(** ** The pages around the loader and the aggregators *)
(* ================================================================== *)

(** The callers of the loader expect its exceptions: where no file exists
    the general page reports the error of loading and keeps no question,
    and the specialized page reports that the data files are not found and
    shows no chart. *)
Example missing_file_pages :
  General.load_data no_such_file "PART1_base_dataQ2-5.csv" "All"
  = ([], [ErrorLoadingData
            (FileNotFoundError "[Errno 2] No such file or directory")])
  /\ Q345.create_layout false no_such_file "/app" "All" None "All"
     = Ok {| Q345.charts := [];
             Q345.messages :=
               [DataFilesNotFound
                  (FileNotFoundError "[Errno 2] No such file or directory")] |}.
Proof. split; reflexivity. Qed.

(** A group without any YES answer gets the placeholder chart. *)
Lemma group_chart_no_data (STYLES_AVAILABLE : bool) (data : Frame.DataFrame)
  (question_columns : list string) (group : string) :
  Q345.process_question_data data question_columns group = [] ->
  Q345.group_chart STYLES_AVAILABLE data question_columns group
  = Annotation ("No data available for " ++ group)%string
               (group ++ " Response Distribution")%string 500%Z.
Proof.
  intros E. unfold Q345.group_chart. rewrite E. reflexivity.
Qed.

(** The specialized page on the table of the example, taken for each of the
    three files: no known column is present, so each group gets the
    placeholder. *)
Example specialized_page_example :
  Q345.create_layout false (fun _ _ => Ok flags_example) "/app" "All" None "All"
  = Ok {| Q345.charts :=
            [Annotation "No data available for Q3" "Q3 Response Distribution" 500%Z;
             Annotation "No data available for Q4" "Q4 Response Distribution" 500%Z;
             Annotation "No data available for Q5" "Q5 Response Distribution" 500%Z];
          Q345.messages := [RegionFilterNotAvailable] |}.
Proof. reflexivity. Qed.

(* ================================================================== *)
(** ** Further facts about dictionaries *)
(* ================================================================== *)

Section DictInvariants.
Context {V : Type}.
Implicit Types (d : Dict.dict V) (k : string) (v : V).

Lemma set_absent_app d k v :
  ~ In k (Dict.keys d) -> Dict.set d k v = d ++ [(k, v)].
Proof.
  induction d as [|[k0 v0] t IH]; simpl; [reflexivity|].
  intros Hn. destruct (String.eqb_spec k0 k) as [->|Hk]; [tauto|].
  f_equal. apply IH. tauto.
Qed.

Lemma keys_set_In d k v : In k (Dict.keys d) ->
  Dict.keys (Dict.set d k v) = Dict.keys d.
Proof.
  induction d as [|[k0 v0] t IH]; simpl; [tauto|].
  intros Hin. destruct (String.eqb_spec k0 k) as [->|Hk]; [reflexivity|].
  simpl. f_equal. apply IH. destruct Hin; [contradiction|assumption].
Qed.

Lemma In_keys_set d k v k' :
  In k' (Dict.keys (Dict.set d k v)) <-> k' = k \/ In k' (Dict.keys d).
Proof.
  destruct (in_dec string_dec k (Dict.keys d)) as [Hin|Hn].
  - rewrite keys_set_In by exact Hin. split; [tauto|].
    intros [->|H]; assumption.
  - rewrite keys_set_absent by exact Hn. rewrite in_app_iff. simpl.
    split; [intros [H|[H|[]]]; auto|intros [->|H]; auto].
Qed.

Lemma NoDup_keys_set d k v :
  NoDup (Dict.keys d) -> NoDup (Dict.keys (Dict.set d k v)).
Proof.
  intros Hnd. destruct (in_dec string_dec k (Dict.keys d)) as [Hin|Hn].
  - now rewrite keys_set_In.
  - rewrite keys_set_absent by exact Hn.
    apply NoDup_app; [exact Hnd|repeat constructor; simpl; tauto|].
    intros x Hx [<-|[]]. contradiction.
Qed.

Lemma keys_del d k :
  Dict.keys (Dict.del d k)
  = filter (fun k' => negb (String.eqb k' k)) (Dict.keys d).
Proof.
  unfold Dict.keys, Dict.del.
  induction d as [|[k0 v0] t IH]; simpl; [reflexivity|].
  destruct (String.eqb k0 k); simpl; now rewrite IH.
Qed.

Lemma NoDup_keys_del d k :
  NoDup (Dict.keys d) -> NoDup (Dict.keys (Dict.del d k)).
Proof. intros Hnd. rewrite keys_del. now apply NoDup_filter. Qed.

Lemma mem_false_iff d k : Dict.mem d k = false <-> ~ In k (Dict.keys d).
Proof.
  rewrite <- mem_true_iff. destruct (Dict.mem d k); split; congruence.
Qed.

Lemma get_default_absent d k v :
  ~ In k (Dict.keys d) -> Dict.get_default d k v = v.
Proof.
  intros Hn. unfold Dict.get_default.
  destruct (Dict.get d k) eqn:E; [|reflexivity].
  apply get_Some_In in E. apply (in_map fst) in E. contradiction.
Qed.

End DictInvariants.

(* ================================================================== *)
(** ** More on the Other-merge *)
(* ================================================================== *)

Lemma not_In_del_both (d : Dict.dict Z) :
  ~ In other_key (Dict.keys (Dict.del (Dict.del d other_key) elaborated_key))
  /\ ~ In elaborated_key
         (Dict.keys (Dict.del (Dict.del d other_key) elaborated_key)).
Proof. rewrite !keys_del_In. split; tauto. Qed.

Lemma merge_other_idempotent (q : string) (d : Dict.dict Z) :
  General.merge_other q (General.merge_other q d) = General.merge_other q d.
Proof.
  destruct (Py.contains "Q4:" q || Py.contains "Q5:" q) eqn:Hq.
  2:{ unfold General.merge_other. now rewrite Hq. }
  set (o := Dict.get_default d other_key 0%Z).
  set (e := Dict.get_default d elaborated_key 0%Z).
  destruct ((0 <? o)%Z || (0 <? e)%Z) eqn:Hpos.
  2:{ assert (E : General.merge_other q d = d).
      { unfold General.merge_other. rewrite Hq.
        fold other_key elaborated_key. fold o e. now rewrite Hpos. }
      now rewrite !E. }
  assert (Hpos' : (0 < o \/ 0 < e)%Z).
  { apply orb_true_iff in Hpos. now rewrite !Z.ltb_lt in Hpos. }
  rewrite (merge_other_positive q d Hq Hpos'). fold o e.
  set (d2 := Dict.del (Dict.del d other_key) elaborated_key).
  destruct (not_In_del_both d) as [Hno Hne]. fold d2 in Hno, Hne.
  set (d' := Dict.set d2 other_key (o + e)%Z).
  assert (Ho' : Dict.get_default d' other_key 0%Z = (o + e)%Z).
  { unfold Dict.get_default, d'. now rewrite get_set_same. }
  assert (He' : Dict.get_default d' elaborated_key 0%Z = 0%Z).
  { unfold Dict.get_default, d'. rewrite get_set_other by discriminate.
    destruct (Dict.get d2 elaborated_key) eqn:E; [|reflexivity].
    apply get_Some_In in E. apply (in_map fst) in E. contradiction. }
  destruct (Z.ltb_spec 0 (o + e)) as [Hs|Hs].
  - rewrite (merge_other_positive q d' Hq) by (left; now rewrite Ho').
    rewrite Ho', He', Z.add_0_r.
    assert (E : Dict.del (Dict.del d' other_key) elaborated_key = d2).
    { unfold d'. rewrite (set_absent_app d2 _ _ Hno).
      unfold Dict.del at 2. rewrite filter_app. simpl.
      rewrite app_nil_r. fold (Dict.del d2 other_key).
      rewrite (del_absent d2 other_key) by now apply mem_false_iff.
      apply del_absent. now apply mem_false_iff. }
    now rewrite E.
  - unfold General.merge_other. rewrite Hq. fold other_key elaborated_key.
    rewrite Ho', He'.
    destruct (Z.ltb_spec 0 (o + e)); [lia|reflexivity].
Qed.

(** The Other-merge done twice is the Other-merge done once, and it keeps
    the questions and their order. *)
Theorem merge_other_options_idempotent (questions_data : General.questions) :
  General._merge_other_options (General._merge_other_options questions_data)
  = General._merge_other_options questions_data
  /\ Dict.keys (General._merge_other_options questions_data)
     = Dict.keys questions_data.
Proof.
  split; [|apply merge_other_keys].
  unfold General._merge_other_options. rewrite map_map. apply map_ext.
  intros [q d]. simpl. now rewrite merge_other_idempotent.
Qed.

Lemma total_of_app (a b : Dict.dict Z) :
  General.total_of (a ++ b) = (General.total_of a + General.total_of b)%Z.
Proof.
  unfold General.total_of, Dict.values. rewrite map_app.
  induction (map snd a) as [|x xs IH]; simpl; lia.
Qed.

Lemma total_of_del (d : Dict.dict Z) (k : string) :
  NoDup (Dict.keys d) ->
  General.total_of d
  = (Dict.get_default d k 0 + General.total_of (Dict.del d k))%Z.
Proof.
  induction d as [|[k0 v0] t IH]; intros Hnd; [reflexivity|].
  simpl in Hnd. inversion Hnd as [|? ? Hnotin Hnd']; subst.
  unfold Dict.get_default, Dict.del. simpl.
  destruct (String.eqb_spec k0 k) as [->|Hk]; simpl.
  - fold (Dict.del t k). rewrite del_absent by now apply mem_false_iff.
    reflexivity.
  - fold (Dict.del t k). specialize (IH Hnd').
    unfold Dict.get_default in IH.
    change (General.total_of ((k0, v0) :: t))
      with (v0 + General.total_of t)%Z.
    change (General.total_of ((k0, v0) :: Dict.del t k))
      with (v0 + General.total_of (Dict.del t k))%Z.
    lia.
Qed.

(** The Other-merge never changes the total of a question: the counts of
    the two catch-all labels are added, nothing else is touched. *)
Theorem merge_other_options_total (questions_data : General.questions)
  (q : string) (d : Dict.dict Z) :
  Dict.get questions_data q = Some d ->
  NoDup (Dict.keys d) ->
  exists d',
    Dict.get (General._merge_other_options questions_data) q = Some d'
    /\ General.total_of d' = General.total_of d
    /\ NoDup (Dict.keys d').
Proof.
  intros Hget Hnd. exists (General.merge_other q d).
  split; [rewrite merge_other_table, Hget; reflexivity|].
  destruct (Py.contains "Q4:" q || Py.contains "Q5:" q) eqn:Hq.
  2:{ unfold General.merge_other. rewrite Hq. now split. }
  set (o := Dict.get_default d other_key 0%Z).
  set (e := Dict.get_default d elaborated_key 0%Z).
  destruct ((0 <? o)%Z || (0 <? e)%Z) eqn:Hpos.
  2:{ unfold General.merge_other. rewrite Hq.
      fold other_key elaborated_key. fold o e. rewrite Hpos. now split. }
  assert (Hpos' : (0 < o \/ 0 < e)%Z).
  { apply orb_true_iff in Hpos. now rewrite !Z.ltb_lt in Hpos. }
  rewrite (merge_other_positive q d Hq Hpos'). fold o e.
  destruct (not_In_del_both d) as [Hno _].
  split.
  - rewrite (set_absent_app _ _ _ Hno), total_of_app.
    rewrite (total_of_del d other_key Hnd).
    rewrite (total_of_del (Dict.del d other_key) elaborated_key)
      by now apply NoDup_keys_del.
    assert (E : Dict.get_default (Dict.del d other_key) elaborated_key 0%Z = e).
    { unfold Dict.get_default. now rewrite get_del_other by discriminate. }
    rewrite E. fold o. unfold General.total_of at 2. simpl. lia.
  - apply NoDup_keys_set. now apply NoDup_keys_del, NoDup_keys_del.
Qed.

Lemma merge_other_options_total_witness :
  exists d',
    Dict.get (General._merge_other_options merge_example) "Q4: Areas" = Some d'
    /\ General.total_of d' = 14%Z.
Proof.
  destruct (merge_other_options_total merge_example "Q4: Areas"
              [("Jobs", 5%Z); ("Other", 2%Z);
               ("Other (elaborated answ)", 3%Z); ("Skills", 4%Z)] eq_refl)
    as [d' [Hget [Htotal _]]].
  - simpl. repeat constructor; simpl; intuition discriminate.
  - exists d'. split; [exact Hget|]. rewrite Htotal. reflexivity.
Defined.

(* ================================================================== *)
(** ** What the loader and the aggregator leave behind *)
(* ================================================================== *)

Lemma lstrip_by_fixed (p : ascii -> bool) (s : string) :
  rejects p (first_char s) -> Py.lstrip_by p s = s.
Proof. destruct s as [|c t]; simpl; [reflexivity|]. now intros ->. Qed.

Lemma rstrip_by_fixed (p : ascii -> bool) (s : string) :
  rejects p (last_char s) -> Py.rstrip_by p s = s.
Proof.
  induction s as [|c t IH]; [reflexivity|]. intros Hlast.
  destruct t as [|c' t'].
  - simpl in *. now rewrite Hlast.
  - change (last_char (String c (String c' t')))
      with (last_char (String c' t')) in Hlast.
    change (Py.rstrip_by p (String c (String c' t')))
      with (match Py.rstrip_by p (String c' t') with
            | EmptyString => if p c then EmptyString else String c EmptyString
            | t'' => String c t''
            end).
    now rewrite (IH Hlast).
Qed.

(** Trimming leaves a label that trimming does not change. *)
Lemma strip_trimmed (s : string) : trimmed (Py.strip s).
Proof.
  unfold trimmed, Py.strip.
  destruct (lstrip_by_spec Py.is_space s) as [lead [_ [_ Hfirst]]].
  destruct (rstrip_by_spec Py.is_space (Py.lstrip_by Py.is_space s))
    as [trail [_ [_ Hlast]]].
  pose proof (rstrip_by_first Py.is_space _ Hfirst) as Hf.
  rewrite lstrip_by_fixed by (rewrite Hf; exact Hfirst).
  now apply rstrip_by_fixed.
Qed.

Lemma well_formed_empty : well_formed [].
Proof. split; [constructor|intros q d []]. Qed.

Lemma well_formed_get (qd : General.questions) (q : string) :
  well_formed qd ->
  let d := Dict.get_default qd q [] in
  NoDup (Dict.keys d) /\ forall o, In o (Dict.keys d) -> trimmed o.
Proof.
  intros [_ Hall]. unfold Dict.get_default.
  destruct (Dict.get qd q) as [d|] eqn:E.
  - apply get_Some_In in E. destruct (Hall q d E) as [_ [_ [Hnd Ht]]].
    now split.
  - split; [constructor|intros o []].
Qed.

Lemma add_row_well_formed (cols : list string) (qd qd' : General.questions)
  (row : list Frame.cell) :
  General.add_row cols qd row = Ok qd' -> well_formed qd -> well_formed qd'.
Proof.
  unfold General.add_row.
  destruct (if Frame.notna (Frame.at_column cols row "count")
            then Frame.int (Frame.at_column cols row "count") else Ok 0%Z)
    as [count|e]; simpl; [|discriminate].
  intros [= <-] Hwf.
  set (q := Py.strip (Frame.str (Frame.at_column cols row "question"))).
  set (o := Py.strip (Frame.str (Frame.at_column cols row "option"))).
  destruct (well_formed_get qd q Hwf) as [Hnd0 Ht0].
  destruct Hwf as [Hnd Hall].
  split; [now apply NoDup_keys_set|].
  intros q' d' Hin. apply set_In in Hin. destruct Hin as [[= -> ->]|Hin].
  - split; [apply strip_trimmed|]. split; [apply set_nonempty|].
    split; [now apply NoDup_keys_set|].
    intros o' Ho'. apply In_keys_set in Ho'.
    destruct Ho' as [->|Ho']; [apply strip_trimmed|now apply Ht0].
  - now apply Hall.
Qed.

Lemma add_rows_well_formed (cols : list string) (rows : list (list Frame.cell)) :
  forall qd qd' : General.questions,
    General.add_rows cols qd rows = Ok qd' -> well_formed qd -> well_formed qd'.
Proof.
  induction rows as [|row rest IH]; intros qd qd'; simpl.
  - now intros [= <-].
  - destruct (General.add_row cols qd row) as [qd1|e] eqn:E; simpl;
      [|discriminate].
    intros Hrest Hwf. apply (IH qd1 qd' Hrest).
    now apply (add_row_well_formed cols qd qd1 row).
Qed.

Lemma merge_other_well_formed (q : string) (d : Dict.dict Z) :
  d <> [] -> NoDup (Dict.keys d) ->
  (forall o, In o (Dict.keys d) -> trimmed o) ->
  General.merge_other q d <> []
  /\ NoDup (Dict.keys (General.merge_other q d))
  /\ forall o, In o (Dict.keys (General.merge_other q d)) -> trimmed o.
Proof.
  intros Hne Hnd Ht. unfold General.merge_other.
  destruct (Py.contains "Q4:" q || Py.contains "Q5:" q); [|now repeat split].
  destruct ((0 <? Dict.get_default d "Other" 0)%Z
            || (0 <? Dict.get_default d "Other (elaborated answ)" 0)%Z);
    [|now repeat split].
  rewrite !del_if_mem. split; [apply set_nonempty|]. split.
  - now apply NoDup_keys_set, NoDup_keys_del, NoDup_keys_del.
  - intros o Ho. apply In_keys_set in Ho. destruct Ho as [->|Ho];
      [reflexivity|].
    apply keys_del_In in Ho. destruct Ho as [Ho _].
    apply keys_del_In in Ho. destruct Ho as [Ho _]. now apply Ht.
Qed.

Lemma merge_other_options_well_formed (qd : General.questions) :
  well_formed qd -> well_formed (General._merge_other_options qd).
Proof.
  intros [Hnd Hall]. split; [now rewrite merge_other_keys|].
  intros q d Hin. unfold General._merge_other_options in Hin.
  apply in_map_iff in Hin. destruct Hin as [[q0 d0] [[= <- <-] Hin]].
  destruct (Hall q0 d0 Hin) as [Hq [Hne [Hnd0 Ht]]]. simpl.
  split; [exact Hq|]. now apply merge_other_well_formed.
Qed.

(** The outcome of [load_table]: nothing with one failure message, or the
    questions with the message that counts them. *)
Lemma load_table_outcome (selected_year : string) (df : Frame.DataFrame) :
  let qd := fst (General.load_table selected_year df) in
  let msgs := snd (General.load_table selected_year df) in
  (qd = [] /\ exists m, msgs = [m] /\ is_load_failure m = true)
  \/ (qd <> [] /\ msgs = [LoadedQuestions (List.length qd)]).
Proof.
  unfold General.load_table.
  destruct (negb _ || negb _ || negb _).
  - left. split; [reflexivity|]. now exists MissingColumns.
  - destruct (General.add_rows _ [] _) as [[|kv rest]|e].
    + left. split; [reflexivity|]. now exists NoValidData.
    + right. simpl. split; [discriminate|].
      unfold General._merge_other_options. now rewrite length_map.
    + left. split; [reflexivity|]. now exists (ErrorLoadingData e).
Qed.

(** Every table that [load_data] accepts is left well formed: each
    question and each option is keyed once, labels carry no white space
    around them, every question has at least one option, and so the
    automatic chart choice never falls back to its answer for no data. *)
Theorem load_table_well_formed (selected_year : string)
  (df : Frame.DataFrame) :
  well_formed (fst (General.load_table selected_year df))
  /\ forall q d,
       In (q, d) (fst (General.load_table selected_year df)) ->
       General.auto_select_chart_type d <> table.
Proof.
  assert (Hwf : well_formed (fst (General.load_table selected_year df))).
  { unfold General.load_table.
    destruct (negb _ || negb _ || negb _); [apply well_formed_empty|].
    destruct (General.add_rows _ [] _) as [[|kv rest]|e] eqn:E;
      try apply well_formed_empty.
    change (well_formed (General._merge_other_options (kv :: rest))).
    apply merge_other_options_well_formed.
    apply (add_rows_well_formed _ _ _ _ E). apply well_formed_empty. }
  split; [exact Hwf|].
  intros q d Hin. destruct Hwf as [_ Hall].
  destruct (Hall q d Hin) as [_ [Hne _]].
  destruct d as [|kv rest]; [congruence|].
  unfold General.auto_select_chart_type.
  destruct (_ <=? 5); [discriminate|].
  destruct (_ || _); discriminate.
Qed.

Lemma load_table_well_formed_witness :
  General.auto_select_chart_type [("Yes", 30%Z); ("No", 0%Z)] <> table.
Proof.
  apply (proj2 (load_table_well_formed "All" table_with_gap) "Q1: X").
  vm_compute. now left.
Defined.

Section LoaderOutcome.
Variable read_csv : string -> option string -> result Frame.DataFrame.
Variable file_path : string.

(** What the loop over the encodings can end with. *)
Lemma try_encodings_outcome (encs : list string) :
  match General.try_encodings read_csv file_path encs with
  | None =>
      forall enc, In enc encs ->
        is_decode_error (read_csv file_path (Some enc)) = true
  | Some r =>
      is_decode_error r = false
      /\ exists enc, In enc encs /\ read_csv file_path (Some enc) = r
  end.
Proof.
  induction encs as [|e0 rest IH]; simpl; [intros enc []|].
  destruct (read_csv file_path (Some e0)) as [df|e] eqn:E.
  - split; [reflexivity|]. exists e0. split; [now left|exact E].
  - destruct e;
      try (split; [reflexivity|]; exists e0; split; [now left|exact E]).
    destruct (General.try_encodings read_csv file_path rest) as [r|].
    + destruct IH as [Hr [enc [Hin Henc]]]. split; [exact Hr|].
      exists enc. split; [now right|exact Henc].
    + intros enc [<-|Hin]; [now rewrite E|now apply IH].
Qed.

End LoaderOutcome.

(** The loader never lets a decoding error out, and it never comes back
    with a message and data: either it hands on, without a message, exactly
    what one call of [pd.read_csv] returned or raised, or every call failed
    and it returns the empty table with the one message about the failure
    of the unqualified parse. *)
Theorem safe_read_csv_outcome
  (read_csv : string -> option string -> result Frame.DataFrame)
  (file_path : string) :
  let r := fst (General.safe_read_csv read_csv file_path) in
  let msgs := snd (General.safe_read_csv read_csv file_path) in
  is_decode_error r = false
  /\ ((msgs = []
       /\ exists encoding,
            (encoding = None \/ exists enc, encoding = Some enc
                                            /\ In enc General.encodings)
            /\ read_csv file_path encoding = r)
      \/ (r = Ok Frame.empty
          /\ (forall enc, In enc General.encodings ->
                is_decode_error (read_csv file_path (Some enc)) = true)
          /\ exists e, read_csv file_path None = Raise e
                       /\ msgs = [FailedToRead file_path e])).
Proof.
  unfold General.safe_read_csv.
  pose proof (try_encodings_outcome read_csv file_path General.encodings) as H.
  destruct (General.try_encodings read_csv file_path General.encodings)
    as [r|].
  - destruct H as [Hr [enc [Hin Henc]]]. simpl. split; [exact Hr|].
    left. split; [reflexivity|]. exists (Some enc). split; [|exact Henc].
    right. now exists enc.
  - destruct (read_csv file_path None) as [df|e] eqn:E; simpl.
    + split; [reflexivity|]. left. split; [reflexivity|].
      exists None. split; [now left|exact E].
    + split; [reflexivity|]. right. split; [reflexivity|].
      split; [exact H|]. now exists e.
Qed.

Lemma safe_read_csv_outcome_messages
  (read_csv : string -> option string -> result Frame.DataFrame)
  (file_path : string) :
  snd (General.safe_read_csv read_csv file_path) = []
  \/ exists e,
       fst (General.safe_read_csv read_csv file_path) = Ok Frame.empty
       /\ snd (General.safe_read_csv read_csv file_path)
          = [FailedToRead file_path e].
Proof.
  unfold General.safe_read_csv.
  destruct (General.try_encodings read_csv file_path General.encodings);
    [now left|].
  destruct (read_csv file_path None) as [df|e]; [now left|].
  right. now exists e.
Qed.

Lemma load_table_empty (selected_year : string) :
  General.load_table selected_year Frame.empty = ([], [MissingColumns]).
Proof.
  unfold General.load_table, General.year_filter.
  destruct (String.eqb selected_year "All"); reflexivity.
Qed.

(** [load_data] ends in one of two ways: it keeps no question and its last
    message reports the failure (after, at most, the loader's own message),
    or it keeps at least one question and its only message counts the
    questions kept. *)
Theorem load_data_outcome
  (read_csv : string -> option string -> result Frame.DataFrame)
  (csv_file_path selected_year : string) :
  let qd := fst (General.load_data read_csv csv_file_path selected_year) in
  let msgs := snd (General.load_data read_csv csv_file_path selected_year) in
  (qd = []
   /\ exists before m,
        msgs = before ++ [m] /\ is_load_failure m = true
        /\ (before = [] \/ exists e, before = [FailedToRead csv_file_path e]))
  \/ (qd <> [] /\ msgs = [LoadedQuestions (List.length qd)]).
Proof.
  unfold General.load_data.
  pose proof (safe_read_csv_outcome_messages read_csv csv_file_path) as Hm.
  destruct (General.safe_read_csv read_csv csv_file_path) as [[df|e] m0];
    simpl in Hm.
  - destruct Hm as [->|[e [He ->]]].
    + pose proof (load_table_outcome selected_year df) as Ht.
      destruct (General.load_table selected_year df) as [qd msgs]. simpl in *.
      destruct Ht as [[-> [m [-> Hfail]]]|[Hne ->]].
      * left. split; [reflexivity|]. exists [], m. repeat split; auto.
      * right. now split.
    + injection He as ->. rewrite load_table_empty. simpl.
      left. split; [reflexivity|].
      exists [FailedToRead csv_file_path e], MissingColumns.
      repeat split. right. now exists e.
  - simpl. left. split; [reflexivity|].
    exists m0, (ErrorLoadingData e).
    split; [reflexivity|]. split; [reflexivity|].
    destruct Hm as [->|[e' [He _]]]; [now left|discriminate].
Qed.

(* ================================================================== *)
(** ** What the chart of the general page shows *)
(* ================================================================== *)

Lemma clean_fold_distinct (data : Dict.dict Z) :
  forall acc : Dict.dict Z,
    NoDup (Dict.keys acc ++ map General.clean_key
                                (Dict.keys (nonnegative_entries data))) ->
    fold_left clean_step data acc = acc ++ table_items (nonnegative_entries data).
Proof.
  induction data as [|[k v] rest IH]; intros acc Hnd; simpl.
  - now rewrite app_nil_r.
  - unfold clean_step at 2. unfold nonnegative_entries in *. simpl in *.
    destruct (0 <=? v)%Z; simpl in *.
    + assert (Hk : ~ In (General.clean_key k) (Dict.keys acc)).
      { intros Hin. apply NoDup_remove_2 in Hnd. apply Hnd.
        apply in_or_app. now left. }
      rewrite (set_absent_app acc _ _ Hk).
      rewrite IH.
      * now rewrite <- app_assoc.
      * unfold Dict.keys in *. rewrite map_app. simpl.
        rewrite <- app_assoc. simpl.
        apply NoDup_Add with (a := General.clean_key k)
                             (l := map fst acc ++ map General.clean_key
                                     (map fst (filter (fun kv => (0 <=? snd kv)%Z) rest))).
        -- apply Add_app.
        -- split.
           ++ now apply NoDup_remove_1 in Hnd.
           ++ now apply NoDup_remove_2 in Hnd.
    + now apply IH.
Qed.

(** For counts that binary64 holds exactly: when some entry has a
    non-negative count and the labels of those entries stay distinct, the
    chart shows the entries with a non-negative count, all of them, in the
    order of the mapping, under the formatted title; it reports nothing. *)
Theorem chart_shows_nonnegative_entries (STYLES_AVAILABLE : bool)
  (data : Dict.dict Z) (kind : chart_type) (title : string) :
  exact_counts data ->
  nonnegative_entries data <> [] ->
  NoDup (map General.clean_key (Dict.keys (nonnegative_entries data))) ->
  exists fig,
    General.create_chart_unified STYLES_AVAILABLE data kind title = (fig, [])
    /\ has_trace fig = true
    /\ figure_labels fig
       = map General.clean_key (Dict.keys (nonnegative_entries data))
    /\ figure_values fig = Dict.values (nonnegative_entries data)
    /\ figure_title fig = General.process_title_for_display title.
Proof.
  intros _ Hne Hnd.
  assert (Hclean : General.clean_data_of data
                   = table_items (nonnegative_entries data)).
  { apply (clean_fold_distinct data []). exact Hnd. }
  assert (Hdata : data <> []) by (intros ->; now apply Hne).
  assert (Hc : General.clean_data_of data <> []).
  { rewrite Hclean. unfold table_items.
    destruct (nonnegative_entries data); [congruence|discriminate]. }
  destruct (build_chart_succeeds STYLES_AVAILABLE data kind title Hc)
    as [fig Hfig].
  pose proof (build_chart_shows _ _ _ _ _ Hfig) as [Htrace [Hl Hv]].
  exists fig. unfold General.create_chart_unified. rewrite Hfig.
  split; [reflexivity|]. split; [exact Htrace|].
  rewrite Hl, Hv, Hclean. unfold table_items, Dict.keys, Dict.values.
  rewrite !map_map. simpl. repeat split.
  unfold General.build_chart in Hfig.
  destruct data as [|kv rest]; [congruence|].
  destruct (General.clean_data_of (kv :: rest)); [congruence|].
  destruct STYLES_AVAILABLE; [|destruct kind]; injection Hfig as <-;
    reflexivity.
Qed.

Lemma chart_shows_nonnegative_entries_witness :
  exists fig,
    General.create_chart_unified false [("A", (-3)%Z); ("", 0%Z); ("B", 5%Z)]
                                 bar "Q1: X" = (fig, [])
    /\ figure_labels fig = ["Unknown"; "B"]
    /\ figure_values fig = [0%Z; 5%Z].
Proof.
  destruct (chart_shows_nonnegative_entries false
              [("A", (-3)%Z); ("", 0%Z); ("B", 5%Z)] bar "Q1: X")
    as [fig [Hfig [_ [Hl [Hv _]]]]].
  - intros kv [<-|[<-|[<-|[]]]]; simpl; lia.
  - discriminate.
  - simpl. repeat constructor; simpl; intuition discriminate.
  - exists fig. split; [exact Hfig|]. now split.
Defined.

(** For counts that binary64 holds exactly, the chart is replaced by the
    placeholder with the error text exactly when the mapping has no entry
    with a non-negative count (it is empty, or all its counts are
    negative); then, and only then, an error is reported. *)
Theorem chart_error_iff (STYLES_AVAILABLE : bool) (data : Dict.dict Z)
  (kind : chart_type) (title : string) :
  exact_counts data ->
  let fig := fst (General.create_chart_unified STYLES_AVAILABLE data kind title) in
  let msgs := snd (General.create_chart_unified STYLES_AVAILABLE data kind title) in
  (has_trace fig = false <-> nonnegative_entries data = [])
  /\ (msgs = [] <-> has_trace fig = true)
  /\ (has_trace fig = false ->
      exists text,
        msgs = [ErrorCreatingChart (ValueError text)]
        /\ fig = Annotation
                   ("Chart Error: " ++ text
                    ++ "<br>Please try selecting a different question or chart type.")%string
                   (if String.eqb title "" then "Chart Error" else title)
                   400%Z).
Proof.
  intros _.
  assert (Hiff : General.clean_data_of data = [] <-> nonnegative_entries data = []).
  { split.
    - intros E. destruct (nonnegative_entries data) as [|[k v] rest] eqn:En;
        [reflexivity|].
      exfalso. apply (clean_data_of_nonempty data); [|exact E].
      assert (Hin : In (k, v) (nonnegative_entries data))
        by (rewrite En; now left).
      apply filter_In in Hin. destruct Hin as [Hin Hv].
      exists (k, v). split; [exact Hin|]. now apply Z.leb_le in Hv.
    - intros E. destruct (General.clean_data_of data) as [|[k v] rest] eqn:Ec;
        [reflexivity|].
      exfalso.
      destruct (clean_data_of_In data k v) as [k0 [Hin [_ Hv]]];
        [rewrite Ec; now left|].
      assert (Hf : In (k0, v) (nonnegative_entries data)).
      { apply filter_In. split; [exact Hin|]. now apply Z.leb_le. }
      rewrite E in Hf. exact Hf. }
  unfold General.create_chart_unified, General.build_chart.
  destruct data as [|kv rest] eqn:Ed.
  - simpl. repeat split; try discriminate; auto.
    intros _. now eexists.
  - rewrite <- Ed in *.
    destruct (General.clean_data_of data) as [|c cs] eqn:Ec.
    + simpl. split; [split; intros _; [now apply Hiff|reflexivity]|].
      split; [split; discriminate|]. intros _. now eexists.
    + assert (Hn : nonnegative_entries data <> []).
      { intros E. apply Hiff in E. discriminate. }
      destruct STYLES_AVAILABLE; [|destruct kind]; simpl;
        (split; [split; [discriminate|intros E; now elim Hn]|]);
        (split; [split; reflexivity|discriminate]).
Qed.

Lemma chart_error_iff_witness :
  exists text,
    snd (General.create_chart_unified false [("A", (-3)%Z)] pie "Q1: X")
    = [ErrorCreatingChart (ValueError text)].
Proof.
  destruct (chart_error_iff false [("A", (-3)%Z)] pie "Q1: X")
    as [[_ Hempty] [_ Herr]].
  { intros kv [<-|[]]; simpl; lia. }
  destruct (Herr (Hempty eq_refl)) as [text [Hmsgs _]].
  now exists text.
Defined.





(* ================================================================== *)
(** ** The percentages of a table *)
(* ================================================================== *)

Lemma sum_tenths_perm (total : Z) (l l' : list (string * Z)) :
  Permutation l l' -> sum_tenths total l = sum_tenths total l'.
Proof. unfold sum_tenths. induction 1; simpl; lia. Qed.

Lemma entry_le_sum (items : list (string * Z)) (item : string * Z) :
  (forall kv, In kv items -> (0 <= snd kv)%Z) ->
  In item items -> (snd item <= General.sum_counts items)%Z.
Proof.
  unfold General.sum_counts.
  induction items as [|x rest IH]; intros Hall Hin; [destruct Hin|].
  simpl.
  assert (Hrest : (0 <= fold_right Z.add 0 (map snd rest))%Z).
  { clear -Hall. induction rest as [|y ys IH]; simpl; [lia|].
    assert (0 <= snd y)%Z by (apply Hall; right; now left).
    assert (0 <= fold_right Z.add 0 (map snd ys))%Z.
    { apply IH. intros kv [->|H']; apply Hall; [now left|right; now right]. }
    lia. }
  destruct Hin as [->|Hin]; [lia|].
  assert (0 <= snd x)%Z by (apply Hall; now left).
  specialize (IH (fun kv H' => Hall kv (or_intror H')) Hin). lia.
Qed.

Lemma sum_tenths_bound (total : Z) (items : list (string * Z)) :
  (0 < total)%Z ->
  (forall kv, In kv items -> (0 <= snd kv)%Z) ->
  (Z.abs (2 * (total * sum_tenths total items
               - 1000 * General.sum_counts items))
   <= Z.of_nat (List.length items) * total)%Z.
Proof.
  intros Htotal. unfold sum_tenths, General.sum_counts.
  induction items as [|[k v] rest IH]; intros Hall; simpl fold_right;
    simpl map.
  - cbn [List.length]. lia.
  - assert (Hv : (0 <= v)%Z) by (apply (Hall (k, v)); now left).
    specialize (IH (fun kv H' => Hall kv (or_intror H'))).
    pose proof (round_half_even_nearest (Z.abs v * 1000) total Htotal) as Hr.
    unfold General.percentage_tenths at 1. simpl snd.
    rewrite (Z.abs_eq v Hv) in Hr |- *.
    set (t := General.round_half_even (v * 1000) total) in *.
    set (S := fold_right Z.add 0%Z
                (map (fun item => General.percentage_tenths (snd item) total)
                     rest)) in *.
    set (C := fold_right Z.add 0%Z (map snd rest)) in *.
    change (List.length ((k, v) :: rest)) with (Datatypes.S (List.length rest)).
    rewrite Nat2Z.inj_succ.
    replace (total * (t + S))%Z with (total * t + total * S)%Z by ring.
    replace (Z.succ (Z.of_nat (List.length rest)) * total)%Z
      with (total + Z.of_nat (List.length rest) * total)%Z by ring.
    replace (t * total)%Z with (total * t)%Z in Hr by ring.
    lia.
Qed.

Lemma percentage_rows (total : Z) (items : list (string * Z)) :
  (0 < total)%Z ->
  (forall kv, In kv items -> (0 <= snd kv <= total)%Z) ->
  Forall2
    (fun r tenths =>
       nearest_tenth (General.Count r) total tenths
       /\ (0 <= tenths <= 1000)%Z
       /\ General.Percentage r = one_decimal_percent false tenths)
    (map (table_row_of total) items)
    (map (fun item => General.percentage_tenths (snd item) total) items).
Proof.
  intros Htotal Hall.
  induction items as [|[k v] rest IH]; cbn [map]; constructor.
  - assert (Hv : (0 <= v <= total)%Z) by (apply (Hall (k, v)); now left).
    pose proof (round_half_even_nearest (Z.abs v * 1000) total Htotal) as Hr.
    unfold table_row_of. cbn [General.Count General.Percentage snd fst].
    unfold nearest_tenth, General.percentage_text, one_decimal_percent,
      General.percentage_tenths.
    rewrite (Z.abs_eq v) in Hr |- * by lia.
    set (t := General.round_half_even (v * 1000) total) in *.
    split; [|split].
    + replace (t * total - 1000 * v)%Z with (t * total - v * 1000)%Z by ring.
      exact Hr.
    + nia.
    + apply Z.ltb_lt in Htotal. rewrite Htotal.
      destruct (Z.ltb_spec v 0); [lia|reflexivity].
  - apply IH. intros kv Hin. apply Hall. now right.
Qed.

(** For a mapping of non-negative counts with a positive total of at most
    [largest_total]: every percentage of the table is a one-decimal text
    between 0.0 and 100.0 that lies within one twentieth of
    count / total x 100, and the percentages of the table add up to 100
    within one twentieth per row. *)
Theorem percentages_add_up (data : Dict.dict Z) :
  (forall kv, In kv data -> (0 <= snd kv)%Z) ->
  (0 < General.total_of data <= largest_total)%Z ->
  exists rows percentages,
    General.percentage_table data = (Some rows, [])
    /\ Forall2
         (fun r tenths =>
            nearest_tenth (General.Count r) (General.total_of data) tenths
            /\ (0 <= tenths <= 1000)%Z
            /\ General.Percentage r = one_decimal_percent false tenths)
         rows percentages
    /\ (2 * Z.abs (fold_right Z.add 0%Z percentages - 1000)
        <= Z.of_nat (List.length rows))%Z.
Proof.
  intros Hall [Htotal _].
  assert (Hne : data <> []).
  { intros ->. unfold General.total_of in Htotal. simpl in Htotal. lia. }
  set (T := General.total_of data) in *.
  assert (Hitems : forall kv, In kv (table_items data) -> (0 <= snd kv)%Z).
  { intros kv Hin. unfold table_items in Hin. apply in_map_iff in Hin.
    destruct Hin as [kv0 [<- Hin]]. simpl. now apply Hall. }
  set (sorted := General.sort_values (table_items data)).
  exists (map (table_row_of T) sorted),
         (map (fun item => General.percentage_tenths (snd item) T) sorted).
  split; [now apply percentage_table_rows|]. split.
  - apply percentage_rows; [exact Htotal|].
    intros kv Hin.
    apply (Permutation_in _ (sort_values_perm (table_items data))) in Hin.
    split; [now apply Hitems|].
    unfold T. rewrite <- total_of_table_items.
    now apply (entry_le_sum (table_items data) kv).
  - rewrite length_map. fold (sum_tenths T sorted). unfold sorted.
    rewrite (sum_tenths_perm T _ _ (sort_values_perm _)).
    rewrite (Permutation_length (sort_values_perm (table_items data))).
    pose proof (sum_tenths_bound T (table_items data) Htotal Hitems) as Hb.
    rewrite total_of_table_items in Hb. fold T in Hb.
    set (S := sum_tenths T (table_items data)) in *.
    set (n := Z.of_nat (List.length (table_items data))) in *.
    assert (Hn : (0 <= n)%Z) by (unfold n; lia).
    nia.
Qed.

Lemma percentages_add_up_witness :
  exists rows percentages,
    General.percentage_table three_options = (Some rows, [])
    /\ map General.Percentage rows
       = map (one_decimal_percent false) percentages
    /\ (2 * Z.abs (fold_right Z.add 0%Z percentages - 1000)
        <= Z.of_nat (List.length rows))%Z.
Proof.
  destruct (percentages_add_up three_options)
    as [rows [percentages [Htable [Hrows Hsum]]]].
  - intros kv [<-|[<-|[<-|[]]]]; simpl; lia.
  - vm_compute. split; [reflexivity|discriminate].
  - exists rows, percentages. split; [exact Htable|]. split; [|exact Hsum].
    clear -Hrows. induction Hrows as [|r t rs ts [_ [_ Hp]] _ IH]; simpl;
      [reflexivity|now rewrite Hp, IH].
Defined.

(* ================================================================== *)
(** ** The results of the column-flag aggregator *)
(* ================================================================== *)

Lemma count_equal_le_rows (data : Frame.DataFrame) (col text : string) :
  Frame.count_equal data col text <= List.length (Frame.rows data).
Proof. unfold Frame.count_equal. apply filter_length_le. Qed.

Lemma length_set_le {V : Type} (d : Dict.dict V) (k : string) (v : V) :
  List.length (Dict.set d k v) <= S (List.length d).
Proof.
  induction d as [|[k0 v0] t IH]; simpl; [lia|].
  destruct (String.eqb k0 k); simpl; lia.
Qed.

Section FlagResults.
Variable data : Frame.DataFrame.

Lemma flag_fold_entries (cols : list string) :
  forall acc : Dict.dict Z,
    let results := fold_left (flag_step data) cols acc in
    (NoDup (Dict.keys acc) -> NoDup (Dict.keys results))
    /\ List.length results <= List.length acc + List.length cols
    /\ (acc <> [] -> results <> [])
    /\ forall label n,
         In (label, n) results ->
         In (label, n) acc
         \/ exists col,
              In col cols /\ answered data col = true
              /\ label = Q345.clean_name col
              /\ n = Z.of_nat (Frame.count_equal data col "YES").
Proof.
  induction cols as [|c rest IH]; intros acc; simpl.
  - repeat split; auto. lia.
  - destruct (IH (flag_step data acc c)) as [Hnd [Hlen [Hne Hin]]].
    assert (Hstep :
              flag_step data acc c = acc
              \/ (answered data c = true
                  /\ flag_step data acc c
                     = Dict.set acc (Q345.clean_name c)
                         (Z.of_nat (Frame.count_equal data c "YES")))).
    { unfold flag_step, answered.
      destruct (Frame.has_column data c); [|now left].
      destruct (Z.ltb_spec 0 (Z.of_nat (Frame.count_equal data c "YES")))
        as [Hpos|Hz]; [|now left].
      right. split; [|reflexivity]. simpl. apply Nat.ltb_lt. lia. }
    split; [|split; [|split]].
    + intros Hacc. apply Hnd.
      destruct Hstep as [->|[_ ->]]; [exact Hacc|now apply NoDup_keys_set].
    + assert (Hone : List.length (flag_step data acc c) <= S (List.length acc)).
      { destruct Hstep as [->|[_ ->]]; [lia|apply length_set_le]. }
      lia.
    + intros Hacc. apply Hne.
      destruct Hstep as [->|[_ ->]]; [exact Hacc|apply set_nonempty].
    + intros label n Hres. destruct (Hin label n Hres) as [Hacc|Hcol].
      * destruct Hstep as [E|[Hans E]]; rewrite E in Hacc; [now left|].
        apply set_In in Hacc. destruct Hacc as [[= -> ->]|Hacc]; [|now left].
        right. exists c. repeat split; auto.
      * right. destruct Hcol as [col [Hc Hrest]]. exists col. split; auto.
Qed.

Lemma flag_fold_answered (cols : list string) :
  forall acc : Dict.dict Z,
    existsb (answered data) cols = true ->
    fold_left (flag_step data) cols acc <> [].
Proof.
  induction cols as [|c rest IH]; intros acc; simpl; [discriminate|].
  intros H. apply orb_true_iff in H. destruct H as [Hc|Hrest].
  - apply (flag_fold_entries rest (flag_step data acc c)).
    unfold flag_step, answered in *. apply andb_true_iff in Hc.
    destruct Hc as [-> Hpos]. apply Nat.ltb_lt in Hpos.
    destruct (Z.ltb_spec 0 (Z.of_nat (Frame.count_equal data c "YES")));
      [apply set_nonempty|lia].
  - now apply IH.
Qed.

End FlagResults.

Lemma process_question_data_positive (data : Frame.DataFrame)
  (question_columns : list string) (group_name : string)
  (label : string) (n : Z) :
  In (label, n) (Q345.process_question_data data question_columns group_name) ->
  (1 <= n)%Z
  /\ exists col,
       In col question_columns /\ answered data col = true
       /\ label = Q345.clean_name col
       /\ n = Z.of_nat (Frame.count_equal data col "YES").
Proof.
  intros Hres.
  destruct (flag_fold_entries data question_columns []) as [_ [_ [_ Hin]]].
  destruct (Hin label n Hres) as [[]|[col [Hc [Hans [-> ->]]]]].
  split; [|exists col; now repeat split].
  unfold answered in Hans. apply andb_true_iff in Hans.
  destruct Hans as [_ Hpos]. apply Nat.ltb_lt in Hpos. lia.
Qed.

(** Every entry of the result comes from a known column that is present
    and has at least one YES: its label is the cleaned column name, its
    count the number of YES cells, between 1 and the number of rows.  A
    label is there at most once, and there are at most as many entries as
    known columns. *)
Theorem process_question_data_entries (data : Frame.DataFrame)
  (question_columns : list string) (group_name : string) :
  let results := Q345.process_question_data data question_columns group_name in
  NoDup (Dict.keys results)
  /\ List.length results <= List.length question_columns
  /\ forall label n,
       In (label, n) results ->
       (1 <= n <= Z.of_nat (List.length (Frame.rows data)))%Z
       /\ exists col,
            In col question_columns
            /\ Frame.has_column data col = true
            /\ label = Q345.clean_name col
            /\ n = Z.of_nat (Frame.count_equal data col "YES").
Proof.
  destruct (flag_fold_entries data question_columns [])
    as [Hnd [Hlen [_ Hin]]].
  split; [apply Hnd; constructor|]. split; [exact Hlen|].
  intros label n Hres. destruct (Hin label n Hres) as [[]|[col Hcol]].
  destruct Hcol as [Hc [Hans [-> ->]]].
  unfold answered in Hans. apply andb_true_iff in Hans.
  destruct Hans as [Hhas Hpos]. apply Nat.ltb_lt in Hpos.
  pose proof (count_equal_le_rows data col "YES").
  split; [lia|]. exists col. now repeat split.
Qed.

Lemma process_question_data_entries_witness :
  exists col,
    In col ["A. "; "B. "]
    /\ Frame.has_column flags_example col = true
    /\ "A" = Q345.clean_name col
    /\ 6%Z = Z.of_nat (Frame.count_equal flags_example col "YES").
Proof.
  apply (proj2 (proj2 (process_question_data_entries flags_example
                         ["A. "; "B. "] "Q3")) "A" 6%Z).
  vm_compute. now left.
Defined.

(** The chart of a group shows data exactly when some known column is in
    the table with at least one YES; otherwise it is the placeholder. *)
Theorem group_chart_trace (STYLES_AVAILABLE : bool) (data : Frame.DataFrame)
  (question_columns : list string) (group : string) :
  let fig := Q345.group_chart STYLES_AVAILABLE data question_columns group in
  has_trace fig = existsb (answered data) question_columns
  /\ (has_trace fig = true ->
      figure_labels fig
      = Dict.keys (Q345.process_question_data data question_columns group)
      /\ figure_values fig
         = Dict.values (Q345.process_question_data data question_columns group))
  /\ (has_trace fig = false ->
      fig = Annotation ("No data available for " ++ group)%string
                       (group ++ " Response Distribution")%string 500%Z).
Proof.
  set (results := Q345.process_question_data data question_columns group).
  assert (Hshape : forall fig : figure,
            fig = Q345.group_chart STYLES_AVAILABLE data question_columns group ->
            (results = []
             /\ fig = Annotation ("No data available for " ++ group)%string
                                 (group ++ " Response Distribution")%string 500%Z)
            \/ (results <> [] /\ has_trace fig = true
                /\ figure_labels fig = Dict.keys results
                /\ figure_values fig = Dict.values results)).
  { intros fig ->. unfold Q345.group_chart. fold results.
    destruct results as [|[k v] rest] eqn:Er; [now left|]. right.
    split; [discriminate|].
    assert (Hv : (1 <= v)%Z).
    { destruct (process_question_data_positive data question_columns group k v)
        as [H _]; [fold results; rewrite Er; now left|exact H]. }
    unfold Q345.create_standardized_chart. simpl.
    destruct (Z.eqb_spec v 0); [lia|]. simpl.
    destruct STYLES_AVAILABLE; [now repeat split|].
    destruct (Q345.select_chart_type ((k, v) :: rest)); now repeat split. }
  intros fig.
  destruct (Hshape fig eq_refl) as [[Hempty Hfig]|[Hne [Htrace [Hl Hv]]]].
  - rewrite Hfig. simpl. split; [|split; [discriminate|reflexivity]].
    destruct (existsb (answered data) question_columns) eqn:E; [|reflexivity].
    exfalso. apply (flag_fold_answered data question_columns [] E).
    exact Hempty.
  - rewrite Htrace. split; [|split; [now split|discriminate]].
    destruct (existsb (answered data) question_columns) eqn:E; [reflexivity|].
    exfalso. destruct results as [|[k v] rest] eqn:Er; [congruence|].
    destruct (flag_fold_entries data question_columns []) as [_ [_ [_ Hin]]].
    destruct (Hin k v) as [[]|[col [Hc [Hans _]]]].
    + change (In (k, v) results). rewrite Er. now left.
    + assert (Hex : existsb (answered data) question_columns = true).
      { apply existsb_exists. now exists col. }
      congruence.
Qed.

Lemma group_chart_trace_witness :
  has_trace (Q345.group_chart false flags_example ["A. "; "B. "] "Q3") = true
  /\ figure_labels (Q345.group_chart false flags_example ["A. "; "B. "] "Q3")
     = ["A"].
Proof.
  destruct (group_chart_trace false flags_example ["A. "; "B. "] "Q3")
    as [Htrace [Hshown _]].
  split; [rewrite Htrace; reflexivity|].
  destruct (Hshown ltac:(rewrite Htrace; reflexivity)) as [Hl _].
  rewrite Hl. reflexivity.
Defined.

(* ================================================================== *)
(** ** Filtering rows by year and by region *)
(* ================================================================== *)

Lemma count_equal_select (df : Frame.DataFrame) (c : string)
  (p : Frame.cell -> bool) (col text : string) :
  Frame.count_equal (Frame.select df c p) col text
  <= Frame.count_equal df col text.
Proof.
  unfold Frame.count_equal, Frame.select. simpl.
  induction (Frame.rows df) as [|row rest IH]; simpl; [lia|].
  destruct (p (Frame.at_column (Frame.columns df) row c)); simpl.
  - destruct (Frame.at_column (Frame.columns df) row col) as [| | |s];
      try exact IH.
    destruct (String.eqb s text); simpl; lia.
  - destruct (Frame.at_column (Frame.columns df) row col) as [| | |s];
      try exact IH.
    destruct (String.eqb s text); simpl; lia.
Qed.

Lemma has_column_select (df : Frame.DataFrame) (c : string)
  (p : Frame.cell -> bool) (col : string) :
  Frame.has_column (Frame.select df c p) col = Frame.has_column df col.
Proof. reflexivity. Qed.

Lemma year_filter_cases (selected_year : string) (df : Frame.DataFrame) :
  Q345.year_filter selected_year df = df
  \/ exists c p, Q345.year_filter selected_year df = Frame.select df c p.
Proof.
  unfold Q345.year_filter.
  destruct (String.eqb selected_year "All"); [now left|].
  destruct (Frame.has_column df "YEAR"); [right; now eexists _, _|].
  destruct (Frame.has_column df "year"); [right; now eexists _, _|now left].
Qed.

Lemma year_filter_columns (selected_year : string) (df : Frame.DataFrame) :
  Frame.columns (Q345.year_filter selected_year df) = Frame.columns df.
Proof.
  destruct (year_filter_cases selected_year df) as [->|[c [p ->]]];
    reflexivity.
Qed.

(** What a page does to a table before counting: the year filter, then
    the region filter when a region is selected.  The columns stay, and no
    count of YES cells goes up. *)
Lemma filters_lower_count (selected_year selected_region : string)
  (data filtered : Frame.DataFrame) (col : string) :
  filtered = Q345.year_filter selected_year data
  \/ Q345.region_filter selected_region (Q345.year_filter selected_year data)
     = Ok filtered ->
  Frame.has_column filtered col = Frame.has_column data col
  /\ Frame.count_equal filtered col "YES" <= Frame.count_equal data col "YES".
Proof.
  intros [->|Hf].
  { destruct (year_filter_cases selected_year data) as [->|[c [p ->]]].
    - split; [reflexivity|lia].
    - split; [reflexivity|apply count_equal_select]. }
  revert Hf. unfold Q345.region_filter.
  destruct (Frame.has_column (Q345.year_filter selected_year data)
              "Department/Region"); [|discriminate].
  intros [= <-]. rewrite has_column_select.
  pose proof (count_equal_select (Q345.year_filter selected_year data)
                "Department/Region"
                (fun x => match x with
                          | Frame.Str s => String.eqb s selected_region
                          | _ => false
                          end) col "YES") as H1.
  destruct (year_filter_cases selected_year data) as [E|[c [p E]]];
    rewrite E in *.
  - split; [reflexivity|exact H1].
  - split; [reflexivity|].
    pose proof (count_equal_select data c p col "YES"). lia.
Qed.

(** Filtering by year, and then by region when one is selected, can only
    lower the counts of a group
    and never brings in an option: whatever the filtered table yields for a
    known column, the unfiltered table yields for it too, with a count that
    is at least as large. *)
Theorem filters_lower_results (selected_year selected_region : string)
  (data filtered : Frame.DataFrame) (question_columns : list string)
  (group_name : string) :
  NoDup (map Q345.clean_name question_columns) ->
  filtered = Q345.year_filter selected_year data
  \/ Q345.region_filter selected_region (Q345.year_filter selected_year data)
     = Ok filtered ->
  forall col n,
    In col question_columns ->
    Dict.get (Q345.process_question_data filtered question_columns group_name)
             (Q345.clean_name col) = Some n ->
    exists m,
      Dict.get (Q345.process_question_data data question_columns group_name)
               (Q345.clean_name col) = Some m
      /\ (n <= m)%Z.
Proof.
  intros Hnd Hf col n Hcol Hget.
  destruct (filters_lower_count _ _ _ _ col Hf) as [Hhas Hle].
  assert (Hres : forall d : Frame.DataFrame,
            Dict.get (Q345.process_question_data d question_columns group_name)
                     (Q345.clean_name col) = flag_entry d col).
  { intros d.
    apply (flag_fold d question_columns [] Hnd (fun _ _ => eq_refl)).
    exact Hcol. }
  rewrite Hres in Hget. rewrite Hres. unfold flag_entry in *.
  rewrite Hhas in Hget.
  destruct (Frame.has_column data col); [|discriminate]. simpl in *.
  destruct (Z.ltb_spec 0 (Z.of_nat (Frame.count_equal filtered col "YES")));
    [|discriminate].
  injection Hget as <-.
  destruct (Z.ltb_spec 0 (Z.of_nat (Frame.count_equal data col "YES")));
    [|lia].
  eexists. split; [reflexivity|lia].
Qed.

Lemma filters_lower_results_witness :
  exists m,
    Dict.get (Q345.process_question_data flags_by_region Q345.q5_columns "Q5")
             "Young women" = Some m
    /\ (1 <= m)%Z.
Proof.
  assert (Hnd : NoDup (map Q345.clean_name Q345.q5_columns)).
  { vm_compute. repeat constructor; simpl; intuition discriminate. }
  apply (filters_lower_results "2024" "Africa" flags_by_region
           (Frame.select (Q345.year_filter "2024" flags_by_region)
              "Department/Region"
              (fun x => match x with
                        | Frame.Str s => String.eqb s "Africa"
                        | _ => false
                        end))
           Q345.q5_columns "Q5" Hnd (or_intror eq_refl) "Young women" 1%Z).
  - now left.
  - reflexivity.
Defined.

(* ================================================================== *)
(** ** The specialized page as a whole *)
(* ================================================================== *)

Lemma q345_loader_no_decode_error
  (read_csv : string -> option string -> result Frame.DataFrame)
  (file_path : string) :
  is_decode_error (fst (Q345.safe_read_csv read_csv file_path)) = false.
Proof.
  rewrite loaders_agree. unfold General.safe_read_csv.
  pose proof (try_encodings_outcome read_csv file_path General.encodings) as H.
  destruct (General.try_encodings read_csv file_path General.encodings)
    as [r|]; [now destruct H|].
  now destruct (read_csv file_path None).
Qed.

Section LayoutOutcome.
Variable STYLES_AVAILABLE : bool.
Variable read_csv : string -> option string -> result Frame.DataFrame.
Variables project_root selected_year : string.
Variable session_region : option string.
Variable sidebar_region : string.

Lemma read_tables_no_decode_error :
  is_decode_error (fst (Q345.read_tables read_csv project_root)) = false.
Proof.
  unfold Q345.read_tables.
  pose proof (q345_loader_no_decode_error read_csv
                (Q345.data_path project_root "PART2_base_dataQ3.csv")) as H3.
  pose proof (q345_loader_no_decode_error read_csv
                (Q345.data_path project_root "PART2_base_dataQ4.csv")) as H4.
  pose proof (q345_loader_no_decode_error read_csv
                (Q345.data_path project_root "PART2_base_dataQ5.csv")) as H5.
  destruct (Q345.safe_read_csv read_csv
              (Q345.data_path project_root "PART2_base_dataQ3.csv"))
    as [[q3|e3] m3]; [|exact H3].
  destruct (Q345.safe_read_csv read_csv
              (Q345.data_path project_root "PART2_base_dataQ4.csv"))
    as [[q4|e4] m4]; [|exact H4].
  destruct (Q345.safe_read_csv read_csv
              (Q345.data_path project_root "PART2_base_dataQ5.csv"))
    as [[q5|e5] m5]; [reflexivity|exact H5].
Qed.

Lemma region_filter_outcome (selected_region : string) (df : Frame.DataFrame) :
  (Frame.has_column df region_column = true
   /\ exists filtered, Q345.region_filter selected_region df = Ok filtered)
  \/ (Frame.has_column df region_column = false
      /\ Q345.region_filter selected_region df
         = Raise (OtherException "KeyError" "'Department/Region'")).
Proof.
  unfold Q345.region_filter, region_column.
  destruct (Frame.has_column df "Department/Region");
    [left; split; [reflexivity|now eexists]|right; now split].
Qed.

Lemma has_column_year_filter (df : Frame.DataFrame) (col : string) :
  Frame.has_column (Q345.year_filter selected_year df) col
  = Frame.has_column df col.
Proof. unfold Frame.has_column. now rewrite year_filter_columns. Qed.

(** The page ends in one of three ways: it shows its three charts; or a
    file was not found, which it reports, showing no chart; or an exception
    leaves it, which is then neither a decoding error nor a missing
    file. *)
Theorem q345_layout_outcome :
  match Q345.create_layout STYLES_AVAILABLE read_csv project_root
                           selected_year session_region sidebar_region with
  | Ok page =>
      (List.length (Q345.charts page) = 3
       /\ exists more,
            Q345.messages page
            = snd (Q345.read_tables read_csv project_root) ++ more
            /\ existsb is_not_found_message more = false)
      \/ (Q345.charts page = []
          /\ exists text,
               Q345.messages page
               = snd (Q345.read_tables read_csv project_root)
                 ++ [DataFilesNotFound (FileNotFoundError text)])
  | Raise e =>
      is_decode_error (@Raise unit e) = false
      /\ forall text, e <> FileNotFoundError text
  end.
Proof.
  unfold Q345.create_layout.
  pose proof read_tables_no_decode_error as Hdec.
  destruct (Q345.read_tables read_csv project_root)
    as [[[[q3 q4] q5]|e] msgs]; simpl in Hdec.
  - set (q3' := Q345.year_filter selected_year q3).
    set (q4' := Q345.year_filter selected_year q4).
    set (q5' := Q345.year_filter selected_year q5).
    destruct (match session_region with
              | Some r => (true, r, [])
              | None =>
                  if Frame.has_column q3' "Department/Region"
                  then (true, sidebar_region, [])
                  else (false, "All", [RegionFilterNotAvailable])
              end) as [[has_region_data selected_region] msgs_region] eqn:Er.
    assert (Hmr : existsb is_not_found_message msgs_region = false).
    { destruct session_region; [now injection Er as _ _ <-|].
      destruct (Frame.has_column q3' "Department/Region");
        now injection Er as _ _ <-. }
    destruct (has_region_data && negb (String.eqb selected_region "All")).
    + destruct (Q345.region_filter selected_region q3') as [f3|e3] eqn:E3;
        simpl.
      2:{ destruct (region_filter_outcome selected_region q3')
            as [[_ [f H]]|[_ H]]; rewrite H in E3; [discriminate|].
          injection E3 as <-. split; [reflexivity|discriminate]. }
      destruct (Q345.region_filter selected_region q4') as [f4|e4] eqn:E4;
        simpl.
      2:{ destruct (region_filter_outcome selected_region q4')
            as [[_ [f H]]|[_ H]]; rewrite H in E4; [discriminate|].
          injection E4 as <-. split; [reflexivity|discriminate]. }
      destruct (Q345.region_filter selected_region q5') as [f5|e5] eqn:E5;
        simpl.
      2:{ destruct (region_filter_outcome selected_region q5')
            as [[_ [f H]]|[_ H]]; rewrite H in E5; [discriminate|].
          injection E5 as <-. split; [reflexivity|discriminate]. }
      left. split; [reflexivity|].
      exists (msgs_region ++ [ShowingDataFor selected_region]).
      split; [reflexivity|]. rewrite existsb_app, Hmr. reflexivity.
    + simpl. left. split; [reflexivity|].
      exists (msgs_region ++ []).
      split; [reflexivity|]. rewrite existsb_app, Hmr. reflexivity.
  - destruct e; simpl in *; try discriminate;
      try (split; [reflexivity|discriminate]).
    right. split; [reflexivity|]. now exists text.
Qed.

(** With a region selected in the session, the page needs the region
    column in each of its three tables: with it the three charts are
    shown, and without it, in any of them, [KeyError] leaves the page.
    With the region "All" the column is not looked at. *)
Theorem q345_region_needs_column (q3_data q4_data q5_data : Frame.DataFrame)
  (msgs : list message) (selected_region : string) :
  Q345.read_tables read_csv project_root
  = (Ok (q3_data, q4_data, q5_data), msgs) ->
  session_region = Some selected_region ->
  let shown :=
    Q345.create_layout STYLES_AVAILABLE read_csv project_root
                       selected_year session_region sidebar_region in
  (selected_region = "All"
   \/ all_have_region q3_data q4_data q5_data = true ->
   exists page, shown = Ok page /\ List.length (Q345.charts page) = 3)
  /\ (selected_region <> "All" ->
      all_have_region q3_data q4_data q5_data = false ->
      shown = Raise (OtherException "KeyError" "'Department/Region'")).
Proof.
  intros Hread Hsession shown. unfold shown, Q345.create_layout.
  rewrite Hread, Hsession. simpl andb.
  set (q3' := Q345.year_filter selected_year q3_data).
  set (q4' := Q345.year_filter selected_year q4_data).
  set (q5' := Q345.year_filter selected_year q5_data).
  pose proof (has_column_year_filter q3_data region_column) as H3.
  pose proof (has_column_year_filter q4_data region_column) as H4.
  pose proof (has_column_year_filter q5_data region_column) as H5.
  fold q3' in H3. fold q4' in H4. fold q5' in H5.
  unfold all_have_region.
  destruct (String.eqb_spec selected_region "All") as [->|Hne]; simpl negb;
    cbv iota.
  - split; [|congruence]. intros _. eexists. split; reflexivity.
  - destruct (region_filter_outcome selected_region q3')
      as [[C3 [f3 E3]]|[C3 E3]]; rewrite E3; simpl bind;
      rewrite <- H3, C3; simpl andb.
    2:{ split; [intros [?|?]; [contradiction|discriminate]|reflexivity]. }
    destruct (region_filter_outcome selected_region q4')
      as [[C4 [f4 E4]]|[C4 E4]]; rewrite E4; simpl bind;
      rewrite <- H4, C4; simpl andb.
    2:{ split; [intros [?|?]; [contradiction|discriminate]|reflexivity]. }
    destruct (region_filter_outcome selected_region q5')
      as [[C5 [f5 E5]]|[C5 E5]]; rewrite E5; simpl bind;
      rewrite <- H5, C5.
    2:{ split; [intros [?|?]; [contradiction|discriminate]|reflexivity]. }
    split; [|discriminate]. intros _. eexists. split; reflexivity.
Qed.

End LayoutOutcome.

Lemma q345_region_needs_column_witness :
  Q345.create_layout false tables_without_region "/app" "All"
                     (Some "Africa") "All"
  = Raise (OtherException "KeyError" "'Department/Region'").
Proof.
  apply (proj2 (q345_region_needs_column false tables_without_region "/app"
                  "All" (Some "Africa") "All"
                  flags_by_region flags_example flags_by_region []
                  "Africa" eq_refl eq_refl)).
  - discriminate.
  - reflexivity.
Defined.

(* ================================================================== *)
(** ** The chart type of the general page *)
(* ================================================================== *)

Lemma build_chart_kind (STYLES_AVAILABLE : bool) (data : Dict.dict Z)
  (choice : General.chart_option) (title : string) (fig : figure) :
  General.build_chart STYLES_AVAILABLE data (General.chart_type_key choice) title
  = Ok fig ->
  figure_kind fig = Some (General.chart_type_key choice).
Proof.
  unfold General.build_chart.
  destruct data as [|kv rest]; [discriminate|].
  destruct (General.clean_data_of (kv :: rest)); [discriminate|].
  destruct STYLES_AVAILABLE; destruct choice; intros [= <-]; reflexivity.
Qed.

(** The chart that the page shows is drawn in the type that the user
    picked and, without a pick, in the type chosen automatically from all
    the options of the question, those that the Q4/Q5 filter then removes
    included; its data are the filtered options. *)
Theorem shown_chart_kind (STYLES_AVAILABLE : bool)
  (questions_data : General.questions) (selected_question : string)
  (user_choice : option General.chart_option) (fig : figure) :
  General.chart (General.create_layout STYLES_AVAILABLE questions_data
                   selected_question user_choice) = Some fig ->
  has_trace fig = true ->
  exists question_data,
    Dict.get questions_data selected_question = Some question_data
    /\ figure_kind fig
       = Some (General.chart_type_key (chart_choice user_choice question_data))
    /\ figure_labels fig
       = Dict.keys (General.clean_data_of
                      (General.filter_question selected_question question_data)).
Proof.
  unfold General.create_layout.
  destruct questions_data as [|kv rest]; [discriminate|].
  destruct (filter _ (Dict.keys (kv :: rest))); [discriminate|].
  destruct (String.eqb selected_question ""); [discriminate|].
  destruct (Dict.get (kv :: rest) selected_question) as [d|]; [|discriminate].
  fold (chart_choice user_choice d).
  unfold General.create_chart_unified.
  destruct (General.build_chart STYLES_AVAILABLE
              (General.filter_question selected_question d)
              (General.chart_type_key (chart_choice user_choice d))
              selected_question) as [f|e] eqn:Eb.
  - destruct (General.percentage_table _) as [t m']. simpl.
    intros [= <-] _. exists d. split; [reflexivity|].
    split; [now apply (build_chart_kind _ _ _ _ _ Eb)|].
    now apply (build_chart_shows _ _ _ _ _ Eb).
  - destruct (General.percentage_table _) as [t m']. simpl.
    intros [= <-]. discriminate.
Qed.

Lemma shown_chart_kind_witness :
  exists fig,
    General.chart (General.create_layout false q4_six_options "Q4: Areas" None)
    = Some fig
    /\ figure_kind fig = Some bar
    /\ List.length (figure_labels fig) = 5.
Proof.
  destruct (General.chart
              (General.create_layout false q4_six_options "Q4: Areas" None))
    as [fig|] eqn:E; [|discriminate E].
  exists fig. split; [reflexivity|].
  assert (Htrace : has_trace fig = true).
  { vm_compute in E. injection E as <-. reflexivity. }
  destruct (shown_chart_kind false q4_six_options "Q4: Areas" None fig E Htrace)
    as [d [Hget [Hkind Hlabels]]].
  vm_compute in Hget. injection Hget as <-.
  split; [rewrite Hkind; reflexivity|rewrite Hlabels; reflexivity].
Defined.

(* ================================================================== *)
(** ** Question numbers and the list of questions *)
(* ================================================================== *)

Lemma digit_char (k : nat) :
  k < 10 ->
  Py.is_digit (ascii_of_nat (48 + k)) = true
  /\ Py.digit_val (ascii_of_nat (48 + k)) = Z.of_nat k.
Proof.
  intros Hk.
  do 10 (destruct k as [|k]; [split; vm_compute; reflexivity|]). lia.
Qed.

Lemma all_chars_app (p : ascii -> bool) (a b : string) :
  all_chars p (a ++ b) = all_chars p a && all_chars p b.
Proof.
  induction a as [|c a IH]; simpl; [reflexivity|].
  now rewrite IH, andb_assoc.
Qed.

(** The decimal digits of a number, read back. *)
Lemma digits_fuel_step (fuel n : nat) (acc : string) :
  Py.digits_fuel (S fuel) n acc
  = if n / 10 =? 0 then String (ascii_of_nat (48 + n mod 10)) acc
    else Py.digits_fuel fuel (n / 10)
           (String (ascii_of_nat (48 + n mod 10)) acc).
Proof. reflexivity. Qed.

Lemma parse_digits_digit (d : ascii) (s : string) (prev : bool) (a : Z) :
  Py.is_digit d = true ->
  Py.parse_digits (String d s) prev a
  = Py.parse_digits s true (a * 10 + Py.digit_val d).
Proof. intros Hd. cbn [Py.parse_digits]. now rewrite Hd. Qed.

Lemma digits_fuel_spec (fuel : nat) :
  forall (n : nat) (acc : string),
    n < fuel ->
    exists (ds : string) (m : Z),
      Py.digits_fuel fuel n acc = (ds ++ acc)%string
      /\ all_chars Py.is_digit ds = true
      /\ ds <> ""
      /\ forall (s : string) (prev : bool) (a : Z),
           Py.parse_digits (ds ++ s) prev a
           = Py.parse_digits s true (a * m + Z.of_nat n).
Proof.
  induction fuel as [|fuel IH]; intros n acc Hn; [lia|].
  assert (Hmod : n mod 10 < 10) by (apply Nat.mod_upper_bound; lia).
  destruct (digit_char (n mod 10) Hmod) as [Hd Hval].
  pose proof (Nat.div_mod_eq n 10) as Hdm.
  rewrite digits_fuel_step.
  generalize dependent (ascii_of_nat (48 + n mod 10)). intros d Hd Hval.
  destruct (Nat.eqb_spec (n / 10) 0) as [Hz|Hnz].
  - exists (String d ""), 10%Z.
    split; [reflexivity|].
    split; [cbn [all_chars]; now rewrite Hd|].
    split; [discriminate|].
    intros s prev a. cbn [append]. rewrite (parse_digits_digit d s prev a Hd).
    rewrite Hval. f_equal. lia.
  - destruct (IH (n / 10) (String d acc)) as [ds [m [Hds [Hall [Hne Hparse]]]]].
    { assert (n / 10 < n) by (apply Nat.div_lt; lia). lia. }
    exists (ds ++ String d "")%string, (m * 10)%Z.
    split; [|split; [|split]].
    + rewrite Hds, append_assoc. reflexivity.
    + rewrite all_chars_app, Hall. cbn [all_chars]. now rewrite Hd.
    + destruct ds; [congruence|discriminate].
    + intros s prev a. rewrite append_assoc. cbn [append].
      rewrite Hparse. rewrite (parse_digits_digit d s true _ Hd).
      rewrite Hval. f_equal. lia.
Qed.

Lemma leading_digits_app (ds rest : string) :
  all_chars Py.is_digit ds = true ->
  rejects Py.is_digit (first_char rest) ->
  General.leading_digits (ds ++ rest) = (ds, rest).
Proof.
  induction ds as [|c ds IH]; intros Hall Hrest.
  - destruct rest as [|c t]; [reflexivity|]. simpl in *. now rewrite Hrest.
  - simpl in Hall. apply andb_true_iff in Hall. destruct Hall as [Hc Hall].
    cbn [append General.leading_digits]. rewrite Hc, (IH Hall Hrest).
    reflexivity.
Qed.

Lemma parse_digits_nonneg (s : string) :
  forall (prev : bool) (a z : Z),
    (0 <= a)%Z -> Py.parse_digits s prev a = Some z -> (0 <= z)%Z.
Proof.
  induction s as [|c t IH]; intros prev a z Ha; simpl.
  - destruct prev; [now intros [= <-]|discriminate].
  - destruct (Py.is_digit c).
    + apply IH. unfold Py.digit_val. lia.
    + destruct (Ascii.eqb c "_"); [|discriminate].
      destruct prev; [now apply IH|discriminate].
Qed.

Lemma extract_numbered (c : ascii) (n : nat) (rest : string) :
  c = "Q"%char \/ c = "q"%char ->
  General._extract_question_number
    (String c (Py.str_nat n ++ ":" ++ rest))
  = Z.of_nat n.
Proof.
  intros Hc. unfold Py.str_nat.
  destruct (digits_fuel_spec (S n) n "" (Nat.lt_succ_diag_r n))
    as [ds [m [Hds [Hall [Hne Hparse]]]]].
  rewrite Hds, append_assoc.
  change ("" ++ ":" ++ rest)%string with (String ":" rest).
  unfold General._extract_question_number.
  assert (E : Ascii.eqb c "Q" || Ascii.eqb c "q" = true).
  { destruct Hc as [->| ->]; reflexivity. }
  rewrite E. rewrite leading_digits_app by (auto; reflexivity).
  destruct ds as [|d ds']; [congruence|].
  specialize (Hparse "" false 0%Z).
  assert (Hds' : (String d ds' ++ "")%string = String d ds').
  { clear. generalize (String d ds'). intros s.
    induction s as [|x s IH]; cbn [append]; [reflexivity|now rewrite IH]. }
  rewrite Hds' in Hparse. rewrite Hparse. reflexivity.
Qed.

(** The number of a question is read back from its label: a label that
    starts with Q or q, the decimal digits of a number and a colon has that
    number; a label that does not start with Q or q has the number 999; no
    label has a negative number. *)
Theorem extract_question_number_spec :
  (forall (n : nat) (rest : string),
     General._extract_question_number ("Q" ++ Py.str_nat n ++ ":" ++ rest)
     = Z.of_nat n
     /\ General._extract_question_number ("q" ++ Py.str_nat n ++ ":" ++ rest)
        = Z.of_nat n)
  /\ (forall label,
        first_char label <> Some "Q"%char ->
        first_char label <> Some "q"%char ->
        General._extract_question_number label = 999%Z)
  /\ (forall label, (0 <= General._extract_question_number label)%Z).
Proof.
  split; [|split].
  - intros n rest. split; apply extract_numbered; auto.
  - intros [|c t] HQ Hq; [reflexivity|]. simpl in HQ, Hq.
    unfold General._extract_question_number.
    destruct (Ascii.eqb_spec c "Q") as [->|_]; [congruence|].
    destruct (Ascii.eqb_spec c "q") as [->|_]; [congruence|]. reflexivity.
  - intros [|c t]; unfold General._extract_question_number; [lia|].
    destruct (Ascii.eqb c "Q" || Ascii.eqb c "q"); [|lia].
    destruct (General.leading_digits t) as [[|d ds] [|c' r]]; try lia.
    destruct (Ascii.eqb_spec c' ":") as [->|Hc].
    + destruct (Py.parse_digits (String d ds) false 0) as [z|] eqn:E; [|lia].
      now apply (parse_digits_nonneg _ _ _ _ (Z.le_refl 0) E).
    + destruct c' as [[] [] [] [] [] [] [] []]; try lia.
      now elim Hc.
Qed.

Lemma extract_question_number_spec_witness :
  General._extract_question_number "Region" = 999%Z.
Proof.
  apply (proj1 (proj2 extract_question_number_spec)); discriminate.
Defined.

Lemma insert_by_number_perm (q : string) (l : list string) :
  Permutation (Listing.insert_by_number q l) (q :: l).
Proof.
  induction l as [|x rest IH]; simpl; [apply Permutation_refl|].
  destruct (_ <=? _)%Z; [apply Permutation_refl|].
  eapply perm_trans; [apply perm_skip, IH|apply perm_swap].
Qed.

Lemma sorted_questions_perm (qd : General.questions) :
  Permutation (Listing.sorted_questions qd) (Dict.keys qd).
Proof.
  unfold Listing.sorted_questions.
  induction (Dict.keys qd) as [|x rest IH]; simpl; [apply perm_nil|].
  eapply perm_trans; [apply insert_by_number_perm|now apply perm_skip].
Qed.

Lemma insert_by_number_sorted (q : string) (l : list string) :
  Sorted number_le l -> Sorted number_le (Listing.insert_by_number q l).
Proof.
  induction l as [|x rest IH]; intros Hs; simpl.
  - repeat constructor.
  - destruct (Z.leb_spec (General._extract_question_number q)
                         (General._extract_question_number x)) as [Hle|Hgt].
    + constructor; [exact Hs|]. constructor. exact Hle.
    + inversion Hs as [|? ? Hrest Hhd]; subst.
      constructor; [now apply IH|].
      destruct rest as [|y rest']; simpl.
      * constructor. unfold number_le. lia.
      * destruct (Z.leb_spec (General._extract_question_number q)
                             (General._extract_question_number y)).
        -- constructor. unfold number_le. lia.
        -- constructor. now inversion Hhd.
Qed.

Lemma sorted_questions_sorted (qd : General.questions) :
  StronglySorted number_le (Listing.sorted_questions qd).
Proof.
  apply Sorted_StronglySorted.
  - intros a b c Hab Hbc. unfold number_le in *. lia.
  - unfold Listing.sorted_questions.
    induction (Dict.keys qd) as [|x rest IH]; simpl; [constructor|].
    now apply insert_by_number_sorted.
Qed.

(** Sorting is stable: the questions of one number keep their order. *)
Lemma insert_by_number_stable (n : Z) (q : string) (l : list string) :
  filter (has_number n) (Listing.insert_by_number q l)
  = filter (has_number n) (q :: l).
Proof.
  induction l as [|x rest IH]; [reflexivity|].
  cbn [Listing.insert_by_number].
  destruct (Z.leb_spec (General._extract_question_number q)
                       (General._extract_question_number x)) as [Hle|Hgt];
    [reflexivity|].
  cbn [filter] in *. rewrite IH. unfold has_number.
  destruct (Z.eqb_spec (General._extract_question_number q) n) as [Hq|Hq];
    [|reflexivity].
  destruct (Z.eqb_spec (General._extract_question_number x) n); [lia|].
  reflexivity.
Qed.

Lemma sorted_questions_stable (n : Z) (qd : General.questions) :
  filter (has_number n) (Listing.sorted_questions qd)
  = filter (has_number n) (Dict.keys qd).
Proof.
  unfold Listing.sorted_questions.
  induction (Dict.keys qd) as [|x rest IH]; [reflexivity|].
  cbn [fold_right]. rewrite insert_by_number_stable.
  cbn [filter]. now rewrite IH.
Qed.

Lemma filter_filter_implied {A : Type} (f g : A -> bool) (l : list A) :
  (forall x, f x = true -> g x = true) ->
  filter f (filter g l) = filter f l.
Proof.
  intros Himp. induction l as [|x rest IH]; simpl; [reflexivity|].
  destruct (g x) eqn:Eg; simpl.
  - now rewrite IH.
  - destruct (f x) eqn:Ef; [|exact IH].
    apply Himp in Ef. congruence.
Qed.

Lemma sorted_filter {A : Type} (R : A -> A -> Prop) (f : A -> bool)
  (l : list A) :
  StronglySorted R l -> StronglySorted R (filter f l).
Proof.
  induction 1 as [|a l Hs IH Hall]; simpl; [constructor|].
  destruct (f a); [|exact IH].
  constructor; [exact IH|].
  apply Forall_forall. intros x Hx. apply filter_In in Hx.
  rewrite Forall_forall in Hall. now apply Hall.
Qed.

Lemma filtered_questions_empty (questions_data : General.questions) :
  Listing.filtered_questions questions_data = []
  <-> filter is_listed (Dict.keys questions_data) = [].
Proof.
  unfold Listing.filtered_questions. fold is_listed.
  pose proof (sorted_questions_perm questions_data) as Hperm.
  split; intros E.
  - destruct (filter is_listed (Dict.keys questions_data)) as [|x rest] eqn:Ef;
      [reflexivity|].
    assert (Hx : In x (filter is_listed (Dict.keys questions_data)))
      by (rewrite Ef; now left).
    apply filter_In in Hx. destruct Hx as [Hin Hl].
    assert (Hx' : In x (filter is_listed
                          (Listing.sorted_questions questions_data))).
    { apply filter_In. split; [|exact Hl].
      now apply (Permutation_in _ (Permutation_sym Hperm)). }
    rewrite E in Hx'. destruct Hx'.
  - destruct (filter is_listed (Listing.sorted_questions questions_data))
      as [|x rest] eqn:Ef; [reflexivity|].
    assert (Hx : In x (filter is_listed
                         (Listing.sorted_questions questions_data)))
      by (rewrite Ef; now left).
    apply filter_In in Hx. destruct Hx as [Hin Hl].
    assert (Hx' : In x (filter is_listed (Dict.keys questions_data))).
    { apply filter_In. split; [|exact Hl].
      now apply (Permutation_in _ Hperm). }
    rewrite E in Hx'. destruct Hx'.
Qed.

Lemma chart_messages (STYLES_AVAILABLE : bool) (data : Dict.dict Z)
  (kind : chart_type) (title : string) :
  forall m,
    In m (snd (General.create_chart_unified STYLES_AVAILABLE data kind title)) ->
    exists e, m = ErrorCreatingChart e.
Proof.
  intros m. unfold General.create_chart_unified.
  destruct (General.build_chart STYLES_AVAILABLE data kind title) as [fig|e];
    simpl; [intros []|].
  intros [<-|[]]. now exists e.
Qed.

Lemma table_messages (data : Dict.dict Z) :
  forall m,
    In m (snd (General.percentage_table data)) ->
    m = NoResponseData \/ m = NoValidResponseData.
Proof.
  intros m. unfold General.percentage_table.
  destruct data as [|kv rest]; simpl; [intros [<-|[]]; now left|intros []].
Qed.

(** The question select box lists exactly the questions numbered at most
    5 (so none without a number), in ascending order of number and, within
    one number, in the order of the data; a question is listed once.  The
    page says that no question is available exactly when there is data and
    this list is empty, and then shows nothing else; without any data it
    says that no data is available instead. *)
Theorem filtered_questions_spec (questions_data : General.questions) :
  let listed := Listing.filtered_questions questions_data in
  (forall q, In q listed <->
             In q (Dict.keys questions_data) /\ is_listed q = true)
  /\ StronglySorted number_le listed
  /\ (forall n, (n <= 5)%Z ->
        filter (has_number n) listed
        = filter (has_number n) (Dict.keys questions_data))
  /\ (NoDup (Dict.keys questions_data) -> NoDup listed)
  /\ (forall STYLES_AVAILABLE selected_question user_choice,
        let shown :=
          General.create_layout STYLES_AVAILABLE questions_data
                                selected_question user_choice in
        (In NoQuestionsAvailable (General.messages shown)
         <-> questions_data <> [] /\ listed = [])
        /\ (questions_data <> [] -> listed = [] ->
            shown = {| General.chart := None; General.data_table := None;
                       General.messages := [NoQuestionsAvailable] |})
        /\ (questions_data = [] ->
            shown = {| General.chart := None; General.data_table := None;
                       General.messages := [NoDataAvailable] |})).
Proof.
  intros listed.
  pose proof (filtered_questions_empty questions_data) as Hempty.
  fold listed in Hempty.
  unfold listed, Listing.filtered_questions.
  fold is_listed.
  pose proof (sorted_questions_perm questions_data) as Hperm.
  split; [|split; [|split; [|split]]].
  - intros q. rewrite filter_In. split; intros [Hin Hl]; split; auto.
    + now apply (Permutation_in _ Hperm).
    + now apply (Permutation_in _ (Permutation_sym Hperm)).
  - apply sorted_filter, sorted_questions_sorted.
  - intros n Hn. rewrite filter_filter_implied.
    + apply sorted_questions_stable.
    + intros x Hx. unfold has_number, is_listed in *.
      apply Z.eqb_eq in Hx. apply Z.leb_le. lia.
  - intros Hnd. apply NoDup_filter.
    now apply (Permutation_NoDup (Permutation_sym Hperm)).
  - intros STYLES_AVAILABLE selected_question user_choice.
    change (filter is_listed (Listing.sorted_questions questions_data))
      with listed.
    set (shown := General.create_layout STYLES_AVAILABLE questions_data
                                        selected_question user_choice).
    assert (Hshown : questions_data <> [] ->
              filter is_listed (Dict.keys questions_data) = [] ->
              shown = {| General.chart := None; General.data_table := None;
                         General.messages := [NoQuestionsAvailable] |}).
    { intros Hne E. unfold shown, General.create_layout.
      destruct questions_data as [|kv rest]; [congruence|].
      fold is_listed. now rewrite E. }
    split; [split|split].
    + intros Hin. unfold shown, General.create_layout in Hin.
      destruct questions_data as [|kv rest] eqn:Ed;
        [simpl in Hin; destruct Hin as [Hin|[]]; discriminate|].
      rewrite <- Ed in *. split; [rewrite Ed; discriminate|].
      apply Hempty. fold is_listed in Hin.
      destruct (filter is_listed (Dict.keys questions_data)) as [|x xs];
        [reflexivity|].
      exfalso.
      destruct (if String.eqb selected_question "" then None
                else Dict.get questions_data selected_question)
        as [question_data|];
        [|simpl in Hin; destruct Hin as [Hin|[]]; discriminate].
      destruct (General.create_chart_unified _ _ _ _) as [fig msgs] eqn:Ec.
      destruct (General.percentage_table _) as [tbl msgs'] eqn:Et.
      simpl in Hin. apply in_app_or in Hin. destruct Hin as [Hin|Hin].
      * match type of Ec with
        | General.create_chart_unified ?a ?b ?c ?d = _ =>
            pose proof (chart_messages a b c d NoQuestionsAvailable) as Hc
        end.
        rewrite Ec in Hc. destruct (Hc Hin) as [e He]. discriminate.
      * match type of Et with
        | General.percentage_table ?a = _ =>
            pose proof (table_messages a NoQuestionsAvailable) as Ht
        end.
        rewrite Et in Ht. destruct (Ht Hin); discriminate.
    + intros [Hne E]. rewrite (Hshown Hne (proj1 Hempty E)). now left.
    + intros Hne E. apply (Hshown Hne). now apply Hempty.
    + intros ->. reflexivity.
Qed.

Lemma filtered_questions_spec_witness :
  In "q1: Gender" (Listing.filtered_questions mixed_questions)
  /\ NoDup (Listing.filtered_questions mixed_questions)
  /\ General.create_layout false unnumbered_questions "Region" None
     = {| General.chart := None; General.data_table := None;
          General.messages := [NoQuestionsAvailable] |}.
Proof.
  destruct (filtered_questions_spec mixed_questions)
    as [Hin [_ [_ [Hnd _]]]].
  destruct (filtered_questions_spec unnumbered_questions)
    as [_ [_ [_ [_ Hpage]]]].
  split; [|split].
  - apply Hin. split; [|reflexivity]. simpl. tauto.
  - apply Hnd. simpl. repeat constructor; simpl; intuition discriminate.
  - apply (Hpage false "Region" None); [discriminate|reflexivity].
Defined.

(** The list for five questions in mixed order. *)
Example filtered_questions_example :
  Listing.filtered_questions mixed_questions
  = ["q1: Gender"; "Q3: Clusters"; "Q3: Outputs"].
Proof. reflexivity. Qed.

(* ================================================================== *)
(** ** Loading one year and loading all years *)
(* ================================================================== *)

Lemma general_year_filter_cases (selected_year : string)
  (df : Frame.DataFrame) :
  General.year_filter selected_year df = df
  \/ exists c p, General.year_filter selected_year df = Frame.select df c p.
Proof.
  unfold General.year_filter.
  destruct (String.eqb selected_year "All"); [now left|].
  destruct (Frame.has_column df "YEAR"); [right; now eexists _, _|].
  destruct (Frame.has_column df "year"); [right; now eexists _, _|now left].
Qed.

Lemma covered_refl (a : General.questions) : covered a a.
Proof. intros q d Hq. exists d. split; [exact Hq|apply incl_refl]. Qed.

Lemma covered_trans (a b c : General.questions) :
  covered a b -> covered b c -> covered a c.
Proof.
  intros Hab Hbc q d Hq.
  destruct (Hab q d Hq) as [d' [Hq' Hi]].
  destruct (Hbc q d' Hq') as [d'' [Hq'' Hi']].
  exists d''. split; [exact Hq''|]. now apply (incl_tran Hi).
Qed.

Lemma covered_keys (a b : General.questions) :
  covered a b -> incl (Dict.keys a) (Dict.keys b).
Proof.
  intros Hab q Hq. apply mem_true_iff in Hq. unfold Dict.mem in Hq.
  destruct (Dict.get a q) as [d|] eqn:E; [|discriminate].
  destruct (Hab q d E) as [d' [Hq' _]].
  apply get_Some_In in Hq'. now apply (in_map fst) in Hq'.
Qed.

Section RowByRow.
Variable cols : list string.

(** Whether a row is accepted does not depend on the rows before it. *)
Lemma add_row_outcome (a b : General.questions) (row : list Frame.cell) :
  match General.add_row cols a row, General.add_row cols b row with
  | Ok _, Ok _ => True
  | Raise e, Raise e' => e = e'
  | _, _ => False
  end.
Proof.
  unfold General.add_row.
  destruct (if Frame.notna _ then _ else _); simpl; auto.
Qed.

Lemma add_row_grows (b b' : General.questions) (row : list Frame.cell) :
  General.add_row cols b row = Ok b' -> covered b b'.
Proof.
  unfold General.add_row.
  destruct (if Frame.notna _ then _ else _) as [count|e]; simpl;
    [|discriminate].
  intros [= <-] q d Hq.
  set (question := Py.strip (Frame.str (Frame.at_column cols row "question"))).
  set (option := Py.strip (Frame.str (Frame.at_column cols row "option"))).
  destruct (String.eqb_spec question q) as [<-|Hne].
  - rewrite get_set_same. eexists. split; [reflexivity|].
    unfold Dict.get_default. rewrite Hq.
    intros o Ho. apply In_keys_set. now right.
  - rewrite get_set_other by exact Hne.
    exists d. split; [exact Hq|apply incl_refl].
Qed.

Lemma add_row_covered (a a' b b' : General.questions)
  (row : list Frame.cell) :
  covered a b ->
  General.add_row cols a row = Ok a' ->
  General.add_row cols b row = Ok b' ->
  covered a' b'.
Proof.
  unfold General.add_row.
  destruct (if Frame.notna _ then _ else _) as [count|e]; simpl;
    [|discriminate].
  set (question := Py.strip (Frame.str (Frame.at_column cols row "question"))).
  set (option := Py.strip (Frame.str (Frame.at_column cols row "option"))).
  intros Hab [= <-] [= <-] q d Hq.
  destruct (String.eqb_spec question q) as [<-|Hne].
  - rewrite get_set_same in Hq. injection Hq as <-.
    rewrite get_set_same. eexists. split; [reflexivity|].
    intros o Ho. apply In_keys_set. apply In_keys_set in Ho.
    destruct Ho as [->|Ho]; [now left|right].
    unfold Dict.get_default in *.
    destruct (Dict.get a question) as [da|] eqn:Ea; [|destruct Ho].
    destruct (Hab question da Ea) as [db [-> Hi]]. now apply Hi.
  - rewrite get_set_other in Hq by exact Hne.
    rewrite get_set_other by exact Hne. now apply Hab.
Qed.

(** The loop over a selection of the rows accepts what the loop over all
    rows accepts, and keeps no more. *)
Lemma add_rows_filter (p : list Frame.cell -> bool)
  (rows : list (list Frame.cell)) :
  forall a b b' : General.questions,
    covered a b ->
    General.add_rows cols b rows = Ok b' ->
    exists a',
      General.add_rows cols a (filter p rows) = Ok a' /\ covered a' b'.
Proof.
  induction rows as [|row rest IH]; intros a b b' Hab; simpl.
  - intros [= <-]. now exists a.
  - destruct (General.add_row cols b row) as [b1|e] eqn:Eb; simpl;
      [|discriminate].
    intros Hrest. destruct (p row); simpl.
    + pose proof (add_row_outcome a b row) as Ho. rewrite Eb in Ho.
      destruct (General.add_row cols a row) as [a1|e] eqn:Ea; [|destruct Ho].
      simpl. apply (IH a1 b1 b'); [|exact Hrest].
      now apply (add_row_covered a a1 b b1 row).
    + apply (IH a b1 b'); [|exact Hrest].
      apply (covered_trans a b b1 Hab). now apply (add_row_grows b b1 row).
Qed.

End RowByRow.

Lemma merge_other_has_option (questions_data : General.questions)
  (q o : string) :
  Py.contains "Q4:" q || Py.contains "Q5:" q = false \/ is_regular o = true ->
  has_option (General._merge_other_options questions_data) q o
  <-> has_option questions_data q o.
Proof.
  intros Hreg. unfold has_option. rewrite merge_other_table.
  assert (Hkeys : forall d, In o (Dict.keys (General.merge_other q d))
                            <-> In o (Dict.keys d)).
  { intros d. rewrite <- !mem_true_iff. unfold Dict.mem.
    now rewrite (merge_other_regular q o d Hreg). }
  split.
  - intros [d' [Hq Ho]].
    destruct (Dict.get questions_data q) as [d|]; [|discriminate].
    simpl in Hq. injection Hq as <-. exists d. split; [reflexivity|].
    now apply Hkeys.
  - intros [d [-> Ho]]. simpl. eexists. split; [reflexivity|].
    now apply Hkeys.
Qed.

(** Loading one year does not fail where loading all years succeeds, and
    it keeps no more: every question it keeps, and every option of a
    question other than the two catch-all labels that the Other-merge
    rewrites for Q4 and Q5, is kept by the load of all years; so it shows
    at most as many questions. *)
Theorem year_load_subset (selected_year : string) (df : Frame.DataFrame) :
  let all_years := General.load_table "All" df in
  let one_year := General.load_table selected_year df in
  existsb is_loading_error (snd all_years) = false ->
  existsb is_loading_error (snd one_year) = false
  /\ incl (Dict.keys (fst one_year)) (Dict.keys (fst all_years))
  /\ List.length (fst one_year) <= List.length (fst all_years)
  /\ (forall q o,
        Py.contains "Q4:" q || Py.contains "Q5:" q = false
        \/ is_regular o = true ->
        has_option (fst one_year) q o -> has_option (fst all_years) q o).
Proof.
  intros all_years one_year Hall.
  assert (Hcols : Frame.columns (General.year_filter selected_year df)
                  = Frame.columns df).
  { destruct (general_year_filter_cases selected_year df) as [->|[c [p ->]]];
      reflexivity. }
  assert (Hmain :
    existsb is_loading_error (snd one_year) = false
    /\ exists a b,
         covered a b /\ NoDup (Dict.keys a)
         /\ fst one_year = General._merge_other_options a
         /\ fst all_years = General._merge_other_options b).
  { unfold one_year, all_years in *. unfold General.load_table in *.
    change (General.year_filter "All" df) with df in *.
    unfold Frame.has_column in *. rewrite Hcols.
    destruct (negb _ || negb _ || negb _).
    { split; [reflexivity|]. exists [], []. split; [apply covered_refl|].
      split; [constructor|]. now split. }
    destruct (General.add_rows (Frame.columns df) [] (Frame.rows df))
      as [b|e] eqn:Eb;
      [|simpl in Hall; discriminate].
    assert (Ha : exists a,
              General.add_rows (Frame.columns df) []
                (Frame.rows (General.year_filter selected_year df)) = Ok a
              /\ covered a b).
    { destruct (general_year_filter_cases selected_year df)
        as [->|[c [p ->]]].
      - exists b. split; [exact Eb|apply covered_refl].
      - simpl. apply (add_rows_filter _ _ _ [] [] b (covered_refl [])).
        exact Eb. }
    destruct Ha as [a [Ea Hab]]. rewrite Ea.
    assert (Hnd : NoDup (Dict.keys a)).
    { apply (add_rows_well_formed _ _ _ _ Ea). apply well_formed_empty. }
    split; [now destruct a|].
    exists a, b. split; [exact Hab|]. split; [exact Hnd|].
    split; [now destruct a|now destruct b]. }
  destruct Hmain as [Hok [a [b [Hab [Hnd [-> ->]]]]]].
  split; [exact Hok|]. rewrite !merge_other_keys.
  split; [now apply covered_keys|]. split.
  - rewrite <- (length_map fst (General._merge_other_options a)).
    rewrite <- (length_map fst (General._merge_other_options b)).
    fold (Dict.keys (General._merge_other_options a)).
    fold (Dict.keys (General._merge_other_options b)).
    rewrite !merge_other_keys.
    apply NoDup_incl_length; [exact Hnd|now apply covered_keys].
  - intros q o Hreg Ho.
    apply (merge_other_has_option a q o Hreg) in Ho.
    apply (merge_other_has_option b q o Hreg).
    destruct Ho as [d [Hq Hin]].
    destruct (Hab q d Hq) as [d' [Hq' Hi]].
    exists d'. split; [exact Hq'|now apply Hi].
Qed.

Lemma year_load_subset_witness :
  Dict.keys (fst (General.load_table "2024" table_by_year)) = ["Q1: X"]
  /\ incl (Dict.keys (fst (General.load_table "2024" table_by_year)))
          (Dict.keys (fst (General.load_table "All" table_by_year)))
  /\ (has_option (fst (General.load_table "2024" table_by_year)) "Q1: X" "No"
      -> has_option (fst (General.load_table "All" table_by_year))
                    "Q1: X" "No").
Proof.
  destruct (year_load_subset "2024" table_by_year) as [_ [Hkeys [_ Hopts]]];
    [reflexivity|].
  split; [reflexivity|]. split; [exact Hkeys|].
  apply Hopts. now left.
Defined.

(* ================================================================== *)
(** ** The first row that the loader rejects *)
(* ================================================================== *)

Lemma add_rows_app (cols : list string) (pre post : list (list Frame.cell)) :
  forall qd : General.questions,
    General.add_rows cols qd (pre ++ post)
    = bind (General.add_rows cols qd pre)
           (fun qd' => General.add_rows cols qd' post).
Proof.
  induction pre as [|row rest IH]; intros qd; simpl; [reflexivity|].
  destruct (General.add_row cols qd row); simpl; [apply IH|reflexivity].
Qed.

(** The loader stops at the first row, in the order of the table, whose
    count is a text that [int] rejects: it keeps nothing of the table and
    its one message carries the error for that text. *)
Theorem load_table_first_bad_count (selected_year : string)
  (df : Frame.DataFrame) (pre post : list (list Frame.cell))
  (row : list Frame.cell) (s : string) :
  let df' := General.year_filter selected_year df in
  let cols := Frame.columns df' in
  Frame.has_column df' "question" = true ->
  Frame.has_column df' "option" = true ->
  Frame.has_column df' "count" = true ->
  Frame.rows df' = pre ++ row :: post ->
  (forall r, In r pre ->
     count_converts (Frame.at_column cols r "count") = true) ->
  Frame.at_column cols row "count" = Frame.Str s ->
  Py.parse_int s = None ->
  General.load_table selected_year df
  = ([], [ErrorLoadingData (InvalidLiteral s)]).
Proof.
  intros df' cols Hq Ho Hc Hrows Hpre Hcell Hparse.
  unfold General.load_table. fold df'. rewrite Hq, Ho, Hc. simpl.
  fold cols. rewrite Hrows, add_rows_app.
  destruct (add_rows_converts cols pre [] Hpre) as [qd [-> _]].
  simpl. unfold General.add_row. rewrite Hcell. simpl.
  rewrite Hparse. reflexivity.
Qed.

Lemma load_table_first_bad_count_witness :
  General.load_table "All" table_with_text
  = ([], [ErrorLoadingData (InvalidLiteral "twelve")]).
Proof.
  apply (load_table_first_bad_count "All" table_with_text
           [[Frame.Str "Q1: X"; Frame.Str "Yes"; Frame.Str "30"]] []
           [Frame.Str "Q1: X"; Frame.Str "No"; Frame.Str "twelve"] "twelve");
    try reflexivity.
  intros r [<-|[]]. reflexivity.
Defined.

(* ================================================================== *)
(** ** Titles that are left alone *)
(* ================================================================== *)

Lemma lstrip_by_length (p : ascii -> bool) (s : string) :
  String.length (Py.lstrip_by p s) <= String.length s.
Proof.
  destruct (lstrip_by_spec p s) as [lead [E _]].
  rewrite E at 2. rewrite length_append. lia.
Qed.

Lemma rstrip_by_length (p : ascii -> bool) (s : string) :
  String.length (Py.rstrip_by p s) <= String.length s.
Proof.
  destruct (rstrip_by_spec p s) as [trail [E _]].
  rewrite E at 2. rewrite length_append. lia.
Qed.

Lemma strip_length (s : string) :
  String.length (Py.strip s) <= String.length s.
Proof.
  unfold Py.strip.
  pose proof (rstrip_by_length Py.is_space (Py.lstrip_by Py.is_space s)).
  pose proof (lstrip_by_length Py.is_space s). lia.
Qed.

(** A title of at most 50 characters is never changed, whatever it
    contains; a title with the marker "Q2:" or "Q3:" is not changed up to
    79 characters. *)
Theorem short_titles_unchanged (title : string) :
  (String.length title <= 50 ->
   General.process_title_for_display title = title)
  /\ (Py.contains "Q2:" title || Py.contains "Q3:" title = true ->
      String.length title <= 79 ->
      General.process_title_for_display title = title).
Proof.
  assert (Hmarked : Py.contains "Q2:" title || Py.contains "Q3:" title = true ->
                    String.length title <= 79 ->
                    General.process_title_for_display title = title).
  { intros Hm Hlen. unfold General.process_title_for_display.
    destruct (String.eqb title ""); [reflexivity|]. rewrite Hm.
    destruct (Py.split_once ":" title) as [[before rest]|] eqn:Es.
    - destruct (split_once_spec _ _ _ _ Es) as [E _].
      pose proof (strip_length rest) as Hs.
      apply (f_equal String.length) in E.
      rewrite length_append in E. simpl in E.
      rewrite length_append. simpl.
      destruct (Nat.leb_spec
                  (String.length before + 1 + String.length (Py.strip rest) + 1)
                  80); [reflexivity|lia].
    - exfalso. apply orb_true_iff in Hm.
      destruct Hm as [H|H]; apply marker_has_colon in H; congruence. }
  split; [|exact Hmarked].
  intros Hlen.
  destruct (Py.contains "Q2:" title || Py.contains "Q3:" title) eqn:Hm.
  - apply Hmarked; [reflexivity|lia].
  - unfold General.process_title_for_display.
    destruct (String.eqb title ""); [reflexivity|]. rewrite Hm.
    unfold General.max_length. apply Nat.leb_le in Hlen. now rewrite Hlen.
Qed.

Lemma short_titles_unchanged_witness :
  General.process_title_for_display
    "Q3: Which clusters of the implementation framework did your unit support?"
  = "Q3: Which clusters of the implementation framework did your unit support?".
Proof.
  apply (proj2 (short_titles_unchanged
                  "Q3: Which clusters of the implementation framework did your unit support?")).
  - reflexivity.
  - vm_compute. lia.
Defined.
